(** * oip-crawler: the retrieval loop of [crawler.py]

    A shallow embedding of [crawler.py] and the properties of its
    retrieval loop: URL sequencing, the content gate, file naming,
    resumable skipping, manifest construction and completion status.

    Python [int] is [Z]; Python [str] is [string] (a sequence of 8-bit
    characters: UTF-8 bytes for URLs, bodies and messages, latin-1 code
    points for header values, which is how the HTTP library hands them
    over); a finite Python [float] is a rational number.  The file
    system, the network and the clock are an explicit world threaded
    through a small state-and-exception monad. *)

From Stdlib Require Import ZArith Ascii QArith Lia.
From stdpp Require Import base option list gmap strings.

Local Open Scope Z_scope.

(** ** Python built-ins used by the crawler *)

Module Py.

(** The exceptions that can leave the modelled code.  [OutsideFragment]
    is not a Python exception: it marks a [str.format] template that uses
    a part of the format mini-language this development does not model
    (conversions, format specs, attribute or index access). *)
Inductive exn : Type :=
  | ValueError
  | KeyError
  | IndexError
  | OverflowError
  | OSError
  | SystemExit (code : Z)
  | OutsideFragment.

Inductive result (A : Type) : Type :=
  | Ok (a : A)
  | Raise (e : exn).
Arguments Ok {A} a.
Arguments Raise {A} e.

Definition LF : string := String (ascii_of_nat 10) EmptyString.
Definition TAB : string := String (ascii_of_nat 9) EmptyString.

(** [len(s)] *)
Definition len (s : string) : Z := Z.of_nat (String.length s).

(** *** [str(n)] for an [int] *)

Definition digit_char (d : Z) : ascii := ascii_of_N (48 + Z.to_N d).

Fixpoint dec_go (fuel : nat) (n : Z) (acc : string) : string :=
  match fuel with
  | O => String (digit_char n) acc
  | S f =>
      if n <? 10 then String (digit_char n) acc
      else dec_go f (n / 10) (String (digit_char (n mod 10)) acc)
  end.

(** Decimal digits of a natural number, most significant first.  The fuel
    [log2 n] is enough: every division by ten drops at least one bit. *)
Definition dec (n : Z) : string := dec_go (Z.to_nat (Z.log2 n)) n EmptyString.

Definition str (n : Z) : string :=
  if n <? 0 then "-" +:+ dec (- n) else dec n.

Fixpoint zeros (k : nat) : string :=
  match k with
  | O => EmptyString
  | S k' => String "0"%char (zeros k')
  end.

(** [format(i, "0{w}d")]: sign-aware zero padding to width [w].  A
    negative [w] makes the spec ["0-5d"], which [format] rejects. *)
Definition format_0wd (i w : Z) : result string :=
  if w <? 0 then Raise ValueError
  else
    let sign := if i <? 0 then "-" else EmptyString in
    let body := dec (Z.abs i) in
    Ok (sign +:+ zeros (Z.to_nat (w - len sign - len body)) +:+ body).

(** *** [str.lower] on latin-1 text *)

Definition lower_char (c : ascii) : ascii :=
  let n := N_of_ascii c in
  if ((65 <=? n) && (n <=? 90))%N
     || ((192 <=? n) && (n <=? 222) && negb (n =? 215))%N
  then ascii_of_N (n + 32)
  else c.

Fixpoint lower (s : string) : string :=
  match s with
  | EmptyString => EmptyString
  | String c r => String (lower_char c) (lower r)
  end.

(** *** [sub in s] and [s.startswith(p)] *)

Definition startswith (s p : string) : bool := String.prefix p s.

Fixpoint contains (sub s : string) : bool :=
  String.prefix sub s
  || match s with
     | EmptyString => false
     | String _ r => contains sub r
     end.

(** *** [sep.join(parts)] *)

Definition join (sep : string) (parts : list string) : string :=
  String.concat sep parts.

(** *** [template.format(n=n)]

    The modelled fragment: literal text, the escapes [{{] and [}}], and
    replacement fields that hold a bare name.  The only keyword argument
    is [n]; an empty or numeric field name asks for a positional argument,
    of which there are none, and a numeral above [sys.maxsize] is not
    even an index. *)

Definition is_digit (c : ascii) : bool :=
  let n := N_of_ascii c in ((48 <=? n) && (n <=? 57))%N.

Fixpoint all_digits (s : string) : bool :=
  match s with
  | EmptyString => true
  | String c r => is_digit c && all_digits r
  end.

(** The number a numeric field name denotes, read digit by digit. *)
Fixpoint int_of_digits (acc : Z) (s : string) : Z :=
  match s with
  | EmptyString => acc
  | String c r => int_of_digits (10 * acc + (Z.of_N (N_of_ascii c) - 48)) r
  end.

(** [sys.maxsize] of a 64-bit interpreter *)
Definition maxsize : Z := 2 ^ 63 - 1.

Definition field_value (n : Z) (name : string) : result string :=
  if String.eqb name "n" then Ok (str n)
  else if all_digits name then
    if maxsize <? int_of_digits 0 name then Raise ValueError
    else Raise IndexError
  else Raise KeyError.

Inductive scan_mode : Type :=
  | InText
  | InField (name : string).

Fixpoint format_scan (n : Z) (m : scan_mode) (s : string) : result string :=
  match m, s with
  | InText, EmptyString => Ok EmptyString
  | InText, String c r =>
      if Ascii.eqb c "{" then
        match r with
        | String "{"%char r' =>
            match format_scan n InText r' with
            | Ok out => Ok (String "{" out)
            | Raise e => Raise e
            end
        | _ => format_scan n (InField EmptyString) r
        end
      else if Ascii.eqb c "}" then
        match r with
        | String "}"%char r' =>
            match format_scan n InText r' with
            | Ok out => Ok (String "}" out)
            | Raise e => Raise e
            end
        | _ => Raise ValueError
        end
      else
        match format_scan n InText r with
        | Ok out => Ok (String c out)
        | Raise e => Raise e
        end
  | InField name, EmptyString => Raise ValueError
  | InField name, String c r =>
      if Ascii.eqb c "}" then
        match field_value n name with
        | Ok v =>
            match format_scan n InText r with
            | Ok out => Ok (v +:+ out)
            | Raise e => Raise e
            end
        | Raise e => Raise e
        end
      else if Ascii.eqb c "{" then Raise ValueError
      else if Ascii.eqb c "!" || Ascii.eqb c ":"
              || Ascii.eqb c "." || Ascii.eqb c "["
      then Raise OutsideFragment
      else format_scan n (InField (name +:+ String c EmptyString)) r
  end.

Definition format_n (template : string) (n : Z) : result string :=
  format_scan n InText template.

End Py.

(** ** The world outside the program *)

(** A response as the crawler reads it.  [headers] is the HTTP library's
    case-insensitive dictionary: it is keyed by the lower-cased header
    name. *)
Record Response : Type := mkResponse {
  status_code : Z;
  headers : gmap string string;
  text : string;
}.

Definition headers_get (resp : Response) (name default_value : string) : string :=
  default default_value (headers resp !! Py.lower name).

(** What a call of [session.get] comes to: a
    [requests.RequestException] (the transport gave up, retries
    included), a final response, or the [ValueError] with which the
    transport refuses a timeout that is not positive, and which is no
    [RequestException]. *)
Inductive fetch_result : Type :=
  | RequestException (message : string)
  | Received (resp : Response)
  | InvalidTimeout.

(** Why [time.sleep] refuses a length that is not negative: the
    interpreter cannot hold it as a timestamp (from about 9.2e9 seconds
    on), the operating system rejects the deadline, or the conversion
    wraps around to a negative length. *)
Inductive sleep_refusal : Type :=
  | TooLong
  | Unschedulable
  | Wrapped.

Definition refusal_exn (r : sleep_refusal) : Py.exn :=
  match r with
  | TooLong => Py.OverflowError
  | Unschedulable => Py.OSError
  | Wrapped => Py.ValueError
  end.

Record Retry : Type := mkRetry {
  retry_total : Z;
  backoff_factor : Q;
  status_forcelist : list Z;
  allowed_methods : list string;
  raise_on_status : bool;
}.

Record Session : Type := mkSession {
  session_headers : list (string * string);
  max_retries : Retry;
}.

(** The part of the world the program cannot change: how the remote side
    answers a GET (given the session, the requests made so far, the URL
    and the timeout), the paths on which creating a directory or
    opening a file for writing raises [OSError], and the lengths that
    [time.sleep] refuses. *)
Record Env : Type := mkEnv {
  remote : Session -> list string -> string -> Q -> fetch_result;
  denied : gset string;
  sleep_refused : Q -> option sleep_refusal;
}.

(** The part the program changes: regular files and their content, and
    the trace of GET requests, sleeps and printed lines.  Directories
    are not represented: of the directory that [os.makedirs] creates,
    only a failure to create it shows. *)
Record World : Type := mkWorld {
  files : gmap string string;
  requests : list string;
  sleeps : list Q;
  stdout : list string;
}.

(** ** State and exceptions *)

Definition M (A : Type) : Type := World -> Py.result A * World.

#[export] Instance M_ret : MRet M := fun A a w => (Py.Ok a, w).

#[export] Instance M_bind : MBind M := fun A B f m w =>
  match m w with
  | (Py.Ok a, w') => f a w'
  | (Py.Raise e, w') => (Py.Raise e, w')
  end.

Definition raise {A : Type} (e : Py.exn) : M A := fun w => (Py.Raise e, w).

Definition lift {A : Type} (r : Py.result A) : M A := fun w => (r, w).

(** [print(line)], on a standard output that takes every line *)
Definition print (line : string) : M unit := fun w =>
  (Py.Ok tt,
   {| files := files w; requests := requests w; sleeps := sleeps w;
      stdout := stdout w ++ [line] |}).

(** [time.sleep(seconds)]: a negative length is an error (reported here
    as [ValueError] throughout), and so is a length that the interpreter
    or the operating system refuses. *)
Definition time_sleep (env : Env) (seconds : Q) : M unit := fun w =>
  if Qle_bool 0 seconds then
    match sleep_refused env seconds with
    | Some r => (Py.Raise (refusal_exn r), w)
    | None =>
        (Py.Ok tt,
         {| files := files w; requests := requests w;
            sleeps := sleeps w ++ [seconds]; stdout := stdout w |})
    end
  else (Py.Raise Py.ValueError, w).

(** [os.path.exists(path)] *)
Definition os_path_exists (path : string) : M bool := fun w =>
  (Py.Ok (bool_decide (is_Some (files w !! path))), w).

(** [os.path.getsize(path)] *)
Definition os_path_getsize (path : string) : M Z := fun w =>
  match files w !! path with
  | Some content => (Py.Ok (Py.len content), w)
  | None => (Py.Raise Py.OSError, w)
  end.

(** [with open(path, "w", ...) as f: f.write(content)] *)
Definition write_file (env : Env) (path content : string) : M unit := fun w =>
  if bool_decide (path ∈ denied env) then (Py.Raise Py.OSError, w)
  else
    (Py.Ok tt,
     {| files := <[path := content]> (files w); requests := requests w;
        sleeps := sleeps w; stdout := stdout w |}).

(** [os.makedirs(path, exist_ok=True)]: it creates the directory and its
    missing parents, none of which is a regular file. *)
Definition os_makedirs (env : Env) (path : string) : M unit := fun w =>
  if bool_decide (path ∈ denied env) then (Py.Raise Py.OSError, w)
  else (Py.Ok tt, w).

(** [session.get(url, timeout=timeout)]: a refused timeout raises before
    anything is sent. *)
Definition session_get (env : Env) (session : Session) (url : string) (timeout : Q)
  : M fetch_result := fun w =>
  match remote env session (requests w) url timeout with
  | InvalidTimeout => (Py.Raise Py.ValueError, w)
  | got =>
      (Py.Ok got,
       {| files := files w; requests := requests w ++ [url];
          sleeps := sleeps w; stdout := stdout w |})
  end.

(** [os.path.join(a, b)] on a POSIX system *)
Fixpoint endswith (s p : string) : bool :=
  String.eqb s p
  || match s with
     | EmptyString => false
     | String _ r => endswith r p
     end.

Definition os_path_join (a b : string) : string :=
  if Py.startswith b "/" then b
  else if String.eqb a EmptyString || endswith a "/" then a +:+ b
  else a +:+ "/" +:+ b.

(** ** The crawler *)

(** [delay_sec] and [timeout_sec] are finite floats; the infinities and
    NaN, which [time.sleep] refuses, have no counterpart here. *)
Record CrawlerConfig : Type := mkConfig {
  base_url : string;
  start_page : Z;
  end_page : Z;
  out_dir : string;
  index_path : string;
  delay_sec : Q;
  timeout_sec : Q;
  user_agent : string;
}.

(** [range(start, stop)] *)
Definition range (start stop : Z) : list Z := seqZ start (stop - start).

Fixpoint build_urls_over (base_url : string) (pages : list Z)
  : Py.result (list (Z * string)) :=
  match pages with
  | [] => Py.Ok []
  | n :: rest =>
      match Py.format_n base_url n with
      | Py.Ok url =>
          match build_urls_over base_url rest with
          | Py.Ok urls => Py.Ok ((n, url) :: urls)
          | Py.Raise e => Py.Raise e
          end
      | Py.Raise e => Py.Raise e
      end
  end.

Definition build_urls (base_url : string) (start_page end_page : Z)
  : Py.result (list (Z * string)) :=
  build_urls_over base_url (range start_page (end_page + 1)).

Definition make_session (user_agent : string) : Session :=
  {| session_headers :=
       [("User-Agent", user_agent);
        ("Accept", "text/html,application/xhtml+xml,application/xml;q=0.9,*/*;q=0.8");
        ("Accept-Language", "ru,en;q=0.8");
        ("Connection", "keep-alive")];
     max_retries :=
       {| retry_total := 5;
          backoff_factor := (8 # 10)%Q;
          status_forcelist := [429; 500; 502; 503; 504];
          allowed_methods := ["GET"];
          raise_on_status := false |} |}.

Definition is_html_response (resp : Response) : bool :=
  let ctype := Py.lower (headers_get resp "Content-Type" EmptyString) in
  Py.contains "text/html" ctype
  || Py.contains "application/xhtml+xml" ctype
  || Py.startswith ctype "text/".

Definition ensure_dir (env : Env) (path : string) : M unit :=
  os_makedirs env path.

Definition file_name_for_index (i total_digits : Z) : Py.result string :=
  match Py.format_0wd i total_digits with
  | Py.Ok padded => Py.Ok (padded +:+ ".html")
  | Py.Raise e => Py.Raise e
  end.

(** The prefix ["[{idx}/{total}] "] of the progress lines. *)
Definition progress (idx total : Z) : string :=
  "[" +:+ Py.str idx +:+ "/" +:+ Py.str total +:+ "] ".

(** The manifest line ["{fname}\t{url}"]. *)
Definition index_line (fname url : string) : string :=
  fname +:+ Py.TAB +:+ url.

(** [max(4, len(str(total)))] *)
Definition digits_for (total : Z) : Z := Z.max 4 (Py.len (Py.str total)).

(** One iteration of the [for] loop of [crawl]; the state is
    [(index_lines, downloaded)], and [continue] returns it. *)
Definition crawl_target (env : Env) (config : CrawlerConfig) (session : Session)
    (total digits idx : Z) (url : string) (st : list string * Z)
  : M (list string * Z) :=
  fname ← lift (file_name_for_index idx digits);
  let out_path := os_path_join (out_dir config) fname in
  present ← (found ← os_path_exists out_path;
             if found : bool then size ← os_path_getsize out_path; mret (0 <? size)
             else mret false);
  if present : bool then
    print (progress idx total +:+ "Уже скачан: " +:+ fname);;
    mret (st.1 ++ [index_line fname url], st.2 + 1)
  else
    got ← session_get env session url (timeout_sec config);
    match got with
    | RequestException message =>
        print (progress idx total +:+ "Ошибка запроса: " +:+ url);;
        print message;;
        mret st
    | InvalidTimeout => raise Py.ValueError (* as [session_get] has done *)
    | Received resp =>
        if negb (status_code resp =? 200) then
          print (progress idx total +:+ "HTTP " +:+ Py.str (status_code resp)
                 +:+ ": " +:+ url);;
          mret st
        else if negb (is_html_response resp) then
          print (progress idx total +:+ "Не текстовая страница: " +:+ url);;
          mret st
        else
          let html_text := text resp in
          write_file env out_path html_text;;
          let st' := (st.1 ++ [index_line fname url], st.2 + 1) in
          print (progress idx total +:+ "OK -> " +:+ fname);;
          time_sleep env (delay_sec config);;
          mret st'
    end.

(** [for idx, (n, url) in enumerate(targets, start=idx): ...] *)
Fixpoint crawl_loop (env : Env) (config : CrawlerConfig) (session : Session)
    (total digits idx : Z) (targets : list (Z * string)) (st : list string * Z)
  : M (list string * Z) :=
  match targets with
  | [] => mret st
  | (n, url) :: rest =>
      st' ← crawl_target env config session total digits idx url st;
      crawl_loop env config session total digits (idx + 1) rest st'
  end.

(** The manifest text ["\n".join(index_lines) + "\n"]. *)
Definition manifest_text (index_lines : list string) : string :=
  Py.join Py.LF index_lines +:+ Py.LF.

Definition crawl (env : Env) (config : CrawlerConfig) : M unit :=
  ensure_dir env (out_dir config);;
  let session := make_session (user_agent config) in
  targets ← lift (build_urls (base_url config) (start_page config) (end_page config));
  let total := Z.of_nat (length targets) in
  let digits := digits_for total in
  print ("Будет скачано страниц: " +:+ Py.str total);;
  print ("Начинаем..." +:+ Py.LF);;
  st ← crawl_loop env config session total digits 1 targets ([], 0);
  write_file env (index_path config) (manifest_text st.1);;
  print (Py.LF +:+ "Готово.");;
  print ("Скачано: " +:+ Py.str st.2 +:+ "/" +:+ Py.str total);;
  if st.2 <? total then
    print "Некоторые страницы не скачались. Можно запустить повторно.";;
    raise (Py.SystemExit 2)
  else mret tt.

(** The exit status of the process that runs [crawl(config)] as its last
    statement: 0 on return, the code of [sys.exit], 1 for an exception
    that nothing catches. *)
Definition exit_status (r : Py.result unit) : Z :=
  match r with
  | Py.Ok _ => 0
  | Py.Raise (Py.SystemExit code) => code
  | Py.Raise _ => 1
  end.

(** ** Notions used to state the properties *)

(** The number a string of decimal digits denotes. *)
Definition digit_val (c : ascii) : Z := Z.of_N (N_of_ascii c) - 48.

Fixpoint str_val (s : string) : Z :=
  match s with
  | EmptyString => 0
  | String c r => digit_val c * 10 ^ Py.len r + str_val r
  end.

(** The name [file_name_for_index] gives the file of index [idx], and the
    path [crawl] joins it to. *)
Definition file_name (idx digits : Z) : string :=
  match file_name_for_index idx digits with
  | Py.Ok fname => fname
  | Py.Raise _ => EmptyString
  end.

Definition out_path (config : CrawlerConfig) (digits idx : Z) : string :=
  os_path_join (out_dir config) (file_name idx digits).

(** The resumability test [os.path.exists(p) and os.path.getsize(p) > 0]
    as a function of the files. *)
Definition saved_before (w : World) (path : string) : bool :=
  match files w !! path with
  | Some content => 0 <? Py.len content
  | None => false
  end.

(** What one iteration can do to the loop state and the world; [st] and
    [w] are the state and world before it. *)
Inductive target_step (env : Env) (config : CrawlerConfig) (session : Session)
    (digits idx : Z) (url : string) (st : list string * Z) (w : World)
  : Py.result (list string * Z) → World → Prop :=
  | step_skipped w1 :
      saved_before w (out_path config digits idx) = true →
      files w1 = files w → requests w1 = requests w → sleeps w1 = sleeps w →
      target_step env config session digits idx url st w
        (Py.Ok (st.1 ++ [index_line (file_name idx digits) url], st.2 + 1)) w1
  | step_request_failed message w1 :
      saved_before w (out_path config digits idx) = false →
      remote env session (requests w) url (timeout_sec config)
        = RequestException message →
      files w1 = files w → requests w1 = requests w ++ [url] →
      sleeps w1 = sleeps w →
      target_step env config session digits idx url st w (Py.Ok st) w1
  | step_bad_status resp w1 :
      saved_before w (out_path config digits idx) = false →
      remote env session (requests w) url (timeout_sec config) = Received resp →
      status_code resp ≠ 200 →
      files w1 = files w → requests w1 = requests w ++ [url] →
      sleeps w1 = sleeps w →
      target_step env config session digits idx url st w (Py.Ok st) w1
  | step_rejected resp w1 :
      saved_before w (out_path config digits idx) = false →
      remote env session (requests w) url (timeout_sec config) = Received resp →
      status_code resp = 200 → is_html_response resp = false →
      files w1 = files w → requests w1 = requests w ++ [url] →
      sleeps w1 = sleeps w →
      target_step env config session digits idx url st w (Py.Ok st) w1
  | step_write_failed resp w1 :
      saved_before w (out_path config digits idx) = false →
      remote env session (requests w) url (timeout_sec config) = Received resp →
      status_code resp = 200 → is_html_response resp = true →
      out_path config digits idx ∈ denied env →
      files w1 = files w → requests w1 = requests w ++ [url] →
      sleeps w1 = sleeps w →
      target_step env config session digits idx url st w (Py.Raise Py.OSError) w1
  | step_sleep_failed resp w1 :
      saved_before w (out_path config digits idx) = false →
      remote env session (requests w) url (timeout_sec config) = Received resp →
      status_code resp = 200 → is_html_response resp = true →
      out_path config digits idx ∉ denied env →
      Qle_bool 0 (delay_sec config) = false →
      files w1 = <[out_path config digits idx := text resp]> (files w) →
      requests w1 = requests w ++ [url] → sleeps w1 = sleeps w →
      target_step env config session digits idx url st w (Py.Raise Py.ValueError) w1
  | step_saved resp w1 :
      saved_before w (out_path config digits idx) = false →
      remote env session (requests w) url (timeout_sec config) = Received resp →
      status_code resp = 200 → is_html_response resp = true →
      out_path config digits idx ∉ denied env →
      Qle_bool 0 (delay_sec config) = true →
      files w1 = <[out_path config digits idx := text resp]> (files w) →
      requests w1 = requests w ++ [url] →
      sleeps w1 = sleeps w ++ [delay_sec config] →
      sleep_refused env (delay_sec config) = None →
      target_step env config session digits idx url st w
        (Py.Ok (st.1 ++ [index_line (file_name idx digits) url], st.2 + 1)) w1
  | step_sleep_refused resp refusal w1 :
      saved_before w (out_path config digits idx) = false →
      remote env session (requests w) url (timeout_sec config) = Received resp →
      status_code resp = 200 → is_html_response resp = true →
      out_path config digits idx ∉ denied env →
      Qle_bool 0 (delay_sec config) = true →
      files w1 = <[out_path config digits idx := text resp]> (files w) →
      requests w1 = requests w ++ [url] → sleeps w1 = sleeps w →
      sleep_refused env (delay_sec config) = Some refusal →
      target_step env config session digits idx url st w
        (Py.Raise (refusal_exn refusal)) w1
  | step_timeout_refused w1 :
      saved_before w (out_path config digits idx) = false →
      remote env session (requests w) url (timeout_sec config) = InvalidTimeout →
      files w1 = files w → requests w1 = requests w → sleeps w1 = sleeps w →
      target_step env config session digits idx url st w
        (Py.Raise Py.ValueError) w1.

(** The manifest lines of all targets, of the targets whose file was
    already saved in [w], and the URLs of the others, for targets
    numbered from [idx]. *)
Fixpoint all_lines (digits idx : Z) (targets : list (Z * string)) : list string :=
  match targets with
  | [] => []
  | (n, url) :: rest =>
      index_line (file_name idx digits) url :: all_lines digits (idx + 1) rest
  end.

Fixpoint saved_lines (config : CrawlerConfig) (digits : Z) (w : World)
    (idx : Z) (targets : list (Z * string)) : list string :=
  match targets with
  | [] => []
  | (n, url) :: rest =>
      if saved_before w (out_path config digits idx)
      then index_line (file_name idx digits) url
           :: saved_lines config digits w (idx + 1) rest
      else saved_lines config digits w (idx + 1) rest
  end.

Fixpoint pending_urls (config : CrawlerConfig) (digits : Z) (w : World)
    (idx : Z) (targets : list (Z * string)) : list string :=
  match targets with
  | [] => []
  | (n, url) :: rest =>
      if saved_before w (out_path config digits idx)
      then pending_urls config digits w (idx + 1) rest
      else url :: pending_urls config digits w (idx + 1) rest
  end.

(** [enumerate(targets, start=start)] *)
Fixpoint enumerate (start : Z) (targets : list (Z * string))
  : list (Z * (Z * string)) :=
  match targets with
  | [] => []
  | t :: rest => (start, t) :: enumerate (start + 1) rest
  end.

(** The world after [print(line)]. *)
Definition printed (w : World) (line : string) : World := (print line w).2.

(** The world in which the loop of [crawl] starts: two lines announce the
    run. *)
Definition started (total : Z) (w : World) : World :=
  printed (printed w ("Будет скачано страниц: " +:+ Py.str total))
    ("Начинаем..." +:+ Py.LF).

(** The summary line ["Скачано: {downloaded}/{total}"]. *)
Definition summary_line (downloaded total : Z) : string :=
  "Скачано: " +:+ Py.str downloaded +:+ "/" +:+ Py.str total.

(** The ways a call of [crawl] can end; [w] is the world before it. *)
Inductive crawl_run (env : Env) (config : CrawlerConfig) (w : World)
  : Py.result unit → World → Prop :=
  | run_no_directory :
      out_dir config ∈ denied env →
      crawl_run env config w (Py.Raise Py.OSError) w
  | run_bad_template e :
      out_dir config ∉ denied env →
      build_urls (base_url config) (start_page config) (end_page config)
        = Py.Raise e →
      crawl_run env config w (Py.Raise e) w
  | run_loop_raised targets e w1 :
      out_dir config ∉ denied env →
      build_urls (base_url config) (start_page config) (end_page config)
        = Py.Ok targets →
      crawl_loop env config (make_session (user_agent config))
        (Z.of_nat (length targets)) (digits_for (Z.of_nat (length targets)))
        1 targets ([], 0) (started (Z.of_nat (length targets)) w)
      = (Py.Raise e, w1) →
      crawl_run env config w (Py.Raise e) w1
  | run_manifest_failed targets st w1 :
      out_dir config ∉ denied env →
      build_urls (base_url config) (start_page config) (end_page config)
        = Py.Ok targets →
      crawl_loop env config (make_session (user_agent config))
        (Z.of_nat (length targets)) (digits_for (Z.of_nat (length targets)))
        1 targets ([], 0) (started (Z.of_nat (length targets)) w)
      = (Py.Ok st, w1) →
      index_path config ∈ denied env →
      crawl_run env config w (Py.Raise Py.OSError) w1
  | run_incomplete targets st w1 w2 :
      out_dir config ∉ denied env →
      build_urls (base_url config) (start_page config) (end_page config)
        = Py.Ok targets →
      crawl_loop env config (make_session (user_agent config))
        (Z.of_nat (length targets)) (digits_for (Z.of_nat (length targets)))
        1 targets ([], 0) (started (Z.of_nat (length targets)) w)
      = (Py.Ok st, w1) →
      index_path config ∉ denied env →
      st.2 < Z.of_nat (length targets) →
      files w2 = <[index_path config := manifest_text st.1]> (files w1) →
      requests w2 = requests w1 → sleeps w2 = sleeps w1 →
      stdout w2
      = stdout w1
        ++ [Py.LF +:+ "Готово.";
            summary_line st.2 (Z.of_nat (length targets));
            "Некоторые страницы не скачались. Можно запустить повторно."] →
      crawl_run env config w (Py.Raise (Py.SystemExit 2)) w2
  | run_complete targets st w1 w2 :
      out_dir config ∉ denied env →
      build_urls (base_url config) (start_page config) (end_page config)
        = Py.Ok targets →
      crawl_loop env config (make_session (user_agent config))
        (Z.of_nat (length targets)) (digits_for (Z.of_nat (length targets)))
        1 targets ([], 0) (started (Z.of_nat (length targets)) w)
      = (Py.Ok st, w1) →
      index_path config ∉ denied env →
      Z.of_nat (length targets) ≤ st.2 →
      files w2 = <[index_path config := manifest_text st.1]> (files w1) →
      requests w2 = requests w1 → sleeps w2 = sleeps w1 →
      stdout w2
      = stdout w1
        ++ [Py.LF +:+ "Готово.";
            summary_line st.2 (Z.of_nat (length targets))] →
      crawl_run env config w (Py.Ok tt) w2.

(** A template without braces has no replacement field. *)
Fixpoint brace_free (s : string) : bool :=
  match s with
  | EmptyString => true
  | String c r => negb (Ascii.eqb c "{") && negb (Ascii.eqb c "}") && brace_free r
  end.

(** The number of lines of a text: one per newline, and one more for an
    unterminated last line. *)
Fixpoint line_count (s : string) : nat :=
  match s with
  | EmptyString => 0
  | String c r =>
      if Ascii.eqb c (ascii_of_nat 10) then S (line_count r)
      else match r with
           | EmptyString => 1
           | _ => line_count r
           end
  end.

Fixpoint newline_free (s : string) : bool :=
  match s with
  | EmptyString => true
  | String c r => negb (Ascii.eqb c (ascii_of_nat 10)) && newline_free r
  end.

(** ** Sample runs *)

Definition html_page : Response :=
  mkResponse 200 {[ "content-type" := "text/html; charset=utf-8" ]} "<html/>".

Definition not_found : Response :=
  mkResponse 404 {[ "content-type" := "text/html" ]} "not found".

(** Every page is served. *)
Definition resume_env : Env :=
  mkEnv (λ _ _ _ _, Received html_page) ∅ (λ _, None).

(** Pages 2 and 4 are missing on the server. *)
Definition flaky_env : Env :=
  mkEnv (λ _ _ url _,
           if String.eqb url "http://x/p.2" || String.eqb url "http://x/p.4"
           then Received not_found
           else Received html_page)
        ∅ (λ _, None).

(** The file of the first page cannot be written. *)
Definition readonly_env : Env :=
  mkEnv (λ _ _ _ _, Received html_page) {[ "dump/0001.html" ]} (λ _, None).

Definition resume_config : CrawlerConfig :=
  mkConfig "http://x/p.{n}" 1 5 "dump" "index.txt" (8 # 10)%Q 20%Q "UA".

Definition empty_config : CrawlerConfig :=
  mkConfig "http://x/p.{n}" 1 0 "dump" "index.txt" (8 # 10)%Q 20%Q "UA".

(** One page, whose URL holds a newline. *)
Definition newline_config : CrawlerConfig :=
  mkConfig ("http://x/a" +:+ Py.LF +:+ "b{n}") 1 1 "dump" "index.txt"
    (8 # 10)%Q 20%Q "UA".

Definition resume_targets : list (Z * string) :=
  [(1, "http://x/p.1"); (2, "http://x/p.2"); (3, "http://x/p.3");
   (4, "http://x/p.4"); (5, "http://x/p.5")].

Definition empty_world : World := mkWorld ∅ [] [] [].

(** The files of the first three pages are there. *)
Definition resume_world : World :=
  mkWorld {[ "dump/0001.html" := "one"; "dump/0002.html" := "two";
             "dump/0003.html" := "three" ]} [] [] [].

(** One page, and a template that names a field [page]. *)
Definition one_page_config : CrawlerConfig :=
  mkConfig "http://x/p.{n}" 1 1 "dump" "index.txt" (8 # 10)%Q 20%Q "UA".

Definition unknown_field_config : CrawlerConfig :=
  mkConfig "http://x/p.{page}" 1 5 "dump" "index.txt" (8 # 10)%Q 20%Q "UA".

(** A PDF whose declared type carries a file name that reads like a
    type. *)
Definition named_pdf : Response :=
  mkResponse 200 {[ "content-type" := "application/pdf; name=text/html.pdf" ]}
    "%PDF-1.7".

Definition pdf_env : Env := mkEnv (λ _ _ _ _, Received named_pdf) ∅ (λ _, None).

(** The file of the first page is there, and empty. *)
Definition truncated_world : World :=
  mkWorld {[ "dump/0001.html" := EmptyString ]} [] [] [].

(** A run whose delay is negative. *)
Definition hasty_config : CrawlerConfig :=
  mkConfig "http://x/p.{n}" 1 5 "dump" "index.txt" (-1 # 1)%Q 20%Q "UA".

(** Three pages of another site, numbered from 57. *)
Definition other_config : CrawlerConfig :=
  mkConfig "http://y/q{n}.htm" 57 59 "dump" "index.txt" (8 # 10)%Q 20%Q "UA".

Definition other_targets : list (Z * string) :=
  [(57, "http://y/q57.htm"); (58, "http://y/q58.htm"); (59, "http://y/q59.htm")].

(** ** Reading a manifest *)

(** The lines of a text, split at the newlines; the newline that ends
    the text starts no further line. *)
Fixpoint lines_of (s : string) : list string :=
  match s with
  | EmptyString => []
  | String c r =>
      if Ascii.eqb c (ascii_of_nat 10) then EmptyString :: lines_of r
      else match lines_of r with
           | [] => [String c EmptyString]
           | l :: ls => String c l :: ls
           end
  end.

(** A line split at its first tab. *)
Fixpoint partition_tab (s : string) : option (string * string) :=
  match s with
  | EmptyString => None
  | String c r =>
      if Ascii.eqb c (ascii_of_nat 9) then Some (EmptyString, r)
      else match partition_tab r with
           | Some (a, b) => Some (String c a, b)
           | None => None
           end
  end.

Fixpoint tab_free (s : string) : bool :=
  match s with
  | EmptyString => true
  | String c r => negb (Ascii.eqb c (ascii_of_nat 9)) && tab_free r
  end.

(** * Properties *)

#[local] Arguments String.append : simpl nomatch.

(** Expose the monadic plumbing and reduce it. *)
Ltac run_m :=
  cbv beta iota zeta; cbn [fst snd files requests sleeps stdout negb].

Ltac unfold_m :=
  unfold mbind, M_bind, mret, M_ret, lift, raise, os_path_exists,
    os_path_getsize, print, session_get, write_file, time_sleep,
    ensure_dir, os_makedirs.

(** The branches of an iteration after the resumability test failed. *)
Ltac fetch_branches :=
  let message := fresh "message" in
  let resp := fresh "resp" in
  let Hremote := fresh "Hremote" in
  let Hst := fresh "Hst" in
  let Hgate := fresh "Hgate" in
  let Hden := fresh "Hden" in
  let Hdelay := fresh "Hdelay" in
  let refusal := fresh "refusal" in
  let Hrefused := fresh "Hrefused" in
  destruct (remote _ _ _ _ _) as [message|resp|] eqn:Hremote; run_m;
  [ intros [= <- <-]; by eapply step_request_failed
  |
  | intros [= <- <-]; by eapply step_timeout_refused ];
  destruct (Z.eqb_spec (status_code resp) 200) as [Hst|Hst]; run_m;
  [ | intros [= <- <-]; by eapply step_bad_status ];
  destruct (is_html_response resp) eqn:Hgate; run_m;
  [ | intros [= <- <-]; by eapply step_rejected ];
  match goal with
  | |- context [bool_decide (?p ∈ ?d)] =>
      destruct (decide (p ∈ d)) as [Hden|Hden];
      [ rewrite bool_decide_eq_true_2 by done; run_m;
        intros [= <- <-]; by eapply step_write_failed
      | rewrite bool_decide_eq_false_2 by done; run_m ]
  end;
  destruct (Qle_bool 0 _) eqn:Hdelay; run_m;
  [ destruct (sleep_refused _ _) as [refusal|] eqn:Hrefused; run_m;
    [ intros [= <- <-]; by eapply step_sleep_refused
    | intros [= <- <-]; by eapply step_saved ]
  | intros [= <- <-]; by eapply step_sleep_failed ].

(** ** Strings *)

Section strings.

Lemma append_nil_r (s : string) : s +:+ EmptyString = s.
Proof. induction s as [|c s IH]; simpl; [done | by rewrite IH]. Qed.

Lemma append_assoc (s t u : string) : (s +:+ t) +:+ u = s +:+ (t +:+ u).
Proof. induction s as [|c s IH]; simpl; [done | by rewrite IH]. Qed.

Lemma length_append (s t : string) :
  String.length (s +:+ t) = (String.length s + String.length t)%nat.
Proof. induction s as [|c s IH]; simpl; [done | by rewrite IH]. Qed.

Lemma len_append (s t : string) : Py.len (s +:+ t) = Py.len s + Py.len t.
Proof. unfold Py.len. rewrite length_append. lia. Qed.

Lemma len_String (c : ascii) (s : string) : Py.len (String c s) = Py.len s + 1.
Proof. unfold Py.len. simpl. lia. Qed.

Lemma len_nonneg (s : string) : 0 ≤ Py.len s.
Proof. unfold Py.len. lia. Qed.

Lemma append_inv_tail (s t u : string) : s +:+ u = t +:+ u → s = t.
Proof.
  revert t. induction s as [|c s IH]; intros [|d t] H; simpl in *.
  - done.
  - apply (f_equal String.length) in H. simpl in H.
    rewrite length_append in H. lia.
  - apply (f_equal String.length) in H. simpl in H.
    rewrite length_append in H. lia.
  - injection H as -> H. f_equal. by apply IH.
Qed.

Lemma len_zeros (k : nat) : Py.len (Py.zeros k) = Z.of_nat k.
Proof.
  induction k as [|k IH]; [done |].
  change (Py.zeros (S k)) with (String "0"%char (Py.zeros k)).
  rewrite len_String, IH. lia.
Qed.

End strings.

(** ** Decimal numerals *)

Section decimal.

Lemma digit_val_char (d : Z) : 0 ≤ d < 10 → digit_val (Py.digit_char d) = d.
Proof.
  intros Hd. unfold digit_val, Py.digit_char.
  rewrite N_ascii_embedding by lia. lia.
Qed.

Lemma is_digit_char (d : Z) : 0 ≤ d < 10 → Py.is_digit (Py.digit_char d) = true.
Proof.
  intros Hd. unfold Py.is_digit, Py.digit_char.
  rewrite N_ascii_embedding by lia.
  apply andb_true_intro. split; apply N.leb_le; lia.
Qed.

Lemma is_digit_val (c : ascii) : Py.is_digit c = true → 0 ≤ digit_val c < 10.
Proof.
  unfold Py.is_digit, digit_val. intros [H1 H2]%andb_prop.
  apply N.leb_le in H1, H2. lia.
Qed.

Lemma str_val_bound (s : string) :
  Py.all_digits s = true → 0 ≤ str_val s < 10 ^ Py.len s.
Proof.
  induction s as [|c s IH]; simpl; [intros _; unfold Py.len; simpl; lia |].
  intros [Hc Hs]%andb_prop. specialize (IH Hs).
  apply is_digit_val in Hc. rewrite len_String.
  rewrite Z.pow_add_r by (pose proof (len_nonneg s); lia).
  nia.
Qed.

Lemma str_val_zeros (k : nat) (s : string) : str_val (Py.zeros k +:+ s) = str_val s.
Proof. induction k as [|k IH]; simpl; [done | rewrite IH; reflexivity]. Qed.

Lemma all_digits_append (s t : string) :
  Py.all_digits (s +:+ t) = Py.all_digits s && Py.all_digits t.
Proof.
  induction s as [|c s IH]; simpl; [done |]. by rewrite IH, andb_assoc.
Qed.

Lemma all_digits_zeros (k : nat) : Py.all_digits (Py.zeros k) = true.
Proof. induction k as [|k IH]; simpl; [done | by rewrite IH]. Qed.

Lemma str_val_append (s t : string) :
  str_val (s +:+ t) = str_val s * 10 ^ Py.len t + str_val t.
Proof.
  induction s as [|c s IH]; simpl; [lia |].
  rewrite IH, len_append, Z.pow_add_r by apply len_nonneg. lia.
Qed.

(** What [dec_go] appends in front of its accumulator when the fuel
    covers the bits of [n]. *)
Lemma dec_go_spec (fuel : nat) : ∀ (n : Z) (acc : string),
  0 ≤ n < 2 ^ (Z.of_nat fuel + 1) →
  ∃ body : string,
    Py.dec_go fuel n acc = body +:+ acc
    ∧ Py.all_digits body = true
    ∧ str_val body = n
    ∧ 1 ≤ Py.len body
    ∧ 10 ^ (Py.len body - 1) ≤ Z.max 1 n
    ∧ n < 10 ^ Py.len body.
Proof.
  induction fuel as [|fuel IH]; intros n acc Hn.
  - exists (String (Py.digit_char n) EmptyString).
    change (2 ^ (Z.of_nat 0 + 1)) with 2 in Hn.
    simpl. rewrite is_digit_char, digit_val_char by lia.
    change (Py.len (String (Py.digit_char n) EmptyString)) with 1.
    change (Py.len EmptyString) with 0. simpl. repeat split; lia.
  - simpl Py.dec_go. destruct (Z.ltb_spec n 10) as [Hlt|Hge].
    + exists (String (Py.digit_char n) EmptyString).
      simpl. rewrite is_digit_char, digit_val_char by lia.
      change (Py.len (String (Py.digit_char n) EmptyString)) with 1.
      change (Py.len EmptyString) with 0. simpl. repeat split; lia.
    + assert (Hq : 0 ≤ n / 10 < 2 ^ (Z.of_nat fuel + 1)).
      { split; [apply Z.div_pos; lia |].
        apply Z.div_lt_upper_bound; [lia |].
        replace (Z.of_nat (S fuel) + 1) with (Z.succ (Z.of_nat fuel + 1)) in Hn by lia.
        rewrite Z.pow_succ_r in Hn by lia. lia. }
      destruct (IH (n / 10) (String (Py.digit_char (n mod 10)) acc) Hq)
        as (body & Hbody & Hdig & Hval & Hlen & Hlo & Hhi).
      pose proof (Z.mod_pos_bound n 10 ltac:(lia)) as Hmod.
      pose proof (Z.div_mod n 10 ltac:(lia)) as Hdm.
      exists (body +:+ String (Py.digit_char (n mod 10)) EmptyString).
      rewrite Hbody, append_assoc. simpl.
      rewrite all_digits_append, Hdig. simpl.
      rewrite is_digit_char by lia.
      rewrite len_append.
      change (Py.len (String (Py.digit_char (n mod 10)) EmptyString)) with 1.
      replace (Py.len body + 1 - 1) with (Z.succ (Py.len body - 1)) by lia.
      replace (Py.len body + 1) with (Z.succ (Py.len body)) by lia.
      rewrite !Z.pow_succ_r by lia.
      repeat split; try lia.
      rewrite str_val_append. simpl.
      change (Py.len (String (Py.digit_char (n mod 10)) EmptyString)) with 1.
      change (Py.len EmptyString) with 0.
      rewrite digit_val_char, Hval by lia. lia.
Qed.

End decimal.

Section decimal_order.

Lemma dec_spec (n : Z) :
  0 ≤ n →
  Py.all_digits (Py.dec n) = true
  ∧ str_val (Py.dec n) = n
  ∧ 1 ≤ Py.len (Py.dec n)
  ∧ 10 ^ (Py.len (Py.dec n) - 1) ≤ Z.max 1 n
  ∧ n < 10 ^ Py.len (Py.dec n).
Proof.
  intros Hn. unfold Py.dec.
  destruct (dec_go_spec (Z.to_nat (Z.log2 n)) n EmptyString) as (body & Hb & H).
  - split; [done |]. rewrite Z2Nat.id by apply Z.log2_nonneg.
    destruct (Z.eq_dec n 0) as [->|Hnz]; [done |].
    pose proof (Z.log2_spec n ltac:(lia)). unfold Z.succ in *. lia.
  - rewrite Hb, append_nil_r. exact H.
Qed.

Lemma str_nonneg (n : Z) : 0 ≤ n → Py.str n = Py.dec n.
Proof. intros Hn. unfold Py.str. by destruct (Z.ltb_spec n 0); [lia |]. Qed.

(** A larger number never has fewer digits. *)
Lemma len_dec_mono (i n : Z) : 0 ≤ i ≤ n → Py.len (Py.dec i) ≤ Py.len (Py.dec n).
Proof.
  intros Hin.
  destruct (dec_spec i) as (_ & _ & Hi1 & Hilo & _); [lia |].
  destruct (dec_spec n) as (_ & _ & Hn1 & _ & Hnhi); [lia |].
  destruct (Z.le_gt_cases (Py.len (Py.dec i)) (Py.len (Py.dec n))) as [|Hgt]; [done |].
  exfalso.
  assert (10 ^ Py.len (Py.dec n) ≤ 10 ^ (Py.len (Py.dec i) - 1))
    by (apply Z.pow_le_mono_r; lia).
  assert (10 ^ 1 ≤ 10 ^ Py.len (Py.dec n)) by (apply Z.pow_le_mono_r; lia).
  lia.
Qed.

Lemma format_0wd_nonneg (i w : Z) :
  0 ≤ i → 0 ≤ w →
  Py.format_0wd i w
  = Py.Ok (Py.zeros (Z.to_nat (w - Py.len (Py.str i))) +:+ Py.str i).
Proof.
  intros Hi Hw. unfold Py.format_0wd.
  destruct (Z.ltb_spec w 0); [lia |].
  destruct (Z.ltb_spec i 0); [lia |].
  rewrite Z.abs_eq, str_nonneg by done.
  change (Py.len EmptyString) with 0. rewrite Z.sub_0_r. reflexivity.
Qed.

Lemma file_name_for_index_nonneg (i w : Z) :
  0 ≤ i → 0 ≤ w →
  file_name_for_index i w
  = Py.Ok (Py.zeros (Z.to_nat (w - Py.len (Py.str i))) +:+ Py.str i +:+ ".html").
Proof.
  intros Hi Hw. unfold file_name_for_index.
  rewrite format_0wd_nonneg by done. by rewrite append_assoc.
Qed.

(** On digit strings of one length, the order of the strings is the order
    of the numbers. *)
Lemma compare_digits (s : string) : ∀ t : string,
  Py.len s = Py.len t →
  Py.all_digits s = true → Py.all_digits t = true →
  str_val s < str_val t →
  String.compare s t = Lt.
Proof.
  induction s as [|c s IH]; intros [|d t] Hlen Hs Ht Hlt;
    rewrite ?len_String in Hlen; simpl in *.
  - lia.
  - done.
  - pose proof (len_nonneg s). change (Py.len EmptyString) with 0 in Hlen. lia.
  - apply andb_prop in Hs as [Hc Hs]. apply andb_prop in Ht as [Hd Ht].
    assert (Hst : Py.len s = Py.len t) by lia. rewrite Hst in Hlt.
    pose proof (str_val_bound s Hs) as Bs. rewrite Hst in Bs.
    pose proof (str_val_bound t Ht) as Bt.
    pose proof (is_digit_val c Hc) as Bc.
    pose proof (is_digit_val d Hd) as Bd.
    unfold Ascii.compare.
    destruct (N.compare_spec (N_of_ascii c) (N_of_ascii d)) as [Heq|Hcd|Hdc].
    + apply IH; try done. unfold digit_val in Hlt. rewrite Heq in Hlt. lia.
    + reflexivity.
    + exfalso. unfold digit_val in *. nia.
Qed.

Lemma compare_append_lt (s : string) : ∀ t x y : string,
  Py.len s = Py.len t →
  String.compare s t = Lt →
  String.compare (s +:+ x) (t +:+ y) = Lt.
Proof.
  induction s as [|c s IH]; intros [|d t] x y Hlen Hcmp;
    rewrite ?len_String in Hlen; simpl in *; try done.
  - pose proof (len_nonneg t). change (Py.len EmptyString) with 0 in Hlen. lia.
  - destruct (Ascii.compare c d); try done.
    apply IH; [lia | done].
Qed.

Lemma first_char_digit (s x : string) :
  Py.all_digits s = true → 1 ≤ Py.len s → Py.startswith (s +:+ x) "/" = false.
Proof.
  destruct s as [|c s]; [intros _ H; change (Py.len EmptyString) with 0 in H; lia |].
  cbn [Py.all_digits]. intros [Hc _]%andb_prop _.
  unfold Py.startswith. change (String c s +:+ x) with (String c (s +:+ x)).
  cbn [String.prefix].
  destruct (ascii_dec "/" c) as [<-|]; [by vm_compute in Hc | done].
Qed.

End decimal_order.

(** ** One target *)

Section one_target.

Context (env : Env) (config : CrawlerConfig) (session : Session).

Lemma file_name_for_index_ok (idx digits : Z) :
  0 ≤ digits → file_name_for_index idx digits = Py.Ok (file_name idx digits).
Proof.
  intros Hd. unfold file_name, file_name_for_index, Py.format_0wd.
  by destruct (Z.ltb_spec digits 0); [lia |].
Qed.

(** The iteration is one of the nine steps. *)
Lemma crawl_target_step (total digits idx : Z) (url : string)
    (st : list string * Z) (w : World) (r : Py.result (list string * Z)) (w1 : World) :
  0 ≤ digits →
  crawl_target env config session total digits idx url st w = (r, w1) →
  target_step env config session digits idx url st w r w1.
Proof.
  intros Hd. unfold crawl_target.
  rewrite (file_name_for_index_ok idx digits Hd).
  unfold_m. run_m. fold (out_path config digits idx).
  destruct (files w !! out_path config digits idx) as [content|] eqn:Hfile.
  - rewrite bool_decide_eq_true_2 by eauto. run_m. rewrite Hfile. run_m.
    destruct (0 <? Py.len content) eqn:Hsize; run_m.
    + intros [= <- <-]. apply step_skipped; try done.
      unfold saved_before. by rewrite Hfile.
    + assert (Hsaved : saved_before w (out_path config digits idx) = false)
        by (unfold saved_before; by rewrite Hfile).
      fetch_branches.
  - rewrite bool_decide_eq_false_2 by (intros [? ?]; done). run_m.
    assert (Hsaved : saved_before w (out_path config digits idx) = false)
      by (unfold saved_before; by rewrite Hfile).
    fetch_branches.
Qed.

End one_target.

(** ** File names and paths *)

Section paths.

Lemma file_name_nonneg (idx digits : Z) :
  0 ≤ idx → 0 ≤ digits →
  file_name idx digits
  = (Py.zeros (Z.to_nat (digits - Py.len (Py.str idx))) +:+ Py.str idx) +:+ ".html".
Proof.
  intros Hi Hd. unfold file_name.
  rewrite file_name_for_index_nonneg by done. by rewrite append_assoc.
Qed.

Lemma padded_digits (idx : Z) (k : nat) :
  0 ≤ idx →
  Py.all_digits (Py.zeros k +:+ Py.str idx) = true
  ∧ str_val (Py.zeros k +:+ Py.str idx) = idx
  ∧ Py.len (Py.zeros k +:+ Py.str idx) = Z.of_nat k + Py.len (Py.str idx)
  ∧ 1 ≤ Py.len (Py.str idx).
Proof.
  intros Hi. rewrite str_nonneg by done.
  destruct (dec_spec idx Hi) as (Hdig & Hval & Hlen & _).
  rewrite all_digits_append, all_digits_zeros, Hdig, str_val_zeros, Hval.
  rewrite len_append, len_zeros. done.
Qed.

Lemma file_name_inj (digits i j : Z) :
  0 ≤ digits → 0 ≤ i → 0 ≤ j →
  file_name i digits = file_name j digits → i = j.
Proof.
  intros Hd Hi Hj. rewrite !file_name_nonneg by done.
  intros H%append_inv_tail.
  destruct (padded_digits i (Z.to_nat (digits - Py.len (Py.str i))) Hi)
    as (_ & <- & _).
  destruct (padded_digits j (Z.to_nat (digits - Py.len (Py.str j))) Hj)
    as (_ & <- & _).
  by rewrite H.
Qed.

Lemma file_name_not_absolute (digits idx : Z) :
  0 ≤ digits → 0 ≤ idx → Py.startswith (file_name idx digits) "/" = false.
Proof.
  intros Hd Hi. rewrite file_name_nonneg by done.
  destruct (padded_digits idx (Z.to_nat (digits - Py.len (Py.str idx))) Hi)
    as (Hdig & _ & Hlen & Hpos).
  apply first_char_digit; [done | lia].
Qed.

Lemma os_path_join_relative (a b : string) :
  Py.startswith b "/" = false →
  ∃ dir : string, os_path_join a b = dir +:+ b
    ∧ ∀ b' : string, Py.startswith b' "/" = false → os_path_join a b' = dir +:+ b'.
Proof.
  intros Hb. unfold os_path_join. rewrite Hb.
  destruct (String.eqb a EmptyString || endswith a "/").
  - exists a. split; [done |]. by intros b' ->.
  - exists (a +:+ "/"). rewrite append_assoc. split; [done |].
    intros b' ->. by rewrite append_assoc.
Qed.

Lemma out_path_inj (config : CrawlerConfig) (digits i j : Z) :
  0 ≤ digits → 0 ≤ i → 0 ≤ j →
  out_path config digits i = out_path config digits j → i = j.
Proof.
  intros Hd Hi Hj. unfold out_path.
  destruct (os_path_join_relative (out_dir config) (file_name i digits))
    as (dir & -> & Hother); [by apply file_name_not_absolute |].
  rewrite (Hother (file_name j digits)) by by apply file_name_not_absolute.
  intros H. apply String.app_inj in H. by apply (file_name_inj digits).
Qed.

End paths.

(** ** The loop *)

Section loop.

Context (env : Env) (config : CrawlerConfig) (session : Session).
Context (total digits : Z) (Hdigits : 0 ≤ digits).

Lemma crawl_loop_nil (idx : Z) (st : list string * Z) (w : World) :
  crawl_loop env config session total digits idx [] st w = (Py.Ok st, w).
Proof. reflexivity. Qed.

Lemma crawl_loop_cons (idx n : Z) (url : string) (rest : list (Z * string))
    (st : list string * Z) (w : World) :
  crawl_loop env config session total digits idx ((n, url) :: rest) st w
  = match crawl_target env config session total digits idx url st w with
    | (Py.Ok st1, w1) =>
        crawl_loop env config session total digits (idx + 1) rest st1 w1
    | (Py.Raise e, w1) => (Py.Raise e, w1)
    end.
Proof.
  cbn [crawl_loop]. unfold mbind, M_bind.
  by destruct (crawl_target env config session total digits idx url st w)
    as [[st1|e] w1].
Qed.

Lemma crawl_loop_app (pre post : list (Z * string)) : ∀ idx st w,
  crawl_loop env config session total digits idx (pre ++ post) st w
  = match crawl_loop env config session total digits idx pre st w with
    | (Py.Ok st1, w1) =>
        crawl_loop env config session total digits
          (idx + Z.of_nat (length pre)) post st1 w1
    | (Py.Raise e, w1) => (Py.Raise e, w1)
    end.
Proof.
  induction pre as [|[n url] pre IH]; intros idx st w.
  - rewrite crawl_loop_nil. cbn [app length]. by rewrite Z.add_0_r.
  - cbn [app]. rewrite !crawl_loop_cons.
    destruct (crawl_target env config session total digits idx url st w)
      as [[st1|e] w1]; [|done].
    rewrite IH. cbn [length].
    by replace (idx + 1 + Z.of_nat (length pre))
      with (idx + Z.of_nat (S (length pre))) by lia.
Qed.

Lemma saved_before_files (w w1 : World) (path : string) :
  files w1 = files w → saved_before w1 path = saved_before w path.
Proof. unfold saved_before. by intros ->. Qed.

(** A successful iteration leaves the files of the later targets alone. *)
Lemma target_step_later (idx : Z) (url : string) (st st1 : list string * Z)
    (w w1 : World) (e : Py.result (list string * Z)) :
  0 ≤ idx →
  target_step env config session digits idx url st w e w1 →
  ∀ j, idx < j →
    saved_before w1 (out_path config digits j)
    = saved_before w (out_path config digits j).
Proof.
  intros Hidx Hstep j Hj.
  assert (Hne : out_path config digits idx ≠ out_path config digits j).
  { intros Heq%out_path_inj; lia. }
  destruct Hstep as [w1 _ Hf|? w1 _ _ Hf|? w1 _ _ _ Hf|? w1 _ _ _ _ Hf
                    |? w1 _ _ _ _ _ Hf|? w1 _ _ _ _ _ _ Hf|? w1 _ _ _ _ _ _ Hf
                    |? ? w1 _ _ _ _ _ _ Hf|w1 _ _ Hf];
    try (by apply saved_before_files);
    unfold saved_before; by rewrite Hf, lookup_insert_ne.
Qed.

Lemma saved_lines_ext (w w1 : World) (targets : list (Z * string)) : ∀ idx,
  (∀ j, idx ≤ j →
     saved_before w1 (out_path config digits j)
     = saved_before w (out_path config digits j)) →
  saved_lines config digits w1 idx targets = saved_lines config digits w idx targets.
Proof.
  induction targets as [|[n url] rest IH]; intros idx Hext; cbn; [done |].
  rewrite Hext by lia. rewrite IH; [done |]. intros j Hj. apply Hext. lia.
Qed.

Lemma pending_urls_ext (w w1 : World) (targets : list (Z * string)) : ∀ idx,
  (∀ j, idx ≤ j →
     saved_before w1 (out_path config digits j)
     = saved_before w (out_path config digits j)) →
  pending_urls config digits w1 idx targets
  = pending_urls config digits w idx targets.
Proof.
  induction targets as [|[n url] rest IH]; intros idx Hext; cbn; [done |].
  rewrite Hext by lia. rewrite IH; [done |]. intros j Hj. apply Hext. lia.
Qed.

Lemma saved_lines_sublist (w : World) (targets : list (Z * string)) : ∀ idx,
  saved_lines config digits w idx targets `sublist_of` all_lines digits idx targets.
Proof.
  induction targets as [|[n url] rest IH]; intros idx; cbn; [done |].
  destruct (saved_before w (out_path config digits idx)).
  - by apply sublist_skip.
  - by apply sublist_cons.
Qed.

Lemma length_all_lines (targets : list (Z * string)) : ∀ idx,
  length (all_lines digits idx targets) = length targets.
Proof.
  induction targets as [|[n url] rest IH]; intros idx; cbn; [done |].
  by rewrite IH.
Qed.

(** The loop, whatever its outcome: it requests pending URLs only, in
    order; when it returns, it has requested all of them, and the lines
    it added lie between the lines of the saved targets and the lines of
    all targets, with the counter moved by their number. *)
Lemma crawl_loop_spec (targets : list (Z * string)) :
  ∀ (idx : Z) (st : list string * Z) (w : World)
    (r : Py.result (list string * Z)) (w' : World),
  0 ≤ idx →
  crawl_loop env config session total digits idx targets st w = (r, w') →
  (∃ k : nat,
     requests w' = requests w ++ take k (pending_urls config digits w idx targets))
  ∧ ∀ st', r = Py.Ok st' →
      requests w' = requests w ++ pending_urls config digits w idx targets
      ∧ ∃ new : list string,
          st'.1 = st.1 ++ new
          ∧ st'.2 = st.2 + Z.of_nat (length new)
          ∧ saved_lines config digits w idx targets `sublist_of` new
          ∧ new `sublist_of` all_lines digits idx targets.
Proof.
  induction targets as [|[n url] rest IH]; intros idx st w r w' Hidx.
  - rewrite crawl_loop_nil. intros [= <- <-]. split.
    + exists 0%nat. cbn. by rewrite app_nil_r.
    + intros st' [= <-]. cbn. rewrite app_nil_r. split; [done |].
      exists []. rewrite app_nil_r. cbn. split_and!; [done | lia | done | done].
  - rewrite crawl_loop_cons.
    destruct (crawl_target env config session total digits idx url st w)
      as [r1 w1] eqn:Hstep.
    apply crawl_target_step in Hstep; [|done].
    pose proof (target_step_later idx url st st w w1 r1 Hidx Hstep) as Hlater.
    assert (Hext : ∀ j, idx + 1 ≤ j →
      saved_before w1 (out_path config digits j)
      = saved_before w (out_path config digits j))
      by (intros j Hj; apply Hlater; lia).
    cbn [pending_urls saved_lines all_lines].
    destruct Hstep as [w1 Hsaved Hf Hr Hs
                      |msg w1 Hsaved _ Hf Hr Hs
                      |resp w1 Hsaved _ _ Hf Hr Hs
                      |resp w1 Hsaved _ _ _ Hf Hr Hs
                      |resp w1 Hsaved _ _ _ _ Hf Hr Hs
                      |resp w1 Hsaved _ _ _ _ _ Hf Hr Hs
                      |resp w1 Hsaved _ _ _ _ _ Hf Hr Hs
                      |resp refusal w1 Hsaved _ _ _ _ _ Hf Hr Hs
                      |w1 Hsaved _ Hf Hr Hs];
      rewrite Hsaved.
    + (* skipped *)
      intros Hloop. apply IH in Hloop as [[k Hk] Hok]; [|lia].
      rewrite (pending_urls_ext w w1) in Hk, Hok by done.
      rewrite (saved_lines_ext w w1) in Hok by done.
      rewrite Hr in Hk, Hok. split; [by exists k |].
      intros st' Hst'. destruct (Hok st' Hst') as (Hreq & new & H1 & H2 & H3 & H4).
      split; [done |]. exists (index_line (file_name idx digits) url :: new).
      cbn [fst snd] in H1, H2. rewrite H1, H2, <- app_assoc. cbn [length app].
      split_and!; [done | lia | by apply sublist_skip | by apply sublist_skip].
    + (* request failed *)
      intros Hloop. apply IH in Hloop as [[k Hk] Hok]; [|lia].
      rewrite (pending_urls_ext w w1) in Hk, Hok by done.
      rewrite (saved_lines_ext w w1) in Hok by done.
      rewrite Hr, <- app_assoc in Hk, Hok. split; [by exists (S k) |].
      intros st' Hst'. destruct (Hok st' Hst') as (Hreq & new & H1 & H2 & H3 & H4).
      split; [done |]. exists new.
      split_and!; [done | done | done | by apply sublist_cons].
    + (* bad status *)
      intros Hloop. apply IH in Hloop as [[k Hk] Hok]; [|lia].
      rewrite (pending_urls_ext w w1) in Hk, Hok by done.
      rewrite (saved_lines_ext w w1) in Hok by done.
      rewrite Hr, <- app_assoc in Hk, Hok. split; [by exists (S k) |].
      intros st' Hst'. destruct (Hok st' Hst') as (Hreq & new & H1 & H2 & H3 & H4).
      split; [done |]. exists new.
      split_and!; [done | done | done | by apply sublist_cons].
    + (* rejected by the content gate *)
      intros Hloop. apply IH in Hloop as [[k Hk] Hok]; [|lia].
      rewrite (pending_urls_ext w w1) in Hk, Hok by done.
      rewrite (saved_lines_ext w w1) in Hok by done.
      rewrite Hr, <- app_assoc in Hk, Hok. split; [by exists (S k) |].
      intros st' Hst'. destruct (Hok st' Hst') as (Hreq & new & H1 & H2 & H3 & H4).
      split; [done |]. exists new.
      split_and!; [done | done | done | by apply sublist_cons].
    + (* the page could not be written *)
      intros [= <- <-]. split; [|done].
      exists 1%nat. cbn. by rewrite take_0.
    + (* the sleep was refused *)
      intros [= <- <-]. split; [|done].
      exists 1%nat. cbn. by rewrite take_0.
    + (* saved *)
      intros Hloop. apply IH in Hloop as [[k Hk] Hok]; [|lia].
      rewrite (pending_urls_ext w w1) in Hk, Hok by done.
      rewrite (saved_lines_ext w w1) in Hok by done.
      rewrite Hr, <- app_assoc in Hk, Hok. split; [by exists (S k) |].
      intros st' Hst'. destruct (Hok st' Hst') as (Hreq & new & H1 & H2 & H3 & H4).
      split; [done |]. exists (index_line (file_name idx digits) url :: new).
      cbn [fst snd] in H1, H2. rewrite H1, H2, <- app_assoc. cbn [length app].
      split_and!; [done | lia | by apply sublist_cons | by apply sublist_skip].
    + (* the sleep was refused *)
      intros [= <- <-]. split; [|done].
      exists 1%nat. cbn. by rewrite take_0.
    + (* the timeout was refused *)
      intros [= <- <-]. split; [|done].
      exists 0%nat. rewrite take_0, app_nil_r. done.
Qed.

End loop.

(** ** The whole run *)

Section whole_run.

Context (env : Env) (config : CrawlerConfig).

Lemma digits_for_nonneg (total : Z) : 0 ≤ digits_for total.
Proof. unfold digits_for. lia. Qed.

(** A call of [crawl] ends in one of the six ways. *)
Lemma crawl_ends (w : World) (r : Py.result unit) (w' : World) :
  crawl env config w = (r, w') → crawl_run env config w r w'.
Proof.
  unfold crawl. unfold mbind at 1. unfold M_bind at 1.
  unfold ensure_dir, os_makedirs.
  destruct (decide (out_dir config ∈ denied env)) as [Hdir|Hdir].
  { rewrite bool_decide_eq_true_2 by done. intros [= <- <-].
    by apply run_no_directory. }
  rewrite bool_decide_eq_false_2 by done. run_m.
  unfold mbind at 1. unfold M_bind at 1. unfold lift at 1. run_m.
  destruct (build_urls (base_url config) (start_page config) (end_page config))
    as [targets|e] eqn:Hurls.
  2: { intros [= <- <-]. by apply run_bad_template. }
  run_m. unfold mbind at 1 2. unfold M_bind at 1 2. unfold print at 1 2. run_m.
  unfold mbind at 1. unfold M_bind at 1.
  match goal with
  | |- context [crawl_loop _ _ _ _ _ _ _ _ ?w0] =>
      destruct (crawl_loop env config (make_session (user_agent config))
                  (Z.of_nat (length targets))
                  (digits_for (Z.of_nat (length targets))) 1 targets ([], 0) w0)
        as [[st|e] w1] eqn:Hloop
  end.
  2: { intros [= <- <-].
       by refine (run_loop_raised _ _ _ _ _ _ Hdir Hurls Hloop). }
  unfold_m. run_m.
  destruct (decide (index_path config ∈ denied env)) as [Hidx|Hidx].
  { rewrite bool_decide_eq_true_2 by done. intros [= <- <-].
    by refine (run_manifest_failed _ _ _ _ _ _ Hdir Hurls Hloop Hidx). }
  rewrite bool_decide_eq_false_2 by done. run_m.
  destruct (Z.ltb_spec st.2 (Z.of_nat (length targets))) as [Hlt|Hge]; run_m.
  - intros [= <- <-].
    refine (run_incomplete _ _ _ _ _ _ _ Hdir Hurls Hloop Hidx Hlt _ _ _ _);
      try done.
    cbn [stdout]. by rewrite <- !app_assoc.
  - intros [= <- <-].
    refine (run_complete _ _ _ _ _ _ _ Hdir Hurls Hloop Hidx Hge _ _ _ _);
      try done.
    cbn [stdout]. by rewrite <- !app_assoc.
Qed.

End whole_run.

(** ** Consequences for the loop *)

Section loop_facts.

Context (env : Env) (config : CrawlerConfig) (session : Session).
Context (total digits : Z) (Hdigits : 0 ≤ digits).

Lemma sublist_same_length {A : Type} (l k : list A) :
  l `sublist_of` k → length l = length k → l = k.
Proof.
  induction 1 as [|x l k _ IH|x l k Hsub _]; cbn; intros Hlen.
  - done.
  - f_equal. apply IH. lia.
  - apply sublist_length in Hsub. lia.
Qed.

(** The counter follows the number of manifest lines. *)
Lemma crawl_loop_counter (targets : list (Z * string)) (idx : Z)
    (st st' : list string * Z) (w w' : World) :
  0 ≤ idx →
  crawl_loop env config session total digits idx targets st w = (Py.Ok st', w') →
  Z.of_nat (length st'.1) - st'.2 = Z.of_nat (length st.1) - st.2
  ∧ st.2 ≤ st'.2 ≤ st.2 + Z.of_nat (length targets).
Proof.
  intros Hidx Hloop.
  destruct (crawl_loop_spec env config session total digits Hdigits
              targets idx st w _ w' Hidx Hloop) as [_ Hok].
  destruct (Hok st' eq_refl) as (_ & new & H1 & H2 & _ & Hsub).
  apply sublist_length in Hsub. rewrite length_all_lines in Hsub.
  rewrite H1, H2, length_app. lia.
Qed.

(** When every file is there, every target is skipped. *)
Lemma crawl_loop_all_saved (targets : list (Z * string)) :
  ∀ (idx : Z) (st : list string * Z) (w : World),
  (∀ j, idx ≤ j < idx + Z.of_nat (length targets) →
     saved_before w (out_path config digits j) = true) →
  ∃ w' : World,
    crawl_loop env config session total digits idx targets st w
    = (Py.Ok (st.1 ++ all_lines digits idx targets,
              st.2 + Z.of_nat (length targets)), w')
    ∧ files w' = files w ∧ requests w' = requests w ∧ sleeps w' = sleeps w.
Proof.
  induction targets as [|[n url] rest IH]; intros idx st w Hall.
  - exists w. rewrite crawl_loop_nil. cbn. rewrite app_nil_r, Z.add_0_r.
    by destruct st.
  - rewrite crawl_loop_cons.
    assert (Hhere : saved_before w (out_path config digits idx) = true)
      by (apply Hall; cbn [length]; lia).
    destruct (crawl_target env config session total digits idx url st w)
      as [r1 w1] eqn:Hstep.
    apply crawl_target_step in Hstep; [|done].
    destruct Hstep as [w1 Hsaved Hf Hr Hs
                      |msg w1 Hsaved|resp w1 Hsaved|resp w1 Hsaved
                      |resp w1 Hsaved|resp w1 Hsaved|resp w1 Hsaved
                      |resp refusal w1 Hsaved|w1 Hsaved];
      try congruence.
    destruct (IH (idx + 1)
                (st.1 ++ [index_line (file_name idx digits) url], st.2 + 1) w1)
      as (w' & Hloop & Hf' & Hr' & Hs').
    { intros j Hj. rewrite (saved_before_files w w1) by done.
      apply Hall. cbn [length]. lia. }
    exists w'. rewrite Hloop. cbn [fst snd all_lines length].
    rewrite <- app_assoc. cbn [app].
    replace (st.2 + 1 + Z.of_nat (length rest))
      with (st.2 + Z.of_nat (S (length rest))) by lia.
    split_and!; congruence.
Qed.

End loop_facts.

(** ** The URL sequencer *)

Section sequencer.

Lemma range_empty (start stop : Z) : stop ≤ start → range start stop = [].
Proof. intros H. unfold range. apply seqZ_nil. lia. Qed.

Lemma build_urls_empty (template : string) (start_page end_page : Z) :
  end_page < start_page → build_urls template start_page end_page = Py.Ok [].
Proof.
  intros H. unfold build_urls. by rewrite range_empty by lia.
Qed.

Lemma format_brace_free (template : string) (n : Z) :
  brace_free template = true → Py.format_n template n = Py.Ok template.
Proof.
  unfold Py.format_n. induction template as [|c r IH]; [done |].
  cbn [brace_free]. intros [[Ho Hc]%andb_prop Hr]%andb_prop.
  apply negb_true_iff in Ho, Hc.
  cbn [Py.format_scan]. rewrite Ho, Hc. by rewrite (IH Hr).
Qed.

Lemma build_urls_over_brace_free (template : string) (pages : list Z) :
  brace_free template = true →
  build_urls_over template pages = Py.Ok (map (λ n, (n, template)) pages).
Proof.
  intros Hfree. induction pages as [|n rest IH]; [done |].
  cbn [build_urls_over map]. by rewrite format_brace_free, IH.
Qed.

End sequencer.

(** ** Substrings *)

Section substrings.

Lemma prefix_iff (p : string) : ∀ s : string,
  String.prefix p s = true ↔ ∃ b : string, s = p +:+ b.
Proof.
  induction p as [|c p IH]; intros s.
  - destruct s; cbn; (split; [intros _; eauto | done]).
  - destruct s as [|d s]; cbn [String.prefix].
    + split; [done | intros [b Hb]; discriminate Hb].
    + destruct (ascii_dec c d) as [->|Hne].
      * rewrite IH. split; intros [b Hb]; exists b.
        -- by rewrite Hb.
        -- by injection Hb.
      * split; [done |]. intros [b Hb]. injection Hb as Hcd _. by destruct Hne.
Qed.

Lemma contains_iff (sub : string) : ∀ s : string,
  Py.contains sub s = true ↔ ∃ a b : string, s = a +:+ sub +:+ b.
Proof.
  induction s as [|c s IH].
  - cbn [Py.contains]. rewrite orb_false_r, prefix_iff. split.
    + intros [b Hb]. by exists EmptyString, b.
    + intros (a & b & Hab). destruct a; [by exists b | discriminate Hab].
  - cbn [Py.contains]. rewrite orb_true_iff, prefix_iff, IH. split.
    + intros [[b Hb]|(a & b & Hab)].
      * by exists EmptyString, b.
      * exists (String c a), b. by rewrite Hab.
    + intros (a & b & Hab). destruct a as [|d a].
      * left. by exists b.
      * right. exists a, b. by injection Hab.
Qed.

End substrings.

(** ** The manifest text *)

Section manifest.

Lemma line_count_line (l rest : string) :
  newline_free l = true →
  line_count (l +:+ Py.LF +:+ rest) = S (line_count rest).
Proof.
  induction l as [|c l IH]; intros Hfree.
  - reflexivity.
  - cbn [newline_free] in Hfree. apply andb_prop in Hfree as [Hc Hl].
    apply negb_true_iff in Hc.
    change (String c l +:+ Py.LF +:+ rest) with (String c (l +:+ Py.LF +:+ rest)).
    cbn [line_count]. rewrite Hc, (IH Hl).
    by destruct l.
Qed.

(** With at least one line and no newline inside a line, the manifest has
    as many lines as entries. *)
Lemma line_count_manifest (lines : list string) :
  lines ≠ [] →
  Forall (λ l, newline_free l = true) lines →
  line_count (manifest_text lines) = length lines.
Proof.
  unfold manifest_text, Py.join.
  induction lines as [|l rest IH]; [done |]. intros _ Hfree.
  apply Forall_cons in Hfree as [Hl Hrest].
  destruct rest as [|l' rest].
  - cbn [String.concat length]. rewrite <- (append_nil_r Py.LF) at 1.
    by rewrite line_count_line.
  - cbn [String.concat length]. rewrite !append_assoc.
    rewrite line_count_line by done. f_equal. by apply IH.
Qed.

End manifest.

(** ** After the loop *)

Section after_loop.

Context (env : Env) (config : CrawlerConfig).

Lemma started_files (total : Z) (w : World) : files (started total w) = files w.
Proof. reflexivity. Qed.

Lemma started_requests (total : Z) (w : World) :
  requests (started total w) = requests w.
Proof. reflexivity. Qed.

Lemma started_sleeps (total : Z) (w : World) : sleeps (started total w) = sleeps w.
Proof. reflexivity. Qed.

(** What [crawl] does once its loop has returned. *)
Lemma crawl_after_loop (targets : list (Z * string)) (w : World)
    (st : list string * Z) (wl : World) :
  out_dir config ∉ denied env →
  build_urls (base_url config) (start_page config) (end_page config)
    = Py.Ok targets →
  crawl_loop env config (make_session (user_agent config))
    (Z.of_nat (length targets)) (digits_for (Z.of_nat (length targets)))
    1 targets ([], 0) (started (Z.of_nat (length targets)) w)
  = (Py.Ok st, wl) →
  index_path config ∉ denied env →
  ∃ w' : World,
    crawl env config w
    = (if st.2 <? Z.of_nat (length targets)
       then Py.Raise (Py.SystemExit 2) else Py.Ok tt, w')
    ∧ files w' = <[index_path config := manifest_text st.1]> (files wl)
    ∧ requests w' = requests wl
    ∧ sleeps w' = sleeps wl
    ∧ summary_line st.2 (Z.of_nat (length targets)) ∈ stdout w'.
Proof.
  intros Hdir Hurls Hloop Hidx.
  destruct (crawl env config w) as [r w'] eqn:Hrun.
  apply crawl_ends in Hrun.
  inversion Hrun as [| e _ Hurls'
                     | targets' e wl' _ Hurls' Hloop'
                     | targets' st' wl' _ Hurls' Hloop'
                     | targets' st' wl' w2 _ Hurls' Hloop' _ Hlt Hf Hr Hs Ho
                     | targets' st' wl' w2 _ Hurls' Hloop' _ Hge Hf Hr Hs Ho];
    subst; try done; try congruence;
    rewrite Hurls in Hurls'; injection Hurls' as <-;
    rewrite Hloop in Hloop'; try done;
    injection Hloop' as <- <-; exists w'.
  - destruct (Z.ltb_spec st.2 (Z.of_nat (length targets))); [|lia].
    split_and!; try done.
    rewrite Ho. apply list_elem_of_In, in_or_app. right. cbn. tauto.
  - destruct (Z.ltb_spec st.2 (Z.of_nat (length targets))); [lia |].
    split_and!; try done.
    rewrite Ho. apply list_elem_of_In, in_or_app. right. cbn. tauto.
Qed.

(** What [crawl] does once its loop has raised. *)
Lemma crawl_after_raise (targets : list (Z * string)) (w : World)
    (e : Py.exn) (wl : World) :
  out_dir config ∉ denied env →
  build_urls (base_url config) (start_page config) (end_page config)
    = Py.Ok targets →
  crawl_loop env config (make_session (user_agent config))
    (Z.of_nat (length targets)) (digits_for (Z.of_nat (length targets)))
    1 targets ([], 0) (started (Z.of_nat (length targets)) w)
  = (Py.Raise e, wl) →
  crawl env config w = (Py.Raise e, wl).
Proof.
  intros Hdir Hurls Hloop.
  destruct (crawl env config w) as [r w'] eqn:Hrun.
  apply crawl_ends in Hrun.
  inversion Hrun as [| e' _ Hurls'
                     | targets' e' wl' _ Hurls' Hloop'
                     | targets' st' wl' _ Hurls' Hloop'
                     | targets' st' wl' w2 _ Hurls' Hloop'
                     | targets' st' wl' w2 _ Hurls' Hloop'];
    subst; try done; try congruence;
    rewrite Hurls in Hurls'; injection Hurls' as <-;
    rewrite Hloop in Hloop'; congruence.
Qed.

(** What [crawl] does when the manifest cannot be written. *)
Lemma crawl_manifest_denied (targets : list (Z * string)) (w : World)
    (st : list string * Z) (wl : World) :
  out_dir config ∉ denied env →
  build_urls (base_url config) (start_page config) (end_page config)
    = Py.Ok targets →
  crawl_loop env config (make_session (user_agent config))
    (Z.of_nat (length targets)) (digits_for (Z.of_nat (length targets)))
    1 targets ([], 0) (started (Z.of_nat (length targets)) w)
  = (Py.Ok st, wl) →
  index_path config ∈ denied env →
  crawl env config w = (Py.Raise Py.OSError, wl).
Proof.
  intros Hdir Hurls Hloop Hidx.
  destruct (crawl env config w) as [r w'] eqn:Hrun.
  apply crawl_ends in Hrun.
  inversion Hrun as [| e' _ Hurls'
                     | targets' e' wl' _ Hurls' Hloop'
                     | targets' st' wl' _ Hurls' Hloop'
                     | targets' st' wl' w2 _ Hurls' Hloop'
                     | targets' st' wl' w2 _ Hurls' Hloop'];
    subst; try done; try congruence;
    rewrite Hurls in Hurls'; injection Hurls' as <-;
    rewrite Hloop in Hloop'; congruence.
Qed.

End after_loop.

(** ** What the loop writes and raises *)

Section numbered.

Context (config : CrawlerConfig) (digits : Z).

Lemma all_lines_enumerate (targets : list (Z * string)) : ∀ idx,
  all_lines digits idx targets
  = map (λ t : Z * (Z * string), index_line (file_name t.1 digits) t.2.2)
      (enumerate idx targets).
Proof.
  induction targets as [|[n url] rest IH]; intros idx; cbn; [done |].
  by rewrite IH.
Qed.

Lemma saved_lines_enumerate (w : World) (targets : list (Z * string)) : ∀ idx,
  saved_lines config digits w idx targets
  = map (λ t : Z * (Z * string), index_line (file_name t.1 digits) t.2.2)
      (List.filter
         (λ t : Z * (Z * string), saved_before w (out_path config digits t.1))
         (enumerate idx targets)).
Proof.
  induction targets as [|[n url] rest IH]; intros idx; cbn; [done |].
  destruct (saved_before w (out_path config digits idx)); cbn; by rewrite IH.
Qed.

Lemma pending_urls_enumerate (w : World) (targets : list (Z * string)) : ∀ idx,
  pending_urls config digits w idx targets
  = map (λ t : Z * (Z * string), t.2.2)
      (List.filter
         (λ t : Z * (Z * string),
            negb (saved_before w (out_path config digits t.1)))
         (enumerate idx targets)).
Proof.
  induction targets as [|[n url] rest IH]; intros idx; cbn; [done |].
  destruct (saved_before w (out_path config digits idx)); cbn; by rewrite IH.
Qed.

Lemma all_lines_lookup (targets : list (Z * string)) :
  ∀ (idx : Z) (k : nat) (n : Z) (url : string),
  targets !! k = Some (n, url) →
  all_lines digits idx targets !! k
  = Some (index_line (file_name (idx + Z.of_nat k) digits) url).
Proof.
  induction targets as [|[m u] rest IH]; intros idx k n url; [done |].
  destruct k as [|k]; cbn.
  - intros [= -> ->]. by rewrite Z.add_0_r.
  - intros Hk. rewrite (IH _ _ _ _ Hk). do 3 f_equal. lia.
Qed.

End numbered.

Section written.

Context (env : Env) (config : CrawlerConfig) (session : Session).
Context (total digits : Z) (Hdigits : 0 ≤ digits).

(** An iteration whose file is already there. *)
Lemma saved_target_step (idx : Z) (url : string) (st : list string * Z)
    (w : World) :
  saved_before w (out_path config digits idx) = true →
  ∃ w1 : World,
    crawl_target env config session total digits idx url st w
    = (Py.Ok (st.1 ++ [index_line (file_name idx digits) url], st.2 + 1), w1)
    ∧ files w1 = files w ∧ requests w1 = requests w ∧ sleeps w1 = sleeps w.
Proof.
  intros Hsaved.
  destruct (crawl_target env config session total digits idx url st w)
    as [r w1] eqn:Hstep.
  apply crawl_target_step in Hstep; [|done].
  destruct Hstep; try congruence. by exists w1.
Qed.

(** A 200 response that the gate rejects leaves no file and no line. *)
Lemma rejected_leaves_nothing (idx : Z) (url : string) (st : list string * Z)
    (w : World) (resp : Response) :
  saved_before w (out_path config digits idx) = false →
  remote env session (requests w) url (timeout_sec config) = Received resp →
  is_html_response resp = false →
  (crawl_target env config session total digits idx url st w).1 = Py.Ok st
  ∧ files (crawl_target env config session total digits idx url st w).2 = files w.
Proof.
  intros Hsaved Hremote Hgate.
  destruct (crawl_target env config session total digits idx url st w)
    as [r w1] eqn:Hstep.
  apply crawl_target_step in Hstep; [|done].
  destruct Hstep; cbn [fst snd]; try done; congruence.
Qed.

(** An iteration leaves the files alone or writes its own destination,
    which then held no page. *)
Lemma target_step_files (idx : Z) (url : string) (st : list string * Z)
    (w : World) (r : Py.result (list string * Z)) (w1 : World) :
  target_step env config session digits idx url st w r w1 →
  files w1 = files w
  ∨ (saved_before w (out_path config digits idx) = false
     ∧ ∃ body, files w1 = <[out_path config digits idx := body]> (files w)).
Proof. destruct 1; eauto. Qed.

(** An iteration that returns leaves the state alone or adds its line. *)
Lemma target_step_state (idx : Z) (url : string) (st st1 : list string * Z)
    (w w1 : World) :
  target_step env config session digits idx url st w (Py.Ok st1) w1 →
  st1 = st
  ∨ (st1 = (st.1 ++ [index_line (file_name idx digits) url], st.2 + 1)
     ∧ is_Some (files w1 !! out_path config digits idx)).
Proof.
  inversion 1 as [w1' Hsaved Hf| | | | | |resp w1' _ _ _ _ _ _ Hf| |]; subst;
    auto; right; (split; [done |]).
  - rewrite Hf. unfold saved_before in Hsaved.
    destruct (files w !! out_path config digits idx); [eauto | done].
  - rewrite Hf, lookup_insert_eq. eauto.
Qed.

Lemma crawl_loop_files (targets : list (Z * string)) :
  ∀ (idx : Z) (st : list string * Z) (w : World)
    (r : Py.result (list string * Z)) (w' : World),
  crawl_loop env config session total digits idx targets st w = (r, w') →
  ∀ path : string,
    (saved_before w path = true → files w' !! path = files w !! path)
    ∧ ((∀ j, idx ≤ j < idx + Z.of_nat (length targets) →
          path ≠ out_path config digits j) →
       files w' !! path = files w !! path)
    ∧ (is_Some (files w !! path) → is_Some (files w' !! path)).
Proof.
  induction targets as [|[n url] rest IH]; intros idx st w r w'.
  - rewrite crawl_loop_nil. by intros [= <- <-].
  - rewrite crawl_loop_cons.
    destruct (crawl_target env config session total digits idx url st w)
      as [r1 w1] eqn:Hstep.
    apply crawl_target_step in Hstep; [|done].
    apply target_step_files in Hstep.
    assert (Hone : ∀ path : string,
      (saved_before w path = true →
       files w1 !! path = files w !! path ∧ saved_before w1 path = true)
      ∧ (path ≠ out_path config digits idx → files w1 !! path = files w !! path)
      ∧ (is_Some (files w !! path) → is_Some (files w1 !! path))).
    { intros path. destruct Hstep as [Hf|(Hnot & body & Hf)].
      - unfold saved_before. rewrite Hf. by split_and!.
      - split_and!.
        + intros Hsaved.
          assert (path ≠ out_path config digits idx) by congruence.
          unfold saved_before in *. by rewrite Hf, lookup_insert_ne.
        + intros Hne. by rewrite Hf, lookup_insert_ne.
        + intros Hsome. rewrite Hf.
          destruct (decide (out_path config digits idx = path)) as [->|Hne].
          * rewrite lookup_insert_eq. eauto.
          * by rewrite lookup_insert_ne. }
    assert (Hrest : ∀ path : string,
      (saved_before w1 path = true → files w' !! path = files w1 !! path)
      ∧ ((∀ j, idx + 1 ≤ j < idx + 1 + Z.of_nat (length rest) →
            path ≠ out_path config digits j) →
         files w' !! path = files w1 !! path)
      ∧ (is_Some (files w1 !! path) → is_Some (files w' !! path)) →
      (saved_before w path = true → files w' !! path = files w !! path)
      ∧ ((∀ j, idx ≤ j < idx + Z.of_nat (length ((n, url) :: rest)) →
            path ≠ out_path config digits j) →
         files w' !! path = files w !! path)
      ∧ (is_Some (files w !! path) → is_Some (files w' !! path))).
    { intros path (H1 & H2 & H3). destruct (Hone path) as (G1 & G2 & G3).
      cbn [length]. split_and!.
      - intros Hs. destruct (G1 Hs) as [Heq Hs1]. by rewrite H1.
      - intros Hne. rewrite H2, G2; [done | apply Hne; lia |].
        intros j Hj. apply Hne. lia.
      - auto. }
    destruct r1 as [st1|e].
    + intros Hloop path. apply Hrest. by apply (IH _ _ _ _ _ Hloop).
    + intros [= <- <-] path. apply Hrest. by split_and!.
Qed.

(** A loop that counted every target has left a file for each. *)
Lemma crawl_loop_full_files (targets : list (Z * string)) :
  ∀ (idx : Z) (st st' : list string * Z) (w w' : World),
  0 ≤ idx →
  crawl_loop env config session total digits idx targets st w = (Py.Ok st', w') →
  st.2 + Z.of_nat (length targets) ≤ st'.2 →
  ∀ j, idx ≤ j < idx + Z.of_nat (length targets) →
    is_Some (files w' !! out_path config digits j).
Proof.
  induction targets as [|[n url] rest IH]; intros idx st st' w w' Hidx.
  - cbn [length]. intros _ _ j Hj. lia.
  - rewrite crawl_loop_cons.
    destruct (crawl_target env config session total digits idx url st w)
      as [[st1|e] w1] eqn:Hstep; [|done].
    apply crawl_target_step in Hstep; [|done].
    apply target_step_state in Hstep.
    intros Hloop Hfull j Hj. cbn [length] in Hfull, Hj.
    destruct (crawl_loop_counter env config session total digits Hdigits rest
                (idx + 1) st1 st' w1 w' ltac:(lia) Hloop) as [_ Hcount].
    destruct Hstep as [->|[-> Hfile]]; [lia |]. cbn [snd] in *.
    destruct (decide (j = idx)) as [->|Hne].
    + by apply (crawl_loop_files rest _ _ _ _ _ Hloop).
    + eapply IH; [| exact Hloop | |]; cbn [snd]; lia.
Qed.

(** The exceptions of the loop: a page that cannot be written, a delay or
    a timeout that is refused. *)
Lemma crawl_loop_raises (targets : list (Z * string)) :
  ∀ (idx : Z) (st : list string * Z) (w : World) (e : Py.exn) (w' : World),
  crawl_loop env config session total digits idx targets st w = (Py.Raise e, w') →
  (e = Py.OSError
   ∧ ∃ j, idx ≤ j < idx + Z.of_nat (length targets)
          ∧ out_path config digits j ∈ denied env)
  ∨ (e = Py.ValueError ∧ Qle_bool 0 (delay_sec config) = false)
  ∨ (∃ refusal, e = refusal_exn refusal
                ∧ sleep_refused env (delay_sec config) = Some refusal)
  ∨ (e = Py.ValueError
     ∧ ∃ (history : list string) (url : string),
         remote env session history url (timeout_sec config) = InvalidTimeout).
Proof.
  induction targets as [|[n url] rest IH]; intros idx st w e w'.
  - by rewrite crawl_loop_nil.
  - rewrite crawl_loop_cons.
    destruct (crawl_target env config session total digits idx url st w)
      as [r1 w1] eqn:Hstep.
    apply crawl_target_step in Hstep; [|done].
    cbn [length].
    destruct Hstep;
      try (intros Hloop; apply IH in Hloop as [(-> & j & Hj & Hden)|Hother];
           [left; split; [done |]; exists j; split; [lia | done] | by right]).
    + intros [= <- <-]. left. split; [done |]. exists idx. split; [lia | done].
    + intros [= <- <-]. right. by left.
    + intros [= <- <-]. right. right. left. eauto.
    + intros [= <- <-]. right. right. right. eauto.
Qed.

Lemma crawl_loop_never_exits (targets : list (Z * string)) (idx : Z)
    (st : list string * Z) (w : World) (code : Z) (w' : World) :
  crawl_loop env config session total digits idx targets st w
  ≠ (Py.Raise (Py.SystemExit code), w').
Proof.
  intros Hloop. apply crawl_loop_raises in Hloop.
  destruct Hloop as [[? _]|[[? _]|[(refusal & ? & _)|[? _]]]]; try done.
  by destruct refusal.
Qed.

(** A loop that returns with a full counter has the line of every target. *)
Lemma full_counter_all_lines (targets : list (Z * string))
    (w : World) (st : list string * Z) (w' : World) :
  crawl_loop env config session total digits 1 targets ([], 0) w = (Py.Ok st, w') →
  Z.of_nat (length targets) ≤ st.2 →
  st = (all_lines digits 1 targets, Z.of_nat (length targets)).
Proof.
  intros Hloop Hfull.
  destruct (crawl_loop_spec env config session total digits Hdigits targets 1
              ([], 0) w _ w' ltac:(lia) Hloop) as [_ Hok].
  destruct (Hok st eq_refl) as (_ & new & H1 & H2 & _ & Hsub).
  cbn in H1, H2. destruct st as [lines downloaded]. cbn in *. subst lines.
  pose proof (sublist_length _ _ Hsub) as Hlen.
  rewrite length_all_lines in Hlen.
  rewrite (sublist_same_length _ _ Hsub) by (rewrite length_all_lines; lia).
  f_equal. lia.
Qed.

End written.

(** ** The exceptions of the sequencer *)

Section sequencer_raises.

Lemma format_scan_raises (n : Z) (k : nat) :
  ∀ (s : string) (m : Py.scan_mode) (e : Py.exn),
  (String.length s ≤ k)%nat →
  Py.format_scan n m s = Py.Raise e →
  e = Py.ValueError ∨ e = Py.KeyError ∨ e = Py.IndexError
  ∨ e = Py.OutsideFragment.
Proof.
  induction k as [|k IH]; intros s m e Hlen.
  - destruct s; [|cbn in Hlen; lia]. destruct m; cbn; [done |].
    intros [= <-]. auto.
  - destruct s as [|c r]; [destruct m; cbn; [done | intros [= <-]; auto] |].
    cbn [String.length] in Hlen.
    assert (Hr : ∀ m' e', Py.format_scan n m' r = Py.Raise e' →
      e' = Py.ValueError ∨ e' = Py.KeyError ∨ e' = Py.IndexError
      ∨ e' = Py.OutsideFragment) by (intros m' e'; apply IH; lia).
    assert (Hr' : ∀ c' r' e', r = String c' r' →
      Py.format_scan n Py.InText r' = Py.Raise e' →
      e' = Py.ValueError ∨ e' = Py.KeyError ∨ e' = Py.IndexError
      ∨ e' = Py.OutsideFragment).
    { intros c' r' e' -> H. apply (IH r' Py.InText); [cbn in Hlen; lia | done]. }
    destruct m as [|name]; cbn [Py.format_scan].
    + destruct (Ascii.eqb c "{").
      { destruct r as [|c' r']; [apply Hr |].
        destruct c' as [[] [] [] [] [] [] [] []];
          try apply Hr.
        destruct (Py.format_scan n Py.InText r') as [out|e0] eqn:Hscan; [done |].
        intros [= <-]. by apply (Hr' _ _ _ eq_refl). }
      destruct (Ascii.eqb c "}").
      { destruct r as [|c' r']; [intros [= <-]; auto |].
        destruct c' as [[] [] [] [] [] [] [] []];
          try (intros [= <-]; auto).
        destruct (Py.format_scan n Py.InText r') as [out|e0] eqn:Hscan; [done |].
        intros [= <-]. by apply (Hr' _ _ _ eq_refl). }
      destruct (Py.format_scan n Py.InText r) as [out|e0] eqn:Hscan; [done |].
      intros [= <-]. by apply (Hr Py.InText).
    + destruct (Ascii.eqb c "}").
      { unfold Py.field_value. destruct (String.eqb name "n").
        - destruct (Py.format_scan n Py.InText r) as [out|e0] eqn:Hscan; [done |].
          intros [= <-]. by apply (Hr Py.InText).
        - destruct (Py.all_digits name);
            [destruct (Py.maxsize <? Py.int_of_digits 0 name) |];
            intros [= <-]; auto. }
      destruct (Ascii.eqb c "{"); [intros [= <-]; auto |].
      destruct (Ascii.eqb c "!" || Ascii.eqb c ":" || Ascii.eqb c "."
                || Ascii.eqb c "["); [intros [= <-]; auto |].
      apply Hr.
Qed.

Lemma build_urls_raises (template : string) (start_page end_page : Z)
    (e : Py.exn) :
  build_urls template start_page end_page = Py.Raise e →
  e = Py.ValueError ∨ e = Py.KeyError ∨ e = Py.IndexError
  ∨ e = Py.OutsideFragment.
Proof.
  unfold build_urls.
  induction (range start_page (end_page + 1)) as [|n rest IH];
    cbn [build_urls_over]; [done |].
  destruct (Py.format_n template n) as [url|e0] eqn:Hfmt.
  - destruct (build_urls_over template rest); [done |].
    intros [= <-]. by apply IH.
  - intros [= <-]. unfold Py.format_n in Hfmt.
    by apply (format_scan_raises n (String.length template) template Py.InText).
Qed.

End sequencer_raises.

(** ** A run that wrote its manifest *)

Section wrote_manifest.

Context (env : Env) (config : CrawlerConfig).

(** A call of [crawl] that returns or leaves through [sys.exit] has run
    its loop to the end and written the manifest. *)
Lemma crawl_wrote_manifest (w : World) (r : Py.result unit) (w' : World) :
  crawl env config w = (r, w') →
  r = Py.Ok tt ∨ (∃ code, r = Py.Raise (Py.SystemExit code)) →
  ∃ (targets : list (Z * string)) (st : list string * Z) (wl : World),
    build_urls (base_url config) (start_page config) (end_page config)
    = Py.Ok targets
    ∧ crawl_loop env config (make_session (user_agent config))
        (Z.of_nat (length targets)) (digits_for (Z.of_nat (length targets)))
        1 targets ([], 0) (started (Z.of_nat (length targets)) w)
      = (Py.Ok st, wl)
    ∧ files w' = <[index_path config := manifest_text st.1]> (files wl)
    ∧ requests w' = requests wl
    ∧ sleeps w' = sleeps wl
    ∧ (r = Py.Ok tt ∧ Z.of_nat (length targets) ≤ st.2
       ∨ r = Py.Raise (Py.SystemExit 2) ∧ st.2 < Z.of_nat (length targets)).
Proof.
  intros Hrun Hr. apply crawl_ends in Hrun.
  inversion Hrun as [| e _ Hurls | targets e wl _ Hurls Hloop
                     | targets st wl _ Hurls Hloop
                     | targets st wl w2 _ Hurls Hloop _ Hlt Hf Hq Hs
                     | targets st wl w2 _ Hurls Hloop _ Hge Hf Hq Hs]; subst.
  - by destruct Hr as [|[code ?]].
  - destruct Hr as [|[code [= ->]]]; [done |].
    apply build_urls_raises in Hurls. by destruct Hurls as [|[|[|]]].
  - destruct Hr as [|[code [= ->]]]; [done |].
    by apply crawl_loop_never_exits in Hloop; [|apply digits_for_nonneg].
  - by destruct Hr as [|[code ?]].
  - exists targets, st, wl. split_and!; auto.
  - exists targets, st, wl. split_and!; auto.
Qed.

End wrote_manifest.

(** ** Formatting page by page *)

Section sequencer_pages.

Lemma format_scan_text_prefix (n : Z) (pre rest : string) :
  brace_free pre = true →
  Py.format_scan n Py.InText (pre +:+ rest)
  = match Py.format_scan n Py.InText rest with
    | Py.Ok out => Py.Ok (pre +:+ out)
    | Py.Raise e => Py.Raise e
    end.
Proof.
  induction pre as [|c pre IH].
  - intros _. cbn. by destruct (Py.format_scan n Py.InText rest).
  - cbn [brace_free]. intros [[Ho Hc]%andb_prop Hr]%andb_prop.
    apply negb_true_iff in Ho, Hc.
    change (String c pre +:+ rest) with (String c (pre +:+ rest)).
    cbn [Py.format_scan]. rewrite Ho, Hc, (IH Hr).
    by destruct (Py.format_scan n Py.InText rest).
Qed.

Lemma format_n_placeholder (pre suf : string) (n : Z) :
  brace_free pre = true → brace_free suf = true →
  Py.format_n (pre +:+ "{n}" +:+ suf) n = Py.Ok (pre +:+ Py.str n +:+ suf).
Proof.
  intros Hpre Hsuf. unfold Py.format_n.
  rewrite format_scan_text_prefix by done.
  pose proof (format_brace_free suf n Hsuf) as Hs. unfold Py.format_n in Hs.
  change ("{n}" +:+ suf) with (String "{" (String "n" (String "}" suf))).
  cbn [Py.format_scan]. cbn [Ascii.eqb Bool.eqb orb].
  change (EmptyString +:+ String "n" EmptyString) with "n".
  change (Py.field_value n "n") with (Py.Ok (Py.str n)).
  by rewrite Hs.
Qed.

Lemma build_urls_over_pages (template : string) (pages : list Z) :
  ∀ targets : list (Z * string),
  build_urls_over template pages = Py.Ok targets →
  map fst targets = pages
  ∧ Forall (λ t, Py.format_n template t.1 = Py.Ok t.2) targets.
Proof.
  induction pages as [|n rest IH]; intros targets; cbn [build_urls_over].
  - intros [= <-]. by split.
  - destruct (Py.format_n template n) as [url|e] eqn:Hfmt; [|done].
    destruct (build_urls_over template rest) as [urls|e]; [|done].
    intros [= <-]. destruct (IH urls eq_refl) as [Hfst Hall].
    cbn. split; [by rewrite Hfst | by constructor].
Qed.

(** The exception of a template does not depend on the page number. *)
Lemma format_scan_same_error (n n' : Z) (k : nat) :
  ∀ (s : string) (m : Py.scan_mode),
  (String.length s ≤ k)%nat →
  match Py.format_scan n m s, Py.format_scan n' m s with
  | Py.Ok _, Py.Ok _ => True
  | Py.Raise e, Py.Raise e' => e = e'
  | _, _ => False
  end.
Proof.
  induction k as [|k IH]; intros s m Hlen.
  - destruct s; [|cbn in Hlen; lia]. by destruct m.
  - destruct s as [|c r]; [by destruct m |].
    cbn [String.length] in Hlen.
    assert (Hr : ∀ m', match Py.format_scan n m' r, Py.format_scan n' m' r with
                       | Py.Ok _, Py.Ok _ => True
                       | Py.Raise e, Py.Raise e' => e = e'
                       | _, _ => False
                       end) by (intros m'; apply IH; lia).
    destruct m as [|name]; cbn [Py.format_scan].
    + destruct (Ascii.eqb c "{").
      { destruct r as [|c' r']; [apply Hr |].
        destruct (Ascii.eqb_spec c' "{") as [->|Hne].
        - specialize (IH r' Py.InText ltac:(cbn in Hlen; lia)).
          by destruct (Py.format_scan n Py.InText r'),
                      (Py.format_scan n' Py.InText r').
        - assert (Hsame : ∀ (A : Type) (a b : A),
            match c' with "{"%char => a | _ => b end = b).
          { intros A a b.
            destruct c' as [[] [] [] [] [] [] [] []]; try reflexivity.
            by destruct Hne. }
          rewrite !Hsame. apply Hr. }
      destruct (Ascii.eqb c "}").
      { destruct r as [|c' r']; [done |].
        destruct (Ascii.eqb_spec c' "}") as [->|Hne].
        - specialize (IH r' Py.InText ltac:(cbn in Hlen; lia)).
          by destruct (Py.format_scan n Py.InText r'),
                      (Py.format_scan n' Py.InText r').
        - assert (Hsame : ∀ (A : Type) (a b : A),
            match c' with "}"%char => a | _ => b end = b).
          { intros A a b.
            destruct c' as [[] [] [] [] [] [] [] []]; try reflexivity.
            by destruct Hne. }
          by rewrite !Hsame. }
      specialize (Hr Py.InText).
      by destruct (Py.format_scan n Py.InText r), (Py.format_scan n' Py.InText r).
    + destruct (Ascii.eqb c "}").
      { unfold Py.field_value. destruct (String.eqb name "n").
        - specialize (Hr Py.InText).
          by destruct (Py.format_scan n Py.InText r),
                      (Py.format_scan n' Py.InText r).
        - destruct (Py.all_digits name); [|done].
          by destruct (Py.maxsize <? Py.int_of_digits 0 name). }
      destruct (Ascii.eqb c "{"); [done |].
      destruct (Ascii.eqb c "!" || Ascii.eqb c ":" || Ascii.eqb c "."
                || Ascii.eqb c "["); [done |].
      apply Hr.
Qed.

Lemma format_n_same_error (template : string) (n n' : Z) (e : Py.exn) :
  Py.format_n template n = Py.Raise e → Py.format_n template n' = Py.Raise e.
Proof.
  unfold Py.format_n. intros H.
  pose proof (format_scan_same_error n n' (String.length template) template
                Py.InText ltac:(lia)) as Hsame.
  rewrite H in Hsame.
  destruct (Py.format_scan n' Py.InText template); cbn in Hsame;
    [done | by subst].
Qed.

Lemma build_urls_over_raise (template : string) (n : Z) (rest : list Z)
    (e : Py.exn) :
  build_urls_over template (n :: rest) = Py.Raise e
  ↔ Py.format_n template n = Py.Raise e.
Proof.
  cbn [build_urls_over].
  destruct (Py.format_n template n) as [url|e0] eqn:Hfmt; cbv iota;
    [|split; by intros [= ->]].
  split; [|done].
  assert (Hrest : ∃ urls, build_urls_over template rest = Py.Ok urls).
  { assert (Hok : ∀ m, ∃ u, Py.format_n template m = Py.Ok u).
    { intros m. destruct (Py.format_n template m) as [u|e'] eqn:Hm; [eauto |].
      apply (format_n_same_error _ _ n) in Hm. congruence. }
    induction rest as [|m rest IH]; [by exists [] |].
    cbn [build_urls_over]. destruct (Hok m) as [u ->].
    destruct IH as [urls ->]. eauto. }
  destruct Hrest as [urls ->]. done.
Qed.

End sequencer_pages.

(** ** Sample computations *)

Example str_12345 : Py.str 12345 = "12345".
Proof. reflexivity. Qed.

Example str_neg : Py.str (-70) = "-70".
Proof. reflexivity. Qed.

Example format_0wd_pos : Py.format_0wd 5 4 = Py.Ok "0005".
Proof. reflexivity. Qed.

Example format_0wd_neg : Py.format_0wd (-5) 4 = Py.Ok "-005".
Proof. reflexivity. Qed.

Example format_n_default :
  Py.format_n "https://ilibrary.ru/text/1099/p.{n}/index.html" 17
  = Py.Ok "https://ilibrary.ru/text/1099/p.17/index.html".
Proof. reflexivity. Qed.

Example format_n_escape : Py.format_n "a{{n}}b{n}" 3 = Py.Ok "a{n}b3".
Proof. reflexivity. Qed.

Example format_n_unknown : Py.format_n "p.{page}" 3 = Py.Raise Py.KeyError.
Proof. reflexivity. Qed.

Example format_n_positional : Py.format_n "p.{}" 3 = Py.Raise Py.IndexError.
Proof. reflexivity. Qed.

Example lower_mixed : Py.lower "Text/HTML; Charset=UTF-8" = "text/html; charset=utf-8".
Proof. reflexivity. Qed.

(** ** File naming *)

(** C3. With [N] targets, the file of the 1-based index [i] is named by
    the decimal numeral of [i], zero-padded to the width
    [max(4, number of digits of N)], followed by [".html"]; the names of
    two indices compare, as strings, the way the indices do, whatever
    [N] is.  A run uses this name for the target at position [i] of its
    sequence, whatever the page number of that target: the iteration for
    the target skips it when the file of this name in the output
    directory is not empty, stores a page it accepts in that file, and
    adds no other manifest line than this name, a tab and the URL, and
    none without the file being there; and when the run returns, that
    file is there and line [i] of the manifest is that line. *)
Theorem file_names_padded_and_sorted (N i : Z) :
  1 ≤ i ≤ N →
  let width := digits_for N in
  let padded := Py.zeros (Z.to_nat (width - Py.len (Py.str i))) +:+ Py.str i in
  let tab := String (ascii_of_nat 9) EmptyString in
  let newline := String (ascii_of_nat 10) EmptyString in
  width = Z.max 4 (Py.len (Py.str N))
  ∧ Py.len padded = width
  ∧ file_name_for_index i width = Py.Ok (padded +:+ ".html")
  ∧ (∀ (j : Z) (fi fj : string),
       i < j ≤ N →
       file_name_for_index i width = Py.Ok fi →
       file_name_for_index j width = Py.Ok fj →
       String.ltb fi fj = true)
  ∧ (∀ (env : Env) (config : CrawlerConfig) (targets : list (Z * string))
       (n : Z) (url : string),
       build_urls (base_url config) (start_page config) (end_page config)
       = Py.Ok targets →
       Z.of_nat (length targets) = N →
       targets !! Z.to_nat (i - 1) = Some (n, url) →
       let destination := os_path_join (out_dir config) (padded +:+ ".html") in
       let line := (padded +:+ ".html") +:+ tab +:+ url in
       (∀ (st : list string * Z) (w : World)
          (r : Py.result (list string * Z)) (w1 : World),
          crawl_target env config (make_session (user_agent config))
            (Z.of_nat (length targets)) (digits_for (Z.of_nat (length targets)))
            i url st w = (r, w1) →
          (saved_before w destination = true →
           r = Py.Ok (st.1 ++ [line], st.2 + 1) ∧ requests w1 = requests w)
          ∧ (∀ resp : Response,
               saved_before w destination = false →
               remote env (make_session (user_agent config)) (requests w) url
                 (timeout_sec config) = Received resp →
               status_code resp = 200 →
               is_html_response resp = true →
               destination ∉ denied env →
               files w1 !! destination = Some (text resp))
          ∧ (∀ st1 : list string * Z,
               r = Py.Ok st1 →
               st1 = st
               ∨ (st1 = (st.1 ++ [line], st.2 + 1)
                  ∧ is_Some (files w1 !! destination))))
       ∧ ∀ w : World,
           (crawl env config w).1 = Py.Ok tt →
           is_Some (files (crawl env config w).2 !! destination)
           ∧ ∃ lines : list string,
               files (crawl env config w).2 !! index_path config
               = Some (String.concat newline lines +:+ newline)
               ∧ length lines = length targets
               ∧ lines !! Z.to_nat (i - 1) = Some line).
Proof.
  intros Hi width padded tab newline.
  assert (Hwidth : ∀ k, 1 ≤ k ≤ N →
    Py.len (Py.zeros (Z.to_nat (width - Py.len (Py.str k))) +:+ Py.str k) = width).
  { intros k Hk.
    destruct (padded_digits k (Z.to_nat (width - Py.len (Py.str k))))
      as (_ & _ & -> & _); [lia |].
    assert (Py.len (Py.str k) ≤ Py.len (Py.str N)).
    { rewrite !str_nonneg by lia. apply len_dec_mono. lia. }
    unfold width, digits_for. lia. }
  assert (Hw0 : 0 ≤ width) by apply digits_for_nonneg.
  assert (Hname : file_name i width = padded +:+ ".html").
  { rewrite file_name_nonneg by lia. done. }
  split_and!.
  - done.
  - by apply Hwidth.
  - rewrite file_name_for_index_ok by done. by rewrite Hname.
  - intros j fi fj Hj. rewrite !file_name_for_index_nonneg by lia.
    intros [= <-] [= <-]. unfold String.ltb.
    rewrite <- !append_assoc.
    destruct (padded_digits i (Z.to_nat (width - Py.len (Py.str i))))
      as (Hdi & Hvi & _); [lia |].
    destruct (padded_digits j (Z.to_nat (width - Py.len (Py.str j))))
      as (Hdj & Hvj & _); [lia |].
    rewrite compare_append_lt; [done | |].
    + rewrite !Hwidth; [done | lia | lia].
    + apply compare_digits; [|done|done|lia].
      rewrite !Hwidth; [done | lia | lia].
  - intros env config targets n url Hurls Hlen Htarget destination line.
    rewrite Hlen. fold width.
    assert (Hdest : out_path config width i = destination).
    { unfold out_path, destination. by rewrite Hname. }
    assert (Hline : index_line (file_name i width) url = line).
    { unfold index_line, line. by rewrite Hname. }
    split.
    + intros st w r w1 Hstep.
      apply crawl_target_step in Hstep; [|done].
      rewrite <- Hdest, <- Hline. split_and!.
      * intros Hsaved. destruct Hstep; try congruence. done.
      * intros resp Hsaved Hremote Hstatus Hgate Hwrite.
        destruct Hstep as [w1 Hs|msg w1 _ Hr|resp' w1 _ Hr Hc
                          |resp' w1 _ Hr Hc Hg
                          |resp' w1 _ Hr Hc Hg Hden
                          |resp' w1 _ Hr Hc Hg Hden Hq Hf
                          |resp' w1 _ Hr Hc Hg Hden Hq Hf
                          |resp' refusal w1 _ Hr Hc Hg Hden Hq Hf
                          |w1 _ Hr];
          try congruence; try done;
          assert (resp' = resp) as -> by congruence;
          by rewrite Hf, lookup_insert_eq.
      * intros st1 ->. by apply target_step_state in Hstep.
    + intros w Hok.
      destruct (crawl env config w) as [r w'] eqn:Hrun. cbn [fst snd] in *.
      destruct (crawl_wrote_manifest env config w r w' Hrun ltac:(auto))
        as (targets' & st & wl & Hurls' & Hloop & Hf & _ & _ & Hend).
      rewrite Hurls in Hurls'. injection Hurls' as <-.
      rewrite Hlen in Hloop. fold width in Hloop.
      destruct Hend as [[_ Hfull]|[Hexit _]]; [|congruence].
      pose proof (crawl_loop_full_files env config _ _ _ Hw0 targets 1
                    ([], 0) st _ wl ltac:(lia) Hloop) as Hfiles.
      cbn [snd] in Hfiles. specialize (Hfiles ltac:(lia) i ltac:(lia)).
      rewrite Hdest in Hfiles.
      apply (full_counter_all_lines env config _ _ _ Hw0) in Hloop; [|lia].
      subst st. cbn [fst] in Hf. split.
      * rewrite Hf.
        destruct (decide (index_path config = destination)) as [->|Hne].
        -- rewrite lookup_insert_eq. eauto.
        -- by rewrite lookup_insert_ne.
      * exists (all_lines width 1 targets). split_and!.
        -- rewrite Hf. apply lookup_insert_eq.
        -- apply length_all_lines.
        -- rewrite (all_lines_lookup width targets 1 _ n url Htarget).
           replace (1 + Z.of_nat (Z.to_nat (i - 1))) with i by lia.
           by rewrite Hline.
Qed.

Lemma file_names_padded_and_sorted_witness :
  1 ≤ 2 ≤ 3
  ∧ file_name_for_index 2 (digits_for 3) = Py.Ok ("0002" +:+ ".html")
  ∧ is_Some (files (crawl resume_env other_config empty_world).2
               !! os_path_join (out_dir other_config) ("0002" +:+ ".html"))
  ∧ ∃ lines : list string,
      files (crawl resume_env other_config empty_world).2
        !! index_path other_config
      = Some (String.concat (String (ascii_of_nat 10) EmptyString) lines
              +:+ String (ascii_of_nat 10) EmptyString)
      ∧ length lines = length other_targets
      ∧ lines !! Z.to_nat (2 - 1)
        = Some (("0002" +:+ ".html") +:+ String (ascii_of_nat 9) EmptyString
                +:+ "http://y/q58.htm").
Proof.
  split; [lia |].
  destruct (file_names_padded_and_sorted 3 2 ltac:(lia))
    as (_ & _ & Hname & _ & Hrun).
  split; [exact Hname |].
  destruct (Hrun resume_env other_config other_targets 58 "http://y/q58.htm")
    as [_ Hreturn]; [vm_compute; reflexivity | reflexivity | reflexivity |].
  apply (Hreturn empty_world). vm_compute. reflexivity.
Defined.

Example file_name_50 :
  file_name_for_index 1 (digits_for 50) = Py.Ok "0001.html"
  ∧ file_name_for_index 50 (digits_for 50) = Py.Ok "0050.html".
Proof. split; reflexivity. Qed.

Example file_name_12345 :
  file_name_for_index 1 (digits_for 12345) = Py.Ok "00001.html"
  ∧ file_name_for_index 12345 (digits_for 12345) = Py.Ok "12345.html".
Proof. split; reflexivity. Qed.

(** ** The sequencer and its errors *)

(** C4, as stated, fails: a template without a placeholder is expanded
    without complaint, every target getting the template as its URL, and
    a range that ends before it starts yields no target and no error. *)
Lemma sequencer_accepts_any_template :
  build_urls "https://site.com/index.html" 1 2
  = Py.Ok [(1, "https://site.com/index.html"); (2, "https://site.com/index.html")]
  ∧ build_urls "https://site.com/p.{n}/index.html" 5 3 = Py.Ok [].
Proof. split; vm_compute; reflexivity. Qed.

(** C4, amended.  The sequencer has no configuration error: a template
    without a brace, hence without a placeholder, gives one target per
    page number of the range, each with the template as its URL; a range
    that ends before it starts gives no target, whatever the template;
    and when formatting the template raises one of the exceptions of
    [str.format] — [ValueError], [KeyError] or [IndexError] — [crawl]
    raises the same exception with the world untouched, before any
    request. *)
Theorem sequencer_never_rejects (env : Env) (config : CrawlerConfig) (w : World) :
  (brace_free (base_url config) = true →
   build_urls (base_url config) (start_page config) (end_page config)
   = Py.Ok (map (λ n, (n, base_url config))
              (range (start_page config) (end_page config + 1))))
  ∧ (end_page config < start_page config →
     build_urls (base_url config) (start_page config) (end_page config) = Py.Ok [])
  ∧ (∀ e : Py.exn,
       e = Py.ValueError ∨ e = Py.KeyError ∨ e = Py.IndexError →
       out_dir config ∉ denied env →
       build_urls (base_url config) (start_page config) (end_page config)
       = Py.Raise e →
       crawl env config w = (Py.Raise e, w)
       ∧ start_page config ≤ end_page config
       ∧ Py.format_n (base_url config) (start_page config) = Py.Raise e).
Proof.
  split_and!.
  - intros Hfree. by apply build_urls_over_brace_free.
  - apply build_urls_empty.
  - intros e He Hdir Hurls. split.
    + destruct (crawl env config w) as [r w'] eqn:Hrun.
      apply crawl_ends in Hrun.
      inversion Hrun; subst; try done; congruence.
    + unfold build_urls, range in Hurls.
      destruct (Z.le_gt_cases (start_page config) (end_page config))
        as [Hle|Hgt].
      * split; [done |]. rewrite seqZ_cons in Hurls by lia.
        by apply build_urls_over_raise in Hurls.
      * by rewrite seqZ_nil in Hurls by lia.
Qed.

Lemma sequencer_never_rejects_witness :
  build_urls "http://x/p.{n}" 1 0 = Py.Ok []
  ∧ crawl resume_env unknown_field_config empty_world
    = (Py.Raise Py.KeyError, empty_world).
Proof.
  split.
  - apply (sequencer_never_rejects resume_env empty_config empty_world).
    cbn. lia.
  - destruct (sequencer_never_rejects resume_env unknown_field_config
                empty_world) as (_ & _ & Hraise).
    apply (Hraise Py.KeyError).
    + auto.
    + apply (bool_decide_unpack _). vm_compute. exact I.
    + vm_compute. reflexivity.
Defined.

Example build_urls_from_57 :
  build_urls "https://site.com/p.{n}/index.html" 57 58
  = Py.Ok [(57, "https://site.com/p.57/index.html");
           (58, "https://site.com/p.58/index.html")].
Proof. vm_compute. reflexivity. Qed.

Example build_urls_unknown_field :
  build_urls "https://site.com/p.{page}" 1 2 = Py.Raise Py.KeyError.
Proof. vm_compute. reflexivity. Qed.

Example build_urls_long_index :
  build_urls "https://site.com/p.{9223372036854775807}" 1 2
  = Py.Raise Py.IndexError
  ∧ build_urls "https://site.com/p.{9223372036854775808}" 1 2
    = Py.Raise Py.ValueError.
Proof. split; vm_compute; reflexivity. Qed.

(** ** The content gate *)

Lemma is_html_response_declared (resp : Response) :
  is_html_response resp
  = let declared := Py.lower (headers_get resp "Content-Type" EmptyString) in
    Py.contains "text/html" declared
    || Py.contains "application/xhtml+xml" declared
    || Py.startswith declared "text/".
Proof. reflexivity. Qed.

(** The gate reads the value of the [Content-Type] header and nothing
    else: without the header it rejects, and with it it accepts exactly
    when the lower-cased value holds [text/html] somewhere, holds
    [application/xhtml+xml] somewhere, or begins with [text/]. *)
Lemma content_gate_reads_header (resp : Response) :
  (headers resp !! "content-type" = None → is_html_response resp = false)
  ∧ ∀ value : string,
      headers resp !! "content-type" = Some value →
      is_html_response resp = true
      ↔ (∃ a b : string, Py.lower value = a +:+ "text/html" +:+ b)
        ∨ (∃ a b : string, Py.lower value = a +:+ "application/xhtml+xml" +:+ b)
        ∨ (∃ b : string, Py.lower value = "text/" +:+ b).
Proof.
  rewrite is_html_response_declared. unfold headers_get.
  change (Py.lower "Content-Type") with "content-type". split.
  - by intros ->.
  - intros value ->. cbn [from_option id]. cbv zeta.
    rewrite !orb_true_iff, !contains_iff. unfold Py.startswith.
    rewrite prefix_iff. tauto.
Qed.

(** A 200 response whose declared type is [application/pdf] and nothing
    more, in any case of the letters, is rejected, and the iteration
    that received it writes no file and adds no manifest line. *)
Lemma plain_pdf_is_rejected (env : Env) (config : CrawlerConfig)
    (session : Session) (total digits idx : Z) (url : string)
    (st : list string * Z) (w : World) (resp : Response) (value : string) :
  0 ≤ digits →
  headers resp !! "content-type" = Some value →
  Py.lower value = "application/pdf" →
  saved_before w (out_path config digits idx) = false →
  remote env session (requests w) url (timeout_sec config) = Received resp →
  is_html_response resp = false
  ∧ (crawl_target env config session total digits idx url st w).1 = Py.Ok st
  ∧ files (crawl_target env config session total digits idx url st w).2 = files w.
Proof.
  intros Hd Hheader Hpdf Hsaved Hremote.
  assert (Hno : is_html_response resp = false).
  { rewrite is_html_response_declared. unfold headers_get.
    change (Py.lower "Content-Type") with "content-type".
    rewrite Hheader. cbn [from_option id]. cbv zeta. by rewrite Hpdf. }
  split; [done |]. by eapply rejected_leaves_nothing.
Qed.

(** C5.  The gate is a function of the declared content type alone,
    rejects a response without the header and compares without regard
    to case, but it does not accept exactly the HTML, XHTML and text
    types: it looks for [text/html] anywhere in the header value, so a
    200 response that declares [application/pdf] with the parameter
    [name=text/html.pdf] is accepted; the run saves the PDF as
    [0001.html], lists it in the manifest and returns normally. *)
Theorem content_gate_accepts_named_pdf :
  headers named_pdf !! "content-type" = Some "application/pdf; name=text/html.pdf"
  ∧ status_code named_pdf = 200
  ∧ is_html_response named_pdf = true
  ∧ (crawl pdf_env one_page_config empty_world).1 = Py.Ok tt
  ∧ requests (crawl pdf_env one_page_config empty_world).2 = ["http://x/p.1"]
  ∧ files (crawl pdf_env one_page_config empty_world).2 !! "dump/0001.html"
    = Some (text named_pdf)
  ∧ files (crawl pdf_env one_page_config empty_world).2 !! "index.txt"
    = Some ("0001.html" +:+ String (ascii_of_nat 9) EmptyString
            +:+ "http://x/p.1" +:+ String (ascii_of_nat 10) EmptyString).
Proof. split_and!; vm_compute; reflexivity. Qed.

Example gate_plain_pdf :
  is_html_response
    (mkResponse 200 {[ "content-type" := "Application/PDF" ]} "%PDF-1.7") = false.
Proof. vm_compute. reflexivity. Qed.

Example gate_html_upper :
  is_html_response
    (mkResponse 200 {[ "content-type" := "TEXT/HTML; charset=UTF-8" ]} EmptyString)
  = true.
Proof. vm_compute. reflexivity. Qed.

Example gate_text_plain :
  is_html_response
    (mkResponse 200 {[ "content-type" := "text/plain" ]} EmptyString) = true.
Proof. vm_compute. reflexivity. Qed.

Example gate_no_header :
  is_html_response (mkResponse 200 ∅ "<html/>") = false.
Proof. vm_compute. reflexivity. Qed.

(** ** Failures of one target *)

(** C6. When the file of a target is not there and the fetch fails — the
    transport raised, the status is not 200, or the content gate rejects
    a 200 response — the iteration writes no file, adds no manifest line,
    leaves the counter alone, has made one request and no pause, and the
    loop goes on with the next target. *)
Theorem failed_target_is_skipped (env : Env) (config : CrawlerConfig)
    (session : Session) (total digits idx n : Z) (url : string)
    (rest : list (Z * string)) (st : list string * Z) (w : World) :
  0 ≤ digits →
  saved_before w (out_path config digits idx) = false →
  (∃ message,
     remote env session (requests w) url (timeout_sec config)
     = RequestException message)
  ∨ (∃ resp,
       remote env session (requests w) url (timeout_sec config) = Received resp
       ∧ (status_code resp ≠ 200
          ∨ (status_code resp = 200 ∧ is_html_response resp = false))) →
  ∃ w1 : World,
    crawl_target env config session total digits idx url st w = (Py.Ok st, w1)
    ∧ files w1 = files w
    ∧ requests w1 = requests w ++ [url]
    ∧ sleeps w1 = sleeps w
    ∧ crawl_loop env config session total digits idx ((n, url) :: rest) st w
      = crawl_loop env config session total digits (idx + 1) rest st w1.
Proof.
  intros Hd Hsaved Hfail.
  rewrite crawl_loop_cons.
  destruct (crawl_target env config session total digits idx url st w)
    as [r w1] eqn:Hstep.
  apply crawl_target_step in Hstep; [|done].
  destruct Hstep as [w1 Hs|msg w1 _ Hr Hf Hq Hs|resp w1 _ Hr Hc Hf Hq Hs
                    |resp w1 _ Hr Hc Hg Hf Hq Hs|resp w1 _ Hr Hc Hg
                    |resp w1 _ Hr Hc Hg|resp w1 _ Hr Hc Hg
                    |resp refusal w1 _ Hr Hc Hg|w1 _ Hr];
    try congruence;
    try (by exists w1);
    exfalso; destruct Hfail as [[msg Hm]|(resp' & Hm & [Hbad|[_ Hrej]])];
    congruence.
Qed.

Lemma failed_target_is_skipped_witness :
  let env :=
    mkEnv (λ _ _ _ _, Received (mkResponse 404 ∅ "gone")) ∅ (λ _, None) in
  let config :=
    mkConfig "http://x/p.{n}" 1 2 "dump" "index.txt" (8 # 10)%Q 20%Q "UA" in
  let w := mkWorld ∅ [] [] [] in
  ∃ w1 : World,
    crawl_target env config (make_session "UA") 2 4 1 "http://x/p.1" ([], 0) w
    = (Py.Ok ([], 0), w1)
    ∧ files w1 = files w
    ∧ requests w1 = requests w ++ ["http://x/p.1"]
    ∧ sleeps w1 = sleeps w
    ∧ crawl_loop env config (make_session "UA") 2 4 1
        [(1, "http://x/p.1"); (2, "http://x/p.2")] ([], 0) w
      = crawl_loop env config (make_session "UA") 2 4 (1 + 1)
          [(2, "http://x/p.2")] ([], 0) w1.
Proof.
  intros env config w.
  apply (failed_target_is_skipped env config (make_session "UA") 2 4 1 1
           "http://x/p.1" [(2, "http://x/p.2")] ([], 0) w).
  - lia.
  - reflexivity.
  - right. exists (mkResponse 404 ∅ "gone"). split; [reflexivity |].
    left. cbn. lia.
Defined.

(** ** Resuming *)

(** C1. An iteration that finds a non-empty file at its destination makes
    no request and no pause, adds the entry of the target — the file
    name, a tab and the URL — and one to the counter.  So a loop that
    returns has requested exactly the targets whose file was missing or
    empty when it started, in order, and its entries hold the entry of
    every target that had a file, in the order of the targets; a loop
    that is cut short has requested a prefix of those targets.  A run
    that gets to its end, complete or not, has made exactly those
    requests, and the manifest file it leaves is made of entries of
    targets in the order of the targets, each followed by a newline, the
    entry of every target that had a file among them. *)
Theorem saved_targets_are_skipped (env : Env) (config : CrawlerConfig)
    (targets : list (Z * string)) :
  let session := make_session (user_agent config) in
  let total := Z.of_nat (length targets) in
  let digits := digits_for total in
  let tab := String (ascii_of_nat 9) EmptyString in
  let newline := String (ascii_of_nat 10) EmptyString in
  let numbered := enumerate 1 targets in
  let destination := λ t : Z * (Z * string),
    os_path_join (out_dir config) (file_name t.1 digits) in
  let entry := λ t : Z * (Z * string), file_name t.1 digits +:+ tab +:+ t.2.2 in
  let saved := λ (w : World) (t : Z * (Z * string)),
    saved_before w (destination t) in
  (∀ idx : Z, file_name_for_index idx digits = Py.Ok (file_name idx digits))
  ∧ (∀ (idx : Z) (url fname : string) (st : list string * Z) (w : World),
       file_name_for_index idx digits = Py.Ok fname →
       saved_before w (os_path_join (out_dir config) fname) = true →
       ∃ w1 : World,
         crawl_target env config session total digits idx url st w
         = (Py.Ok (st.1 ++ [fname +:+ tab +:+ url], st.2 + 1), w1)
         ∧ files w1 = files w ∧ requests w1 = requests w ∧ sleeps w1 = sleeps w)
  ∧ (∀ (w : World) (st' : list string * Z) (w' : World),
       crawl_loop env config session total digits 1 targets ([], 0) w
       = (Py.Ok st', w') →
       requests w'
       = requests w
         ++ map (λ t, t.2.2) (List.filter (λ t, negb (saved w t)) numbered)
       ∧ (map entry (List.filter (saved w) numbered) `sublist_of` st'.1)
       ∧ (st'.1 `sublist_of` map entry numbered))
  ∧ (∀ (w : World) (r : Py.result (list string * Z)) (w' : World),
       crawl_loop env config session total digits 1 targets ([], 0) w = (r, w') →
       ∃ k : nat,
         requests w'
         = requests w
           ++ take k (map (λ t, t.2.2)
                        (List.filter (λ t, negb (saved w t)) numbered)))
  ∧ (∀ w : World,
       build_urls (base_url config) (start_page config) (end_page config)
       = Py.Ok targets →
       (crawl env config w).1 = Py.Ok tt
       ∨ (crawl env config w).1 = Py.Raise (Py.SystemExit 2) →
       requests (crawl env config w).2
       = requests w
         ++ map (λ t, t.2.2) (List.filter (λ t, negb (saved w t)) numbered)
       ∧ ∃ entries : list string,
           files (crawl env config w).2 !! index_path config
           = Some (String.concat newline entries +:+ newline)
           ∧ (map entry (List.filter (saved w) numbered) `sublist_of` entries)
           ∧ (entries `sublist_of` map entry numbered)).
Proof.
  intros session total digits tab newline numbered destination entry saved.
  assert (Hd : 0 ≤ digits) by apply digits_for_nonneg.
  assert (Hloop : ∀ (w : World) (r : Py.result (list string * Z)) (w' : World),
    crawl_loop env config session total digits 1 targets ([], 0) w = (r, w') →
    (∃ k : nat,
       requests w'
       = requests w
         ++ take k (map (λ t, t.2.2)
                      (List.filter (λ t, negb (saved w t)) numbered)))
    ∧ ∀ st', r = Py.Ok st' →
        requests w'
        = requests w
          ++ map (λ t, t.2.2) (List.filter (λ t, negb (saved w t)) numbered)
        ∧ (map entry (List.filter (saved w) numbered) `sublist_of` st'.1)
        ∧ (st'.1 `sublist_of` map entry numbered)).
  { intros w r w' Hrun.
    destruct (crawl_loop_spec env config session total digits Hd targets 1
                ([], 0) w r w' ltac:(lia) Hrun) as [Hk Hok].
    rewrite (pending_urls_enumerate config digits w targets 1) in Hk, Hok.
    rewrite (saved_lines_enumerate config digits w targets 1) in Hok.
    rewrite (all_lines_enumerate digits targets 1) in Hok.
    split; [exact Hk |]. intros st' Hst'.
    destruct (Hok st' Hst') as (Hreq & new & H1 & _ & Hsaved & Hall).
    cbn in H1. rewrite H1. done. }
  split_and!.
  - intros idx. by apply file_name_for_index_ok.
  - intros idx url fname st w Hname Hsaved.
    rewrite file_name_for_index_ok in Hname by done. injection Hname as <-.
    by apply saved_target_step.
  - intros w st' w' Hrun. by apply (Hloop w _ w' Hrun).
  - intros w r w' Hrun. by apply (Hloop w r w' Hrun).
  - intros w Hurls Hend.
    destruct (crawl env config w) as [r w'] eqn:Hrun. cbn [fst snd] in *.
    destruct (crawl_wrote_manifest env config w r w' Hrun)
      as (targets' & st & wl & Hurls' & Hrun' & Hf & Hq & _).
    { destruct Hend; eauto. }
    rewrite Hurls in Hurls'. injection Hurls' as <-.
    destruct (Hloop _ _ _ Hrun') as [_ Hok].
    destruct (Hok st eq_refl) as (Hreq & Hsaved & Hall).
    split.
    + by rewrite Hq, Hreq.
    + exists st.1. split_and!; [|done|done].
      rewrite Hf. apply lookup_insert_eq.
Qed.

Lemma saved_targets_are_skipped_witness :
  requests (crawl resume_env resume_config resume_world).2
  = requests resume_world ++ ["http://x/p.4"; "http://x/p.5"]
  ∧ ∃ entries : list string,
      files (crawl resume_env resume_config resume_world).2 !! "index.txt"
      = Some (String.concat (String (ascii_of_nat 10) EmptyString) entries
              +:+ String (ascii_of_nat 10) EmptyString)
      ∧ (["0001.html" +:+ String (ascii_of_nat 9) EmptyString +:+ "http://x/p.1";
          "0002.html" +:+ String (ascii_of_nat 9) EmptyString +:+ "http://x/p.2";
          "0003.html" +:+ String (ascii_of_nat 9) EmptyString +:+ "http://x/p.3"]
         `sublist_of` entries)
      ∧ (entries
         `sublist_of`
         ["0001.html" +:+ String (ascii_of_nat 9) EmptyString +:+ "http://x/p.1";
          "0002.html" +:+ String (ascii_of_nat 9) EmptyString +:+ "http://x/p.2";
          "0003.html" +:+ String (ascii_of_nat 9) EmptyString +:+ "http://x/p.3";
          "0004.html" +:+ String (ascii_of_nat 9) EmptyString +:+ "http://x/p.4";
          "0005.html" +:+ String (ascii_of_nat 9) EmptyString +:+ "http://x/p.5"]).
Proof.
  destruct (saved_targets_are_skipped resume_env resume_config resume_targets)
    as (_ & _ & _ & _ & Hrun).
  apply (Hrun resume_world).
  - vm_compute. reflexivity.
  - left. vm_compute. reflexivity.
Defined.

(** The comment above the resumability test speaks of a file that
    exists; the test asks for a file that is not empty as well.  An
    empty file is fetched again and overwritten. *)
Example empty_file_is_fetched_again :
  requests (crawl resume_env one_page_config truncated_world).2 = ["http://x/p.1"]
  ∧ files (crawl resume_env one_page_config truncated_world).2 !! "dump/0001.html"
    = Some "<html/>".
Proof. split; vm_compute; reflexivity. Qed.

(** ** Running twice *)

(** C2. After a run that returned normally, with the file of every target
    non-empty, a second run over the same directory returns normally,
    makes no request and no pause, and leaves every file as it was: the
    manifest it writes is the manifest of the first run. *)
Theorem second_run_is_silent (env : Env) (config : CrawlerConfig)
    (targets : list (Z * string)) (w0 : World) :
  let total := Z.of_nat (length targets) in
  let w1 := (crawl env config w0).2 in
  build_urls (base_url config) (start_page config) (end_page config)
    = Py.Ok targets →
  (crawl env config w0).1 = Py.Ok tt →
  (∀ idx, 1 ≤ idx ≤ total →
     saved_before w1 (out_path config (digits_for total) idx) = true) →
  ∃ w2 : World,
    crawl env config w1 = (Py.Ok tt, w2)
    ∧ requests w2 = requests w1
    ∧ sleeps w2 = sleeps w1
    ∧ files w2 = files w1
    ∧ files w1 !! index_path config
      = Some (manifest_text (all_lines (digits_for total) 1 targets)).
Proof.
  intros total w1 Hurls Hfirst Hsaved.
  pose proof (digits_for_nonneg total) as Hd.
  (* the first run *)
  assert (Hdir : (out_dir config ∉ denied env)
          ∧ (index_path config ∉ denied env)
          ∧ files w1 !! index_path config
            = Some (manifest_text (all_lines (digits_for total) 1 targets))).
  { subst w1. destruct (crawl env config w0) as [r w1] eqn:Hrun.
    cbn [fst snd] in *. subst r. apply crawl_ends in Hrun.
    inversion Hrun as [| | | | |targets' st wl w2 Hdir Hurls' Hloop Hidx Hfull Hf].
    subst. rewrite Hurls in Hurls'. injection Hurls' as <-.
    apply (full_counter_all_lines _ _ _ _ _ Hd) in Hloop; [|done]. subst st.
    split_and!; [done | done |]. rewrite Hf. apply lookup_insert_eq. }
  destruct Hdir as (Hdir & Hidx & Hmanifest).
  (* the loop of the second run *)
  destruct (crawl_loop_all_saved env config (make_session (user_agent config))
              total (digits_for total) Hd targets 1 ([], 0) (started total w1))
    as (wl & Hloop & Hlf & Hlr & Hls).
  { intros j Hj. rewrite (saved_before_files w1) by apply started_files.
    apply Hsaved. lia. }
  cbn [fst snd app] in Hloop. rewrite Z.add_0_l in Hloop.
  (* the second run *)
  destruct (crawl env config w1) as [r2 w2] eqn:Hrun.
  apply crawl_ends in Hrun.
  inversion Hrun as [| e _ Hurls'
                     | targets' e wl' _ Hurls' Hloop'
                     | targets' st wl' _ Hurls' Hloop'
                     | targets' st wl' w2' _ Hurls' Hloop' _ Hlt
                     | targets' st wl' w2' _ Hurls' Hloop' _ _ Hf Hr Hs];
    subst; try done; try congruence;
    rewrite Hurls in Hurls'; injection Hurls' as <-;
    fold total in Hloop'; rewrite Hloop in Hloop'; try done.
  - injection Hloop' as <- <-. cbn in Hlt. lia.
  - injection Hloop' as <- <-. exists w2. cbn [fst] in Hf.
    split_and!; [done | by rewrite Hr, Hlr | by rewrite Hs, Hls | | done].
    rewrite Hf, Hlf, started_files. by apply insert_id.
Qed.

Lemma second_run_is_silent_witness :
  ∃ w2 : World,
    crawl resume_env resume_config (crawl resume_env resume_config resume_world).2
    = (Py.Ok tt, w2)
    ∧ requests w2 = requests (crawl resume_env resume_config resume_world).2
    ∧ sleeps w2 = sleeps (crawl resume_env resume_config resume_world).2
    ∧ files w2 = files (crawl resume_env resume_config resume_world).2
    ∧ files (crawl resume_env resume_config resume_world).2
        !! index_path resume_config
      = Some (manifest_text
                (all_lines (digits_for (Z.of_nat (length resume_targets))) 1
                   resume_targets)).
Proof.
  apply (second_run_is_silent resume_env resume_config resume_targets resume_world).
  - vm_compute. reflexivity.
  - vm_compute. reflexivity.
  - intros idx Hidx. change (1 ≤ idx ≤ 5) in Hidx.
    assert (idx = 1 ∨ idx = 2 ∨ idx = 3 ∨ idx = 4 ∨ idx = 5)
      as [->|[->|[->|[->| ->]]]] by lia; vm_compute; reflexivity.
Defined.

(** ** Write errors *)

(** C7, as stated, fails: when the file of the first of five pages cannot
    be written, the run ends there with [OSError]; the other pages are
    never requested and no manifest is written. *)
Lemma page_write_error_ends_run :
  (crawl readonly_env resume_config empty_world).1 = Py.Raise Py.OSError
  ∧ requests (crawl readonly_env resume_config empty_world).2 = ["http://x/p.1"]
  ∧ files (crawl readonly_env resume_config empty_world).2 !! "index.txt" = None.
Proof. split_and!; vm_compute; reflexivity. Qed.

(** C7, amended.  Nothing catches an [OSError] of a file write.  When the
    loop has handled the targets before one whose page it fetches and
    cannot write, the run ends with that [OSError]: the target gets no
    file and no manifest line, no later target is requested, and no
    manifest is written.  When the loop returns and the manifest cannot
    be written, the run ends with [OSError] as well. *)
Theorem write_errors_end_the_run (env : Env) (config : CrawlerConfig) (w : World) :
  (∀ (pre rest : list (Z * string)) (n : Z) (url : string)
     (st : list string * Z) (wl : World) (resp : Response),
     let targets := pre ++ (n, url) :: rest in
     let total := Z.of_nat (length targets) in
     let session := make_session (user_agent config) in
     let idx := Z.of_nat (length pre) + 1 in
     out_dir config ∉ denied env →
     build_urls (base_url config) (start_page config) (end_page config)
     = Py.Ok targets →
     crawl_loop env config session total (digits_for total) 1 pre ([], 0)
       (started total w) = (Py.Ok st, wl) →
     saved_before wl (out_path config (digits_for total) idx) = false →
     remote env session (requests wl) url (timeout_sec config) = Received resp →
     status_code resp = 200 →
     is_html_response resp = true →
     out_path config (digits_for total) idx ∈ denied env →
     ∃ w' : World,
       crawl env config w = (Py.Raise Py.OSError, w')
       ∧ exit_status (crawl env config w).1 = 1
       ∧ files w' = files wl
       ∧ requests w' = requests wl ++ [url])
  ∧ (∀ (targets : list (Z * string)) (st : list string * Z) (wl : World),
       out_dir config ∉ denied env →
       build_urls (base_url config) (start_page config) (end_page config)
       = Py.Ok targets →
       crawl_loop env config (make_session (user_agent config))
         (Z.of_nat (length targets)) (digits_for (Z.of_nat (length targets)))
         1 targets ([], 0) (started (Z.of_nat (length targets)) w)
       = (Py.Ok st, wl) →
       index_path config ∈ denied env →
       crawl env config w = (Py.Raise Py.OSError, wl)
       ∧ exit_status (crawl env config w).1 = 1).
Proof.
  split.
  - intros pre rest n url st wl resp targets total session idx
      Hdir Hurls Hpre Hsaved Hremote Hstatus Hgate Hdenied.
    pose proof (digits_for_nonneg total) as Hd.
    destruct (crawl_target env config session total (digits_for total) idx url
                st wl) as [r1 w1] eqn:Hstep.
    pose proof Hstep as Hcase. apply crawl_target_step in Hcase; [|done].
    assert (Hraise : r1 = Py.Raise Py.OSError
                     ∧ files w1 = files wl ∧ requests w1 = requests wl ++ [url]).
    { destruct Hcase; try congruence; try done. }
    destruct Hraise as (-> & Hf & Hr).
    assert (Hloop :
      crawl_loop env config session total (digits_for total) 1 targets ([], 0)
        (started total w) = (Py.Raise Py.OSError, w1)).
    { subst targets. rewrite crawl_loop_app, Hpre, crawl_loop_cons.
      replace (1 + Z.of_nat (length pre)) with idx by (subst idx; lia).
      by rewrite Hstep. }
    exists w1. rewrite (crawl_after_raise env config targets w _ w1 Hdir Hurls Hloop).
    done.
  - intros targets st wl Hdir Hurls Hloop Hidx.
    by rewrite (crawl_manifest_denied env config targets w st wl Hdir Hurls Hloop Hidx).
Qed.

Lemma write_errors_end_the_run_witness :
  ∃ w' : World,
    crawl readonly_env resume_config empty_world = (Py.Raise Py.OSError, w')
    ∧ exit_status (crawl readonly_env resume_config empty_world).1 = 1
    ∧ files w' = files (started 5 empty_world)
    ∧ requests w' = requests (started 5 empty_world) ++ ["http://x/p.1"].
Proof.
  destruct (write_errors_end_the_run readonly_env resume_config empty_world)
    as [Hpage _].
  apply (Hpage [] [(2, "http://x/p.2"); (3, "http://x/p.3");
                   (4, "http://x/p.4"); (5, "http://x/p.5")]
           1 "http://x/p.1" ([], 0) (started 5 empty_world) html_page).
  - apply (bool_decide_unpack _). vm_compute. exact I.
  - vm_compute. reflexivity.
  - reflexivity.
  - vm_compute. reflexivity.
  - reflexivity.
  - reflexivity.
  - vm_compute. reflexivity.
  - apply (bool_decide_unpack _). vm_compute. exact I.
Defined.

(** ** The end of a run *)

(** C10. When the range ends before it starts, and the directory and the
    manifest can be written, the run returns normally (exit status 0),
    makes no request, reports 0 of 0, and writes a manifest that is one
    newline character. *)
Theorem empty_range_run (env : Env) (config : CrawlerConfig) (w : World) :
  end_page config < start_page config →
  out_dir config ∉ denied env →
  index_path config ∉ denied env →
  ∃ w' : World,
    crawl env config w = (Py.Ok tt, w')
    ∧ exit_status (crawl env config w).1 = 0
    ∧ files w' = <[index_path config := Py.LF]> (files w)
    ∧ requests w' = requests w
    ∧ last (stdout w') = Some (summary_line 0 0).
Proof.
  intros Hrange Hdir Hidx.
  pose proof (build_urls_empty (base_url config) _ _ Hrange) as Hurls.
  destruct (crawl env config w) as [r w'] eqn:Hrun.
  apply crawl_ends in Hrun.
  inversion Hrun as [| e _ Hurls'
                     | targets e wl _ Hurls' Hloop
                     | targets st wl _ Hurls' Hloop
                     | targets st wl w2 _ Hurls' Hloop _ Hlt
                     | targets st wl w2 _ Hurls' Hloop _ _ Hf Hr Hs Ho];
    subst; try done; try congruence;
    rewrite Hurls in Hurls'; injection Hurls' as <-;
    rewrite crawl_loop_nil in Hloop; try done; injection Hloop as <- <-.
  - cbn in Hlt. lia.
  - exists w'. cbn [fst snd] in *.
    split_and!; [done | done | by rewrite Hf | by rewrite Hr |].
    rewrite Ho. cbn [length]. by rewrite last_app.
Qed.

Lemma empty_range_run_witness :
  ∃ w' : World,
    crawl resume_env empty_config empty_world = (Py.Ok tt, w')
    ∧ exit_status (crawl resume_env empty_config empty_world).1 = 0
    ∧ files w' = <[index_path empty_config := Py.LF]> (files empty_world)
    ∧ requests w' = requests empty_world
    ∧ last (stdout w') = Some (summary_line 0 0).
Proof.
  apply (empty_range_run resume_env empty_config empty_world).
  - cbn. lia.
  - apply (bool_decide_unpack _). vm_compute. exact I.
  - apply (bool_decide_unpack _). vm_compute. exact I.
Defined.

(** C8. When the loop has returned with the counter [downloaded] and the
    manifest can be written, the run writes the manifest, prints the
    summary of [downloaded] out of [total], and then leaves with exit
    status 2 when [downloaded < total] and returns normally, exit status
    0, when [downloaded = total]; the counter is the number of manifest
    lines, one per target that was saved or found saved, and never
    exceeds [total]. *)
Theorem completion_status (env : Env) (config : CrawlerConfig)
    (targets : list (Z * string)) (w : World) (st : list string * Z) :
  let total := Z.of_nat (length targets) in
  let loop :=
    crawl_loop env config (make_session (user_agent config)) total
      (digits_for total) 1 targets ([], 0) (started total w) in
  out_dir config ∉ denied env →
  build_urls (base_url config) (start_page config) (end_page config)
    = Py.Ok targets →
  loop.1 = Py.Ok st →
  index_path config ∉ denied env →
  ∃ w' : World,
    crawl env config w
    = (if st.2 <? total then Py.Raise (Py.SystemExit 2) else Py.Ok tt, w')
    ∧ files w' = <[index_path config := manifest_text st.1]> (files loop.2)
    ∧ summary_line st.2 total ∈ stdout w'
    ∧ st.2 = Z.of_nat (length st.1)
    ∧ 0 ≤ st.2 ≤ total
    ∧ exit_status (crawl env config w).1 = (if st.2 <? total then 2 else 0).
Proof.
  intros total loop Hdir Hurls Hst Hidx.
  destruct loop as [rl wl] eqn:Hloop. subst loop. cbn [fst snd] in *. subst rl.
  destruct (crawl_loop_counter env config (make_session (user_agent config))
              total (digits_for total) (digits_for_nonneg total) targets 1
              ([], 0) st (started total w) wl ltac:(lia) Hloop) as [Hcount Hbound].
  cbn [fst snd length] in Hcount, Hbound.
  destruct (crawl_after_loop env config targets w st wl Hdir Hurls Hloop Hidx)
    as (w' & Hrun & Hf & _ & _ & Ho).
  exists w'. rewrite Hrun. cbn [fst].
  split_and!; try done; try lia.
  subst total. by destruct (st.2 <? Z.of_nat (length targets)).
Qed.

Lemma completion_status_witness :
  let st := (["0001.html" +:+ Py.TAB +:+ "http://x/p.1";
              "0003.html" +:+ Py.TAB +:+ "http://x/p.3";
              "0005.html" +:+ Py.TAB +:+ "http://x/p.5"], 3) in
  let loop :=
    crawl_loop flaky_env resume_config (make_session "UA") 5 (digits_for 5) 1
      resume_targets ([], 0) (started 5 empty_world) in
  ∃ w' : World,
    crawl flaky_env resume_config empty_world
    = (if st.2 <? 5 then Py.Raise (Py.SystemExit 2) else Py.Ok tt, w')
    ∧ files w' = <[index_path resume_config := manifest_text st.1]> (files loop.2)
    ∧ summary_line st.2 5 ∈ stdout w'
    ∧ st.2 = Z.of_nat (length st.1)
    ∧ 0 ≤ st.2 ≤ 5
    ∧ exit_status (crawl flaky_env resume_config empty_world).1
      = (if st.2 <? 5 then 2 else 0).
Proof.
  intros st loop.
  apply (completion_status flaky_env resume_config resume_targets empty_world st).
  - apply (bool_decide_unpack _). vm_compute. exact I.
  - vm_compute. reflexivity.
  - vm_compute. reflexivity.
  - apply (bool_decide_unpack _). vm_compute. exact I.
Defined.

Example five_of_five :
  (crawl resume_env resume_config empty_world).1 = Py.Ok tt
  ∧ last (stdout (crawl resume_env resume_config empty_world).2)
    = Some (summary_line 5 5).
Proof. split; vm_compute; reflexivity. Qed.

Example three_of_five :
  (crawl flaky_env resume_config empty_world).1 = Py.Raise (Py.SystemExit 2)
  ∧ summary_line 3 5 ∈ stdout (crawl flaky_env resume_config empty_world).2
  ∧ is_Some (files (crawl flaky_env resume_config empty_world).2 !! "index.txt").
Proof.
  split_and!.
  - vm_compute. reflexivity.
  - apply list_elem_of_In. vm_compute. tauto.
  - vm_compute. eauto.
Qed.

(** ** The counter and the manifest *)

(** C9, as stated, fails on its last part: a run without a single entry
    reports 0 downloaded, and the manifest it writes has one line; a run
    whose only URL holds a newline reports 1 downloaded, and its manifest
    has two lines. *)
Lemma reported_count_is_not_line_count :
  ((crawl resume_env empty_config empty_world).1 = Py.Ok tt
   ∧ last (stdout (crawl resume_env empty_config empty_world).2)
     = Some (summary_line 0 0)
   ∧ line_count
       <$> files (crawl resume_env empty_config empty_world).2 !! "index.txt"
     = Some 1%nat)
  ∧ ((crawl resume_env newline_config empty_world).1 = Py.Ok tt
     ∧ last (stdout (crawl resume_env newline_config empty_world).2)
       = Some (summary_line 1 1)
     ∧ line_count
         <$> files (crawl resume_env newline_config empty_world).2 !! "index.txt"
       = Some 2%nat).
Proof. split_and!; vm_compute; reflexivity. Qed.

(** C9, amended.  The counter follows the manifest lines: an iteration
    that returns either leaves both alone or adds one line and one to the
    counter, so a loop that starts with the counter equal to the number
    of lines ends that way; the count the run reports is the number of
    entries joined into the manifest it wrote, and that is the number of
    lines of the manifest file whenever there is at least one entry and
    no entry holds a newline. *)
Theorem counter_is_number_of_entries (env : Env) (config : CrawlerConfig) :
  (∀ (session : Session) (total digits idx : Z) (url : string)
     (st st1 : list string * Z) (w w1 : World),
     0 ≤ digits →
     crawl_target env config session total digits idx url st w = (Py.Ok st1, w1) →
     st1 = st
     ∨ st1 = (st.1 ++ [index_line (file_name idx digits) url], st.2 + 1))
  ∧ (∀ (session : Session) (total digits idx : Z) (targets : list (Z * string))
       (st st' : list string * Z) (w w' : World),
       0 ≤ digits → 0 ≤ idx →
       st.2 = Z.of_nat (length st.1) →
       crawl_loop env config session total digits idx targets st w
       = (Py.Ok st', w') →
       st'.2 = Z.of_nat (length st'.1))
  ∧ (∀ (targets : list (Z * string)) (w : World) (st : list string * Z)
       (wl : World),
       out_dir config ∉ denied env →
       build_urls (base_url config) (start_page config) (end_page config)
       = Py.Ok targets →
       crawl_loop env config (make_session (user_agent config))
         (Z.of_nat (length targets)) (digits_for (Z.of_nat (length targets)))
         1 targets ([], 0) (started (Z.of_nat (length targets)) w)
       = (Py.Ok st, wl) →
       index_path config ∉ denied env →
       files (crawl env config w).2 !! index_path config
       = Some (manifest_text st.1)
       ∧ summary_line (Z.of_nat (length st.1)) (Z.of_nat (length targets))
         ∈ stdout (crawl env config w).2
       ∧ (st.1 ≠ [] →
          Forall (λ l, newline_free l = true) st.1 →
          line_count (manifest_text st.1) = length st.1)).
Proof.
  split_and!.
  - intros session total digits idx url st st1 w w1 Hd Hstep.
    apply crawl_target_step in Hstep; [|done].
    inversion Hstep; subst; auto.
  - intros session total digits idx targets st st' w w' Hd Hidx Hinv Hloop.
    destruct (crawl_loop_counter env config session total digits Hd targets idx
                st st' w w' Hidx Hloop) as [Hcount _].
    lia.
  - intros targets w st wl Hdir Hurls Hloop Hidx.
    destruct (crawl_loop_counter env config _ _ _
                (digits_for_nonneg (Z.of_nat (length targets))) targets 1
                ([], 0) st _ wl ltac:(lia) Hloop) as [Hcount _].
    cbn [fst snd length] in Hcount.
    destruct (crawl_after_loop env config targets w st wl Hdir Hurls Hloop Hidx)
      as (w' & -> & Hf & _ & _ & Ho).
    cbn [snd]. replace (Z.of_nat (length st.1)) with st.2 by lia.
    split_and!; [rewrite Hf; apply lookup_insert_eq | done |].
    apply line_count_manifest.
Qed.

Lemma counter_is_number_of_entries_witness :
  ∃ (st' : list string * Z) (w' : World),
    crawl_loop flaky_env resume_config (make_session "UA") 5 4 1 resume_targets
      ([], 0) empty_world = (Py.Ok st', w')
    ∧ st'.2 = 3
    ∧ st'.2 = Z.of_nat (length st'.1).
Proof.
  exists (["0001.html" +:+ Py.TAB +:+ "http://x/p.1";
           "0003.html" +:+ Py.TAB +:+ "http://x/p.3";
           "0005.html" +:+ Py.TAB +:+ "http://x/p.5"], 3).
  exists (crawl_loop flaky_env resume_config (make_session "UA") 5 4 1
            resume_targets ([], 0) empty_world).2.
  assert (Hrun :
    crawl_loop flaky_env resume_config (make_session "UA") 5 4 1 resume_targets
      ([], 0) empty_world
    = (Py.Ok (["0001.html" +:+ Py.TAB +:+ "http://x/p.1";
               "0003.html" +:+ Py.TAB +:+ "http://x/p.3";
               "0005.html" +:+ Py.TAB +:+ "http://x/p.5"], 3),
       (crawl_loop flaky_env resume_config (make_session "UA") 5 4 1
          resume_targets ([], 0) empty_world).2))
    by (vm_compute; reflexivity).
  split_and!; [exact Hrun | reflexivity |].
  destruct (counter_is_number_of_entries flaky_env resume_config)
    as (_ & Hinv & _).
  refine (Hinv _ _ _ _ _ _ _ _ _ _ _ _ Hrun); [lia | lia | reflexivity].
Defined.

(** * Further properties *)

(** ** The sequencer, page by page *)

(** X1. For a template made of brace-free text around one [{n}], the
    sequencer returns, for every page number of the range in ascending
    order, the pair of the number and the text with the decimal numeral
    of the number in place of [{n}]. *)
Theorem build_urls_placeholder (pre suf : string) (start_page end_page : Z) :
  brace_free pre = true → brace_free suf = true →
  build_urls (pre +:+ "{n}" +:+ suf) start_page end_page
  = Py.Ok (map (λ n, (n, pre +:+ Py.str n +:+ suf))
             (range start_page (end_page + 1))).
Proof.
  intros Hpre Hsuf. unfold build_urls.
  induction (range start_page (end_page + 1)) as [|n rest IH]; [done |].
  cbn [build_urls_over map]. by rewrite format_n_placeholder, IH.
Qed.

Lemma build_urls_placeholder_witness :
  build_urls ("https://ilibrary.ru/text/1099/p." +:+ "{n}" +:+ "/index.html") 57 58
  = Py.Ok (map (λ n, (n, "https://ilibrary.ru/text/1099/p." +:+ Py.str n
                         +:+ "/index.html"))
             (range 57 (58 + 1))).
Proof. apply build_urls_placeholder; reflexivity. Defined.

(** X2. Whatever the template, when the sequencer returns, its targets
    carry the page numbers [start_page], [start_page + 1], ...,
    [end_page] in this order, one target per page, and the URL of each
    is the template formatted with its page number. *)
Theorem build_urls_pages (template : string) (start_page end_page : Z)
    (targets : list (Z * string)) :
  build_urls template start_page end_page = Py.Ok targets →
  map fst targets = seqZ start_page (end_page + 1 - start_page)
  ∧ length targets = Z.to_nat (end_page + 1 - start_page)
  ∧ ∀ (i : nat) (n : Z) (url : string),
      targets !! i = Some (n, url) →
      n = start_page + Z.of_nat i ∧ Py.format_n template n = Py.Ok url.
Proof.
  unfold build_urls, range. intros Hurls.
  destruct (build_urls_over_pages _ _ _ Hurls) as [Hfst Hall].
  split_and!.
  - done.
  - by rewrite <- (length_map fst), Hfst, length_seqZ.
  - intros i n url Hi. split.
    + assert (Hn : map fst targets !! i = Some n)
        by (by rewrite list_lookup_fmap, Hi).
      rewrite Hfst in Hn. apply lookup_seqZ in Hn. lia.
    + rewrite Forall_lookup in Hall. apply (Hall i (n, url) Hi).
Qed.

Lemma build_urls_pages_witness :
  map fst resume_targets = seqZ 1 (5 + 1 - 1)
  ∧ length resume_targets = Z.to_nat (5 + 1 - 1)
  ∧ ∀ (i : nat) (n : Z) (url : string),
      resume_targets !! i = Some (n, url) →
      n = 1 + Z.of_nat i ∧ Py.format_n "http://x/p.{n}" n = Py.Ok url.
Proof. apply (build_urls_pages "http://x/p.{n}" 1 5). vm_compute. reflexivity. Defined.

(** X3. For the templates modelled here (no conversion, format spec,
    attribute or index access), the sequencer raises exactly when the
    range is not empty and the template cannot be formatted with the
    first page number, and then with the exception of that first page: a
    template that formats one page formats them all. *)
Theorem build_urls_fails_on_first_page (template : string)
    (start_page end_page : Z) (e : Py.exn) :
  e ≠ Py.OutsideFragment →
  build_urls template start_page end_page = Py.Raise e
  ↔ start_page ≤ end_page ∧ Py.format_n template start_page = Py.Raise e.
Proof.
  intros _. unfold build_urls, range.
  destruct (Z.le_gt_cases start_page end_page) as [Hle|Hgt].
  - rewrite seqZ_cons by lia. rewrite build_urls_over_raise. tauto.
  - rewrite seqZ_nil by lia. cbn. split; [done | lia].
Qed.

Lemma build_urls_fails_on_first_page_witness :
  build_urls "http://x/p.{page}" 1 2 = Py.Raise Py.KeyError
  ↔ 1 ≤ 2 ∧ Py.format_n "http://x/p.{page}" 1 = Py.Raise Py.KeyError.
Proof. by apply build_urls_fails_on_first_page. Defined.

(** ** File names, read back *)

(** X4. For an index and a width that are not negative, the file name is
    a string of decimal digits followed by [".html"]; the digits denote
    the index, and there are as many of them as the larger of the width
    and the number of digits of the index: padding never drops a digit. *)
Theorem file_name_reads_back (i total_digits : Z) :
  0 ≤ i → 0 ≤ total_digits →
  ∃ stem : string,
    file_name_for_index i total_digits = Py.Ok (stem +:+ ".html")
    ∧ Py.all_digits stem = true
    ∧ str_val stem = i
    ∧ Py.len stem = Z.max total_digits (Py.len (Py.str i)).
Proof.
  intros Hi Hw.
  exists (Py.zeros (Z.to_nat (total_digits - Py.len (Py.str i))) +:+ Py.str i).
  destruct (padded_digits i (Z.to_nat (total_digits - Py.len (Py.str i))) Hi)
    as (Hdig & Hval & Hlen & Hpos).
  split_and!; [|done|done|lia].
  rewrite file_name_for_index_nonneg by done. by rewrite append_assoc.
Qed.

Lemma file_name_reads_back_witness :
  ∃ stem : string,
    file_name_for_index 12345 4 = Py.Ok (stem +:+ ".html")
    ∧ Py.all_digits stem = true
    ∧ str_val stem = 12345
    ∧ Py.len stem = Z.max 4 (Py.len (Py.str 12345)).
Proof. apply file_name_reads_back; lia. Defined.

(** X5. In one run two targets never share a destination: for a width
    and indices that are not negative, different indices get different
    paths under the output directory. *)
Theorem destinations_are_distinct (config : CrawlerConfig)
    (total_digits i j : Z) (fi fj : string) :
  0 ≤ total_digits → 0 ≤ i → 0 ≤ j → i ≠ j →
  file_name_for_index i total_digits = Py.Ok fi →
  file_name_for_index j total_digits = Py.Ok fj →
  os_path_join (out_dir config) fi ≠ os_path_join (out_dir config) fj.
Proof.
  intros Hw Hi Hj Hne Hfi Hfj Hjoin.
  rewrite file_name_for_index_ok in Hfi, Hfj by done.
  injection Hfi as <-. injection Hfj as <-.
  by apply Hne, (out_path_inj config total_digits).
Qed.

Lemma destinations_are_distinct_witness :
  os_path_join (out_dir resume_config) "0007.html"
  ≠ os_path_join (out_dir resume_config) "12345.html".
Proof.
  apply (destinations_are_distinct resume_config 4 7 12345);
    try lia; reflexivity.
Defined.

(** ** The width of the names *)

Lemma len_str_le (n k : Z) : 0 ≤ n → 1 ≤ k → n < 10 ^ k → Py.len (Py.str n) ≤ k.
Proof.
  intros Hn Hk Hlt. rewrite str_nonneg by done.
  destruct (dec_spec n Hn) as (_ & _ & Hlen & Hlo & _).
  destruct (Z.le_gt_cases (Py.len (Py.dec n)) k) as [|Hgt]; [done |].
  exfalso.
  assert (10 ^ k ≤ 10 ^ (Py.len (Py.dec n) - 1)) by (apply Z.pow_le_mono_r; lia).
  assert (10 ^ 1 ≤ 10 ^ k) by (apply Z.pow_le_mono_r; lia).
  lia.
Qed.

Lemma len_str_gt (n k : Z) : 0 ≤ k → 10 ^ k ≤ n → k < Py.len (Py.str n).
Proof.
  intros Hk Hle.
  assert (Hn : 0 ≤ n) by (pose proof (Z.pow_pos_nonneg 10 k); lia).
  rewrite str_nonneg by done.
  destruct (dec_spec n Hn) as (_ & _ & Hlen & _ & Hhi).
  destruct (Z.lt_ge_cases k (Py.len (Py.dec n))) as [|Hge]; [done |].
  exfalso.
  assert (10 ^ Py.len (Py.dec n) ≤ 10 ^ k) by (apply Z.pow_le_mono_r; lia).
  lia.
Qed.

(** X6. The width of the names is 4 exactly up to 9999 targets.  So two
    runs of at most 9999 targets each give every index the same name,
    while a run of more targets gives every index up to 9999 another
    name than a run of at most 9999 targets does: files saved by the one
    are not found by the other. *)
Theorem width_changes_at_ten_thousand (total total' i : Z) :
  0 ≤ total →
  (digits_for total = 4 ↔ total ≤ 9999)
  ∧ (total ≤ 9999 → 0 ≤ total' ≤ 9999 →
     file_name_for_index i (digits_for total)
     = file_name_for_index i (digits_for total'))
  ∧ (total ≤ 9999 → 9999 < total' → 0 ≤ i ≤ 9999 →
     file_name_for_index i (digits_for total)
     ≠ file_name_for_index i (digits_for total')).
Proof.
  intros Htotal.
  assert (Hsmall : ∀ n, 0 ≤ n → n ≤ 9999 → digits_for n = 4).
  { intros n Hn Hle. unfold digits_for.
    pose proof (len_str_le n 4 Hn ltac:(lia) ltac:(lia)). lia. }
  assert (Hlarge : ∀ n, 9999 < n → 4 < digits_for n).
  { intros n Hn. unfold digits_for.
    pose proof (len_str_gt n 4 ltac:(lia) ltac:(lia)). lia. }
  split_and!.
  - split; [|by apply Hsmall].
    intros Hfour. destruct (Z.le_gt_cases total 9999) as [|Hgt]; [done |].
    pose proof (Hlarge total Hgt). lia.
  - intros Hle [Hnn Hle']. by rewrite !Hsmall.
  - intros Hle Hgt Hi Heq.
    rewrite (Hsmall total) in Heq by done.
    pose proof (Hlarge total' Hgt) as Hwide.
    rewrite !file_name_for_index_nonneg in Heq by lia.
    injection Heq as Heq. apply (f_equal Py.len) in Heq.
    rewrite !len_append, !len_zeros in Heq.
    pose proof (len_str_le i 4 ltac:(lia) ltac:(lia) ltac:(lia)).
    lia.
Qed.

Lemma width_changes_at_ten_thousand_witness :
  file_name_for_index 1 (digits_for 9999) ≠ file_name_for_index 1 (digits_for 10000).
Proof.
  apply (width_changes_at_ten_thousand 9999 10000 1); lia.
Defined.

(** ** A page that is fetched and saved *)

(** X7. When the file of a target is missing or empty, the call of
    [session.get] returns a response that has status 200 and passes the
    content gate, the destination can be written and the delay is one
    that [time.sleep] accepts (not negative, and not refused by the
    interpreter or the operating system), the iteration makes one
    request, stores the body unchanged at the destination, adds the line
    of the target and one to the counter, and pauses once for the
    configured delay.  A later resumability test finds the file exactly
    when the body was not empty. *)
Theorem fresh_page_is_saved (env : Env) (config : CrawlerConfig)
    (session : Session) (total digits idx : Z) (url : string)
    (st : list string * Z) (w : World) (resp : Response) :
  0 ≤ digits →
  saved_before w (out_path config digits idx) = false →
  remote env session (requests w) url (timeout_sec config) = Received resp →
  status_code resp = 200 →
  is_html_response resp = true →
  out_path config digits idx ∉ denied env →
  Qle_bool 0 (delay_sec config) = true →
  sleep_refused env (delay_sec config) = None →
  ∃ w1 : World,
    crawl_target env config session total digits idx url st w
    = (Py.Ok (st.1 ++ [index_line (file_name idx digits) url], st.2 + 1), w1)
    ∧ files w1 = <[out_path config digits idx := text resp]> (files w)
    ∧ requests w1 = requests w ++ [url]
    ∧ sleeps w1 = sleeps w ++ [delay_sec config]
    ∧ (saved_before w1 (out_path config digits idx) = true
       ↔ text resp ≠ EmptyString).
Proof.
  intros Hd Hsaved Hremote Hstatus Hgate Hwrite Hdelay Hsleep.
  destruct (crawl_target env config session total digits idx url st w)
    as [r w1] eqn:Hstep.
  apply crawl_target_step in Hstep; [|done].
  destruct Hstep as [w1 Hs|msg w1 _ Hr|resp' w1 _ Hr Hc|resp' w1 _ Hr Hc Hg
                    |resp' w1 _ Hr Hc Hg Hden|resp' w1 _ Hr Hc Hg Hden Hq
                    |resp' w1 _ Hr Hc Hg Hden Hq Hf Hreq Hsl
                    |resp' refusal w1 _ Hr Hc Hg Hden Hq Hf Hreq Hsl Hrefused
                    |w1 _ Hr];
    try congruence.
  assert (resp' = resp) as -> by congruence.
  exists w1. split_and!; try done.
  unfold saved_before. rewrite Hf, lookup_insert_eq.
  destruct (text resp) as [|c body].
  - by split.
  - rewrite len_String. pose proof (len_nonneg body).
    split; [done |]. intros _. apply Z.ltb_lt. lia.
Qed.

Lemma fresh_page_is_saved_witness :
  ∃ w1 : World,
    crawl_target resume_env resume_config (make_session "UA") 5 4 1
      "http://x/p.1" ([], 0) empty_world
    = (Py.Ok ([] ++ [index_line (file_name 1 4) "http://x/p.1"], 0 + 1), w1)
    ∧ files w1 = <[out_path resume_config 4 1 := text html_page]> (files empty_world)
    ∧ requests w1 = requests empty_world ++ ["http://x/p.1"]
    ∧ sleeps w1 = sleeps empty_world ++ [delay_sec resume_config]
    ∧ (saved_before w1 (out_path resume_config 4 1) = true
       ↔ text html_page ≠ EmptyString).
Proof.
  apply (fresh_page_is_saved resume_env resume_config (make_session "UA") 5 4 1
           "http://x/p.1" ([], 0) empty_world html_page).
  - lia.
  - reflexivity.
  - reflexivity.
  - reflexivity.
  - vm_compute. reflexivity.
  - apply (bool_decide_unpack _). vm_compute. exact I.
  - reflexivity.
  - reflexivity.
Defined.

(** ** Runs that cannot be cut short *)

(** X8. No answer of the remote side can cut a run short: when the
    template formats, the directory, the destination of every target and
    the manifest can be written, the delay is one that [time.sleep]
    accepts and the timeout one that the transport accepts, so that
    [session.get] returns a response or raises a [RequestException],
    [crawl] either returns or leaves with exit status 2, and it has
    written the manifest. *)
Theorem network_cannot_crash_the_run (env : Env) (config : CrawlerConfig)
    (targets : list (Z * string)) (w : World) :
  let total := Z.of_nat (length targets) in
  build_urls (base_url config) (start_page config) (end_page config)
    = Py.Ok targets →
  out_dir config ∉ denied env →
  index_path config ∉ denied env →
  (∀ idx, 1 ≤ idx ≤ total → out_path config (digits_for total) idx ∉ denied env) →
  Qle_bool 0 (delay_sec config) = true →
  sleep_refused env (delay_sec config) = None →
  (∀ (history : list string) (url : string),
     remote env (make_session (user_agent config)) history url
       (timeout_sec config) ≠ InvalidTimeout) →
  ((crawl env config w).1 = Py.Ok tt
   ∨ (crawl env config w).1 = Py.Raise (Py.SystemExit 2))
  ∧ is_Some (files (crawl env config w).2 !! index_path config).
Proof.
  intros total Hurls Hdir Hidx Hpaths Hdelay Hsleep Htimeout.
  destruct (crawl_loop env config (make_session (user_agent config)) total
              (digits_for total) 1 targets ([], 0) (started total w))
    as [[st|e] wl] eqn:Hloop.
  - destruct (crawl_after_loop env config targets w st wl Hdir Hurls Hloop Hidx)
      as (w' & -> & Hf & _). cbn [fst snd]. split.
    + destruct (st.2 <? Z.of_nat (length targets)); auto.
    + rewrite Hf, lookup_insert_eq. eauto.
  - exfalso.
    apply crawl_loop_raises in Hloop; [|apply digits_for_nonneg].
    destruct Hloop as [(_ & j & Hj & Hden)
                      |[[_ Hneg]
                       |[(refusal & _ & Hrefused)
                        |(_ & history & url & Hinvalid)]]].
    + apply (Hpaths j); [lia | done].
    + congruence.
    + congruence.
    + by apply (Htimeout history url).
Qed.

Lemma network_cannot_crash_the_run_witness :
  ((crawl flaky_env resume_config empty_world).1 = Py.Ok tt
   ∨ (crawl flaky_env resume_config empty_world).1 = Py.Raise (Py.SystemExit 2))
  ∧ is_Some (files (crawl flaky_env resume_config empty_world).2
               !! index_path resume_config).
Proof.
  apply (network_cannot_crash_the_run flaky_env resume_config resume_targets
           empty_world).
  - vm_compute. reflexivity.
  - apply (bool_decide_unpack _). vm_compute. exact I.
  - apply (bool_decide_unpack _). vm_compute. exact I.
  - intros idx _. cbn [denied flaky_env]. apply not_elem_of_empty.
  - reflexivity.
  - reflexivity.
  - intros history url. cbn [remote flaky_env].
    by destruct (String.eqb url "http://x/p.2" || String.eqb url "http://x/p.4").
Defined.

(** X9. A negative delay ends the run at the first page it downloads:
    [time.sleep] raises [ValueError] after the page is written, so the
    file of that page is there, no later target is requested, and the
    run writes no manifest. *)
Theorem negative_delay_ends_the_run (env : Env) (config : CrawlerConfig)
    (w : World) (pre rest : list (Z * string)) (n : Z) (url : string)
    (st : list string * Z) (wl : World) (resp : Response) :
  let targets := pre ++ (n, url) :: rest in
  let total := Z.of_nat (length targets) in
  let session := make_session (user_agent config) in
  let idx := Z.of_nat (length pre) + 1 in
  out_dir config ∉ denied env →
  build_urls (base_url config) (start_page config) (end_page config)
    = Py.Ok targets →
  crawl_loop env config session total (digits_for total) 1 pre ([], 0)
    (started total w) = (Py.Ok st, wl) →
  saved_before wl (out_path config (digits_for total) idx) = false →
  remote env session (requests wl) url (timeout_sec config) = Received resp →
  status_code resp = 200 →
  is_html_response resp = true →
  out_path config (digits_for total) idx ∉ denied env →
  Qle_bool 0 (delay_sec config) = false →
  ∃ w' : World,
    crawl env config w = (Py.Raise Py.ValueError, w')
    ∧ exit_status (crawl env config w).1 = 1
    ∧ files w' = <[out_path config (digits_for total) idx := text resp]> (files wl)
    ∧ requests w' = requests wl ++ [url]
    ∧ sleeps w' = sleeps wl.
Proof.
  intros targets total session idx Hdir Hurls Hpre Hsaved Hremote Hstatus Hgate
    Hwrite Hdelay.
  pose proof (digits_for_nonneg total) as Hd.
  destruct (crawl_target env config session total (digits_for total) idx url
              st wl) as [r1 w1] eqn:Hstep.
  pose proof Hstep as Hcase. apply crawl_target_step in Hcase; [|done].
  assert (Hraise : r1 = Py.Raise Py.ValueError
                   ∧ files w1
                     = <[out_path config (digits_for total) idx := text resp]>
                         (files wl)
                   ∧ requests w1 = requests wl ++ [url]
                   ∧ sleeps w1 = sleeps wl).
  { destruct Hcase as [w1 Hs|msg w1 _ Hr|resp' w1 _ Hr Hc|resp' w1 _ Hr Hc Hg
                      |resp' w1 _ Hr Hc Hg Hden|resp' w1 _ Hr Hc Hg Hden Hq
                      |resp' w1 _ Hr Hc Hg Hden Hq
                      |resp' refusal w1 _ Hr Hc Hg Hden Hq
                      |w1 _ Hr];
      try congruence; try done.
    assert (resp' = resp) as -> by congruence. done. }
  destruct Hraise as (-> & Hf & Hr & Hs).
  assert (Hloop :
    crawl_loop env config session total (digits_for total) 1 targets ([], 0)
      (started total w) = (Py.Raise Py.ValueError, w1)).
  { subst targets. rewrite crawl_loop_app, Hpre, crawl_loop_cons.
    replace (1 + Z.of_nat (length pre)) with idx by (subst idx; lia).
    by rewrite Hstep. }
  exists w1. rewrite (crawl_after_raise env config targets w _ w1 Hdir Hurls Hloop).
  done.
Qed.

Lemma negative_delay_ends_the_run_witness :
  ∃ w' : World,
    crawl resume_env hasty_config empty_world = (Py.Raise Py.ValueError, w')
    ∧ exit_status (crawl resume_env hasty_config empty_world).1 = 1
    ∧ files w'
      = <[out_path hasty_config (digits_for 5) 1 := text html_page]>
          (files (started 5 empty_world))
    ∧ requests w' = requests (started 5 empty_world) ++ ["http://x/p.1"]
    ∧ sleeps w' = sleeps (started 5 empty_world).
Proof.
  apply (negative_delay_ends_the_run resume_env hasty_config empty_world []
           [(2, "http://x/p.2"); (3, "http://x/p.3");
            (4, "http://x/p.4"); (5, "http://x/p.5")]
           1 "http://x/p.1" ([], 0) (started 5 empty_world) html_page).
  - apply (bool_decide_unpack _). vm_compute. exact I.
  - vm_compute. reflexivity.
  - reflexivity.
  - vm_compute. reflexivity.
  - reflexivity.
  - reflexivity.
  - vm_compute. reflexivity.
  - apply (bool_decide_unpack _). vm_compute. exact I.
  - reflexivity.
Defined.

(** ** What a run leaves alone *)

(** X10. A run never changes a page that is already there: a file that
    is not empty when [crawl] starts, and is not the manifest, has the
    same content when [crawl] ends, however it ends and whatever the
    remote side answers. *)
Theorem saved_pages_are_never_overwritten (env : Env) (config : CrawlerConfig)
    (w : World) (path : string) :
  saved_before w path = true →
  path ≠ index_path config →
  files (crawl env config w).2 !! path = files w !! path.
Proof.
  intros Hsaved Hne.
  destruct (crawl env config w) as [r w'] eqn:Hrun. cbn [snd].
  apply crawl_ends in Hrun.
  assert (Hloop : ∀ targets rl wl,
    crawl_loop env config (make_session (user_agent config))
      (Z.of_nat (length targets)) (digits_for (Z.of_nat (length targets)))
      1 targets ([], 0) (started (Z.of_nat (length targets)) w) = (rl, wl) →
    files wl !! path = files w !! path).
  { intros targets rl wl Hl.
    destruct (crawl_loop_files env config _ _ _ (digits_for_nonneg _)
                targets 1 ([], 0) _ rl wl Hl path) as (Hkeep & _).
    by apply Hkeep. }
  inversion Hrun as [| | targets e wl _ _ Hl | targets st wl _ _ Hl
                     | targets st wl w2 _ _ Hl _ _ Hf
                     | targets st wl w2 _ _ Hl _ _ Hf]; subst; try done.
  - by apply (Hloop _ _ _ Hl).
  - by apply (Hloop _ _ _ Hl).
  - rewrite Hf, lookup_insert_ne by done. by apply (Hloop _ _ _ Hl).
  - rewrite Hf, lookup_insert_ne by done. by apply (Hloop _ _ _ Hl).
Qed.

Lemma saved_pages_are_never_overwritten_witness :
  files (crawl flaky_env resume_config resume_world).2 !! "dump/0002.html"
  = files resume_world !! "dump/0002.html".
Proof.
  apply (saved_pages_are_never_overwritten flaky_env resume_config resume_world).
  - reflexivity.
  - apply (bool_decide_unpack _). vm_compute. exact I.
Defined.

(** X11. A run deletes nothing: a file that is there when [crawl]
    starts is there when it ends, however the run ends and whatever the
    remote side answers. *)
Theorem run_deletes_nothing (env : Env) (config : CrawlerConfig)
    (w : World) (path : string) :
  is_Some (files w !! path) →
  is_Some (files (crawl env config w).2 !! path).
Proof.
  intros Hthere.
  destruct (crawl env config w) as [r w'] eqn:Hrun. cbn [snd].
  apply crawl_ends in Hrun.
  assert (Hloop : ∀ targets rl wl,
    crawl_loop env config (make_session (user_agent config))
      (Z.of_nat (length targets)) (digits_for (Z.of_nat (length targets)))
      1 targets ([], 0) (started (Z.of_nat (length targets)) w) = (rl, wl) →
    is_Some (files wl !! path)).
  { intros targets rl wl Hl.
    destruct (crawl_loop_files env config _ _ _ (digits_for_nonneg _)
                targets 1 ([], 0) _ rl wl Hl path) as (_ & _ & Hsome).
    by apply Hsome. }
  assert (Hwritten : ∀ (wl w2 : World) (content : string),
    is_Some (files wl !! path) →
    files w2 = <[index_path config := content]> (files wl) →
    is_Some (files w2 !! path)).
  { intros wl w2 content Hwl Hf. rewrite Hf.
    destruct (decide (index_path config = path)) as [->|Hne].
    - rewrite lookup_insert_eq. eauto.
    - by rewrite lookup_insert_ne. }
  inversion Hrun as [| | targets e wl _ _ Hl | targets st wl _ _ Hl
                     | targets st wl w2 _ _ Hl _ _ Hf
                     | targets st wl w2 _ _ Hl _ _ Hf]; subst; try done.
  - by apply (Hloop _ _ _ Hl).
  - by apply (Hloop _ _ _ Hl).
  - eapply Hwritten; [by apply (Hloop _ _ _ Hl) | done].
  - eapply Hwritten; [by apply (Hloop _ _ _ Hl) | done].
Qed.

Lemma run_deletes_nothing_witness :
  is_Some (files (crawl readonly_env resume_config resume_world).2
             !! "dump/0002.html").
Proof.
  apply (run_deletes_nothing readonly_env resume_config resume_world).
  vm_compute. eauto.
Defined.

(** ** Pauses *)

Section pauses.

Context (env : Env) (config : CrawlerConfig) (session : Session).
Context (total digits : Z) (Hdigits : 0 ≤ digits).

Lemma crawl_loop_sleeps (targets : list (Z * string)) :
  ∀ (idx : Z) (st st' : list string * Z) (w w' : World),
  0 ≤ idx →
  crawl_loop env config session total digits idx targets st w = (Py.Ok st', w') →
  ∃ k : nat,
    sleeps w' = sleeps w ++ replicate k (delay_sec config)
    ∧ Z.of_nat k + Z.of_nat (length (saved_lines config digits w idx targets))
      = st'.2 - st.2
    ∧ Z.of_nat k + Z.of_nat (length (requests w))
      ≤ Z.of_nat (length (requests w')).
Proof.
  induction targets as [|[n url] rest IH]; intros idx st st' w w' Hidx.
  - rewrite crawl_loop_nil. intros [= <- <-]. exists 0%nat. cbn.
    rewrite app_nil_r. split_and!; [done | lia | lia].
  - rewrite crawl_loop_cons.
    destruct (crawl_target env config session total digits idx url st w)
      as [r1 w1] eqn:Hstep.
    apply crawl_target_step in Hstep; [|done].
    pose proof (target_step_later env config session digits Hdigits idx url st
                  st w w1 r1 Hidx Hstep) as Hlater.
    assert (Hext : ∀ j, idx + 1 ≤ j →
      saved_before w1 (out_path config digits j)
      = saved_before w (out_path config digits j))
      by (intros j Hj; apply Hlater; lia).
    cbn [saved_lines].
    destruct Hstep as [w1 Hsaved Hf Hr Hs
                      |msg w1 Hsaved _ Hf Hr Hs
                      |resp w1 Hsaved _ _ Hf Hr Hs
                      |resp w1 Hsaved _ _ _ Hf Hr Hs
                      |resp w1 Hsaved _ _ _ _ Hf Hr Hs
                      |resp w1 Hsaved _ _ _ _ _ Hf Hr Hs
                      |resp w1 Hsaved _ _ _ _ _ Hf Hr Hs
                      |resp refusal w1 Hsaved _ _ _ _ _ Hf Hr Hs
                      |w1 Hsaved _ Hf Hr Hs];
      rewrite Hsaved; try done;
      intros Hloop; apply IH in Hloop as (k & Hk & Hcount & Hreq); try lia;
      rewrite (saved_lines_ext config digits w w1) in Hcount by done;
      cbn [fst snd] in Hcount; rewrite Hs in Hk; rewrite Hr in Hreq;
      rewrite ?length_app in Hreq; cbn [length] in *.
    + exists k. split_and!; [done | lia | lia].
    + exists k. split_and!; [done | lia | lia].
    + exists k. split_and!; [done | lia | lia].
    + exists k. split_and!; [done | lia | lia].
    + exists (S k). rewrite <- app_assoc in Hk. split_and!; [done | lia | lia].
Qed.

End pauses.

(** X12. A loop that returns has paused once, for the configured delay,
    for every page it downloaded itself, and not at all for the targets
    it skipped or failed: the number of pauses is the counter minus the
    number of targets whose file was already there, and it is at most
    the number of requests. *)
Theorem one_pause_per_download (env : Env) (config : CrawlerConfig)
    (targets : list (Z * string)) (w : World) (st' : list string * Z)
    (w' : World) :
  let session := make_session (user_agent config) in
  let total := Z.of_nat (length targets) in
  let digits := digits_for total in
  crawl_loop env config session total digits 1 targets ([], 0) w
  = (Py.Ok st', w') →
  ∃ k : nat,
    sleeps w' = sleeps w ++ replicate k (delay_sec config)
    ∧ Z.of_nat k
      = st'.2 - Z.of_nat (length (saved_lines config digits w 1 targets))
    ∧ Z.of_nat k + Z.of_nat (length (requests w))
      ≤ Z.of_nat (length (requests w')).
Proof.
  intros session total digits Hloop.
  destruct (crawl_loop_sleeps env config session total digits
              (digits_for_nonneg total) targets 1 ([], 0) st' w w'
              ltac:(lia) Hloop) as (k & Hk & Hcount & Hreq).
  exists k. cbn [snd] in Hcount. split_and!; [done | lia | done].
Qed.

Lemma one_pause_per_download_witness :
  ∃ k : nat,
    sleeps (crawl_loop resume_env resume_config (make_session "UA") 5 4 1
              resume_targets ([], 0) resume_world).2
    = sleeps resume_world ++ replicate k (delay_sec resume_config)
    ∧ Z.of_nat k
      = 5 - Z.of_nat (length (saved_lines resume_config 4 resume_world 1
                                resume_targets))
    ∧ Z.of_nat k + Z.of_nat (length (requests resume_world))
      ≤ Z.of_nat (length (requests
          (crawl_loop resume_env resume_config (make_session "UA") 5 4 1
             resume_targets ([], 0) resume_world).2)).
Proof.
  apply (one_pause_per_download resume_env resume_config resume_targets
           resume_world (all_lines 4 1 resume_targets, 5)).
  vm_compute. reflexivity.
Defined.

(** ** What the exit status tells *)

Section entries.

Lemma newline_free_append (a b : string) :
  newline_free (a +:+ b) = newline_free a && newline_free b.
Proof.
  induction a as [|c a IH]; cbn; [done |]. by rewrite IH, andb_assoc.
Qed.

Lemma newline_free_digits (s : string) :
  Py.all_digits s = true → newline_free s = true.
Proof.
  induction s as [|c s IH]; [done |]. cbn [Py.all_digits newline_free].
  intros [Hc Hs]%andb_prop. rewrite (IH Hs), andb_true_r.
  apply negb_true_iff, Ascii.eqb_neq. intros ->. by vm_compute in Hc.
Qed.

Lemma all_lines_newline_free (digits : Z) (targets : list (Z * string)) :
  ∀ idx : Z,
  0 ≤ digits → 0 ≤ idx →
  Forall (λ t : Z * string, newline_free t.2 = true) targets →
  Forall (λ l, newline_free l = true) (all_lines digits idx targets).
Proof.
  induction targets as [|[n url] rest IH]; intros idx Hd Hidx Hfree;
    cbn [all_lines]; [done |].
  apply Forall_cons in Hfree as [Hurl Hrest]. constructor.
  - unfold index_line. rewrite file_name_nonneg by done.
    destruct (padded_digits idx (Z.to_nat (digits - Py.len (Py.str idx))) Hidx)
      as (Hdig & _).
    cbn [snd] in Hurl.
    rewrite (newline_free_append (_ +:+ ".html")),
      (newline_free_append _ ".html"), (newline_free_digits _ Hdig),
      (newline_free_append Py.TAB url), Hurl.
    reflexivity.
  - apply IH; [done | lia | done].
Qed.

End entries.

(** X13. A normal return means a complete manifest: the manifest file
    then holds the entries of all targets, one per target in the order
    of the targets, each made of the name of the index, a tab and the
    URL of the target, each followed by a newline.  When there is at
    least one target and no URL holds a newline, that is one line per
    target; with no target the file is a single newline. *)
Theorem normal_return_means_complete_manifest (env : Env)
    (config : CrawlerConfig) (w : World) :
  let tab := String (ascii_of_nat 9) EmptyString in
  let newline := String (ascii_of_nat 10) EmptyString in
  (crawl env config w).1 = Py.Ok tt →
  ∃ (targets : list (Z * string)) (entries : list string),
    build_urls (base_url config) (start_page config) (end_page config)
    = Py.Ok targets
    ∧ entries
      = map (λ t : Z * (Z * string),
               file_name t.1 (digits_for (Z.of_nat (length targets)))
               +:+ tab +:+ t.2.2)
          (enumerate 1 targets)
    ∧ files (crawl env config w).2 !! index_path config
      = Some (String.concat newline entries +:+ newline)
    ∧ length entries = length targets
    ∧ (targets = [] → String.concat newline entries +:+ newline = newline)
    ∧ (targets ≠ [] →
       Forall (λ t : Z * string, newline_free t.2 = true) targets →
       line_count (String.concat newline entries +:+ newline) = length targets).
Proof.
  intros tab newline Hok.
  destruct (crawl env config w) as [r w'] eqn:Hrun. cbn [fst snd] in *.
  destruct (crawl_wrote_manifest env config w r w' Hrun ltac:(auto))
    as (targets & st & wl & Hurls & Hloop & Hf & _ & _ & Hend).
  destruct Hend as [[_ Hfull]|[Hexit _]]; [|congruence].
  pose proof (digits_for_nonneg (Z.of_nat (length targets))) as Hd.
  apply (full_counter_all_lines env config _ _ _ Hd) in Hloop; [|done].
  subst st. cbn [fst] in Hf.
  exists targets, (all_lines (digits_for (Z.of_nat (length targets))) 1 targets).
  split_and!.
  - done.
  - apply all_lines_enumerate.
  - rewrite Hf. apply lookup_insert_eq.
  - apply length_all_lines.
  - by intros ->.
  - intros Hsome Hfree.
    rewrite <- (length_all_lines (digits_for (Z.of_nat (length targets)))
                  targets 1) at 2.
    apply (line_count_manifest
             (all_lines (digits_for (Z.of_nat (length targets))) 1 targets)).
    + destruct targets as [|[n url] rest]; [done |]. done.
    + apply all_lines_newline_free; [done | lia | done].
Qed.

Lemma normal_return_means_complete_manifest_witness :
  ∃ (targets : list (Z * string)) (entries : list string),
    build_urls (base_url resume_config) (start_page resume_config)
      (end_page resume_config) = Py.Ok targets
    ∧ entries
      = map (λ t : Z * (Z * string),
               file_name t.1 (digits_for (Z.of_nat (length targets)))
               +:+ String (ascii_of_nat 9) EmptyString +:+ t.2.2)
          (enumerate 1 targets)
    ∧ files (crawl resume_env resume_config resume_world).2
        !! index_path resume_config
      = Some (String.concat (String (ascii_of_nat 10) EmptyString) entries
              +:+ String (ascii_of_nat 10) EmptyString)
    ∧ length entries = length targets
    ∧ (targets = [] →
       String.concat (String (ascii_of_nat 10) EmptyString) entries
       +:+ String (ascii_of_nat 10) EmptyString
       = String (ascii_of_nat 10) EmptyString)
    ∧ (targets ≠ [] →
       Forall (λ t : Z * string, newline_free t.2 = true) targets →
       line_count (String.concat (String (ascii_of_nat 10) EmptyString) entries
                   +:+ String (ascii_of_nat 10) EmptyString)
       = length targets).
Proof.
  apply (normal_return_means_complete_manifest resume_env resume_config
           resume_world).
  vm_compute. reflexivity.
Defined.

(** X14. [crawl] leaves through [sys.exit] with no other code than 2, and
    only after it has written a manifest that lacks at least one target:
    the manifest file then holds fewer entries than there are targets,
    each followed by a newline, all of them entries of targets, in the
    order of the targets. *)
Theorem exit_two_means_partial_manifest (env : Env) (config : CrawlerConfig)
    (w : World) (code : Z) :
  let tab := String (ascii_of_nat 9) EmptyString in
  let newline := String (ascii_of_nat 10) EmptyString in
  (crawl env config w).1 = Py.Raise (Py.SystemExit code) →
  code = 2
  ∧ ∃ (targets : list (Z * string)) (entries : list string),
      build_urls (base_url config) (start_page config) (end_page config)
      = Py.Ok targets
      ∧ files (crawl env config w).2 !! index_path config
        = Some (String.concat newline entries +:+ newline)
      ∧ (length entries < length targets)%nat
      ∧ (entries
         `sublist_of`
         map (λ t : Z * (Z * string),
                file_name t.1 (digits_for (Z.of_nat (length targets)))
                +:+ tab +:+ t.2.2)
           (enumerate 1 targets)).
Proof.
  intros tab newline Hexit.
  destruct (crawl env config w) as [r w'] eqn:Hrun. cbn [fst snd] in *.
  destruct (crawl_wrote_manifest env config w r w' Hrun ltac:(eauto))
    as (targets & st & wl & Hurls & Hloop & Hf & _ & _ & Hend).
  destruct Hend as [[Hok _]|[Htwo Hlt]]; [congruence |].
  split; [congruence |]. exists targets, st.1.
  destruct (crawl_loop_spec env config _ _ _ (digits_for_nonneg _) targets 1
              ([], 0) _ _ wl ltac:(lia) Hloop) as [_ Hspec].
  destruct (Hspec st eq_refl) as (_ & new & Hnew & Hcount & _ & Hsub).
  cbn in Hnew, Hcount. rewrite all_lines_enumerate in Hsub.
  split_and!.
  - done.
  - rewrite Hf. apply lookup_insert_eq.
  - rewrite Hnew. lia.
  - by rewrite Hnew.
Qed.

Lemma exit_two_means_partial_manifest_witness :
  2 = 2
  ∧ ∃ (targets : list (Z * string)) (entries : list string),
      build_urls (base_url resume_config) (start_page resume_config)
        (end_page resume_config) = Py.Ok targets
      ∧ files (crawl flaky_env resume_config empty_world).2
          !! index_path resume_config
        = Some (String.concat (String (ascii_of_nat 10) EmptyString) entries
                +:+ String (ascii_of_nat 10) EmptyString)
      ∧ (length entries < length targets)%nat
      ∧ (entries
         `sublist_of`
         map (λ t : Z * (Z * string),
                file_name t.1 (digits_for (Z.of_nat (length targets)))
                +:+ String (ascii_of_nat 9) EmptyString +:+ t.2.2)
           (enumerate 1 targets)).
Proof.
  apply (exit_two_means_partial_manifest flaky_env resume_config empty_world 2).
  vm_compute. reflexivity.
Defined.

(** ** A directory that is already complete *)

(** X15. The resumability test looks at nothing but the name of the
    index: when the directory holds a non-empty file for every index of
    the run, [crawl] makes no request and no pause and returns normally,
    whatever those files contain, whatever the template and the page
    range are, and whatever the remote side would answer; the manifest
    it writes pairs the existing names with the URLs of this run. *)
Theorem complete_directory_run_is_offline (env : Env) (config : CrawlerConfig)
    (targets : list (Z * string)) (w : World) :
  let total := Z.of_nat (length targets) in
  build_urls (base_url config) (start_page config) (end_page config)
    = Py.Ok targets →
  out_dir config ∉ denied env →
  index_path config ∉ denied env →
  (∀ idx, 1 ≤ idx ≤ total →
     saved_before w (out_path config (digits_for total) idx) = true) →
  ∃ w' : World,
    crawl env config w = (Py.Ok tt, w')
    ∧ requests w' = requests w
    ∧ sleeps w' = sleeps w
    ∧ files w'
      = <[index_path config
          := manifest_text (all_lines (digits_for total) 1 targets)]> (files w).
Proof.
  intros total Hurls Hdir Hidx Hsaved.
  destruct (crawl_loop_all_saved env config (make_session (user_agent config))
              total (digits_for total) (digits_for_nonneg total) targets 1
              ([], 0) (started total w))
    as (wl & Hloop & Hlf & Hlr & Hls).
  { intros j Hj. rewrite (saved_before_files w) by apply started_files.
    apply Hsaved. lia. }
  cbn [fst snd app] in Hloop. rewrite Z.add_0_l in Hloop.
  destruct (crawl_after_loop env config targets w _ wl Hdir Hurls Hloop Hidx)
    as (w' & Hrun & Hf & Hr & Hs & _).
  cbn [fst snd] in Hrun, Hf. rewrite Z.ltb_irrefl in Hrun.
  exists w'. split_and!; [done | | |].
  - by rewrite Hr, Hlr.
  - by rewrite Hs, Hls.
  - by rewrite Hf, Hlf.
Qed.

Lemma complete_directory_run_is_offline_witness :
  ∃ w' : World,
    crawl flaky_env other_config resume_world = (Py.Ok tt, w')
    ∧ requests w' = requests resume_world
    ∧ sleeps w' = sleeps resume_world
    ∧ files w'
      = <[index_path other_config
          := manifest_text (all_lines (digits_for 3) 1 other_targets)]>
          (files resume_world).
Proof.
  apply (complete_directory_run_is_offline flaky_env other_config other_targets
           resume_world).
  - vm_compute. reflexivity.
  - apply (bool_decide_unpack _). vm_compute. exact I.
  - apply (bool_decide_unpack _). vm_compute. exact I.
  - intros idx Hidx. change (1 ≤ idx ≤ 3) in Hidx.
    assert (idx = 1 ∨ idx = 2 ∨ idx = 3) as [->|[->| ->]] by lia;
      vm_compute; reflexivity.
Defined.

(** ** The manifest, read back *)

Section reading.

Lemma lines_of_line (l rest : string) :
  newline_free l = true →
  lines_of (l +:+ Py.LF +:+ rest) = l :: lines_of rest.
Proof.
  induction l as [|c l IH]; intros Hfree.
  - reflexivity.
  - cbn [newline_free] in Hfree. apply andb_prop in Hfree as [Hc Hl].
    apply negb_true_iff in Hc.
    change (String c l +:+ Py.LF +:+ rest) with (String c (l +:+ Py.LF +:+ rest)).
    cbn [lines_of]. by rewrite Hc, (IH Hl).
Qed.

Lemma lines_of_manifest (lines : list string) :
  lines ≠ [] →
  Forall (λ l, newline_free l = true) lines →
  lines_of (manifest_text lines) = lines.
Proof.
  unfold manifest_text, Py.join.
  induction lines as [|l rest IH]; [done |]. intros _ Hfree.
  apply Forall_cons in Hfree as [Hl Hrest].
  destruct rest as [|l' rest].
  - cbn [String.concat]. rewrite <- (append_nil_r Py.LF) at 1.
    by rewrite lines_of_line.
  - cbn [String.concat]. rewrite !append_assoc.
    rewrite lines_of_line by done. f_equal. by apply IH.
Qed.

Lemma partition_tab_line (a b : string) :
  tab_free a = true → partition_tab (a +:+ Py.TAB +:+ b) = Some (a, b).
Proof.
  induction a as [|c a IH]; intros Hfree.
  - reflexivity.
  - cbn [tab_free] in Hfree. apply andb_prop in Hfree as [Hc Ha].
    apply negb_true_iff in Hc.
    change (String c a +:+ Py.TAB +:+ b) with (String c (a +:+ Py.TAB +:+ b)).
    cbn [partition_tab]. by rewrite Hc, (IH Ha).
Qed.

Lemma tab_free_append (a b : string) :
  tab_free (a +:+ b) = tab_free a && tab_free b.
Proof.
  induction a as [|c a IH]; cbn; [done |]. by rewrite IH, andb_assoc.
Qed.

Lemma tab_free_digits (s : string) : Py.all_digits s = true → tab_free s = true.
Proof.
  induction s as [|c s IH]; [done |]. cbn [Py.all_digits tab_free].
  intros [Hc Hs]%andb_prop. rewrite (IH Hs), andb_true_r.
  apply negb_true_iff, Ascii.eqb_neq. intros ->. by vm_compute in Hc.
Qed.

End reading.

(** X16. The manifest can be read back.  Splitting the manifest text at
    its newlines gives the lines that were joined, provided there is at
    least one and none holds a newline; and splitting the line of a
    target at its first tab gives the file name and the URL, because a
    file name holds no tab. *)
Theorem manifest_reads_back (lines : list string) (idx digits : Z)
    (fname url : string) :
  (lines ≠ [] →
   Forall (λ l, newline_free l = true) lines →
   lines_of (manifest_text lines) = lines)
  ∧ (0 ≤ idx → 0 ≤ digits →
     file_name_for_index idx digits = Py.Ok fname →
     partition_tab (index_line fname url) = Some (fname, url)).
Proof.
  split; [apply lines_of_manifest |].
  intros Hidx Hd Hname. unfold index_line. apply partition_tab_line.
  rewrite file_name_for_index_nonneg in Hname by done. injection Hname as <-.
  rewrite <- append_assoc, tab_free_append.
  destruct (padded_digits idx (Z.to_nat (digits - Py.len (Py.str idx))) Hidx)
    as (Hdig & _).
  by rewrite (tab_free_digits _ Hdig).
Qed.

Lemma manifest_reads_back_witness :
  lines_of (manifest_text (all_lines 4 1 other_targets))
  = all_lines 4 1 other_targets
  ∧ partition_tab (index_line "0001.html" "http://y/q57.htm")
    = Some ("0001.html", "http://y/q57.htm").
Proof.
  split.
  - apply (manifest_reads_back (all_lines 4 1 other_targets) 1 4 "0001.html"
             "http://y/q57.htm"); [done |].
    repeat constructor.
  - apply (manifest_reads_back [] 1 4 "0001.html" "http://y/q57.htm");
      [lia | lia | reflexivity].
Defined.

(** ** From one run to the next *)

Lemma manifest_text_not_empty (lines : list string) :
  (0 <? Py.len (manifest_text lines)) = true.
Proof.
  unfold manifest_text. rewrite len_append.
  change (Py.len Py.LF) with 1.
  pose proof (len_nonneg (Py.join Py.LF lines)). apply Z.ltb_lt. lia.
Qed.

Lemma pending_urls_shrink (config : CrawlerConfig) (digits : Z) (w w' : World)
    (targets : list (Z * string)) : ∀ idx,
  (∀ path, saved_before w path = true → saved_before w' path = true) →
  pending_urls config digits w' idx targets
  `sublist_of` pending_urls config digits w idx targets.
Proof.
  induction targets as [|[n url] rest IH]; intros idx Hmono; cbn; [done |].
  destruct (saved_before w (out_path config digits idx)) eqn:Hs.
  - rewrite (Hmono _ Hs). by apply IH.
  - destruct (saved_before w' (out_path config digits idx)).
    + apply sublist_cons. by apply IH.
    + apply sublist_skip. by apply IH.
Qed.

(** X17. What is saved stays saved: a path that passes the resumability
    test before a call of [crawl] passes it afterwards, however the call
    ends.  So, for the same targets, the URLs that a later run still has
    to request are among those that were pending before, in the same
    order. *)
Theorem resumption_is_monotone (env : Env) (config : CrawlerConfig) (w : World)
    (digits : Z) (targets : list (Z * string)) :
  (∀ path, saved_before w path = true →
           saved_before (crawl env config w).2 path = true)
  ∧ (pending_urls config digits (crawl env config w).2 1 targets
     `sublist_of` pending_urls config digits w 1 targets).
Proof.
  assert (Hmono : ∀ path, saved_before w path = true →
                          saved_before (crawl env config w).2 path = true).
  { intros path Hsaved.
    destruct (crawl env config w) as [r w'] eqn:Hrun. cbn [snd].
    apply crawl_ends in Hrun.
    assert (Hloop : ∀ tg rl wl,
      crawl_loop env config (make_session (user_agent config))
        (Z.of_nat (length tg)) (digits_for (Z.of_nat (length tg)))
        1 tg ([], 0) (started (Z.of_nat (length tg)) w) = (rl, wl) →
      saved_before wl path = true).
    { intros tg rl wl Hl.
      destruct (crawl_loop_files env config _ _ _ (digits_for_nonneg _)
                  tg 1 ([], 0) _ rl wl Hl path) as (Hkeep & _).
      unfold saved_before in *. rewrite Hkeep; [done |].
      by rewrite started_files. }
    assert (Hwritten : ∀ (wl w2 : World) (lines : list string),
      saved_before wl path = true →
      files w2 = <[index_path config := manifest_text lines]> (files wl) →
      saved_before w2 path = true).
    { intros wl w2 lines Hwl Hf. unfold saved_before in *. rewrite Hf.
      destruct (decide (index_path config = path)) as [->|Hne].
      - rewrite lookup_insert_eq. apply manifest_text_not_empty.
      - by rewrite lookup_insert_ne. }
    inversion Hrun as [| | tg e wl _ _ Hl | tg st wl _ _ Hl
                       | tg st wl w2 _ _ Hl _ _ Hf
                       | tg st wl w2 _ _ Hl _ _ Hf]; subst; try done.
    - by apply (Hloop _ _ _ Hl).
    - by apply (Hloop _ _ _ Hl).
    - apply (Hwritten wl w' st.1); [by apply (Hloop _ _ _ Hl) | done].
    - apply (Hwritten wl w' st.1); [by apply (Hloop _ _ _ Hl) | done]. }
  split; [done |]. by apply pending_urls_shrink.
Qed.

Lemma resumption_is_monotone_witness :
  saved_before (crawl flaky_env resume_config resume_world).2 "dump/0001.html"
  = true.
Proof.
  apply (resumption_is_monotone flaky_env resume_config resume_world 4
           resume_targets).
  reflexivity.
Defined.
